(** * stanalyzer: the recommendation engine of [modules/recommendations.py]

    A shallow embedding of [RecommendationModule]: the weighted performer
    similarity, the tag vocabulary, the three seed strategies of
    [recommend_performers], the scene categorisation of [recommend_scenes]
    and the rotating caches, followed by the properties of the
    specification that concern them.

    Python records are dictionaries from attribute names to dynamically
    typed scalars, so a performer, a tag and a candidate entry are
    [gmap string pyval]; numbers are exact rationals (an [int] and a
    [float] are both a [VNum]); an exception is a value of [pyexn].

    The numbers of the model are the finite ones and arithmetic on them
    is exact: a [float] that is NaN or infinite, the rounding of doubles
    (a sum of terms that is 0.5 in the rationals can be
    0.5000000000000001 in doubles), the [OverflowError] of [int()] and
    [/] on values beyond the range of a double, and values that are not
    scalars are outside of it. *)

From Stdlib Require Import Ascii String QArith Qminmax Qabs Qround Lqa Sorted.
From stdpp Require Import gmap strings list pretty.

Local Open Scope Z_scope.
Local Open Scope Q_scope.
Local Open Scope string_scope.
Local Open Scope list_scope.

(** ** Python values *)

Inductive pyval : Type :=
| VNone
| VBool (b : bool)
| VNum (q : Q)
| VStr (s : string).

Inductive pyexn : Type :=
| TypeError
| ValueError
| ZeroDivisionError
| AttributeError
| CollaboratorError.

(** The outcome of an expression: a value or a raised exception. *)
Inductive result (A : Type) : Type :=
| Ok (a : A)
| Raise (e : pyexn).
Arguments Ok {A} a.
Arguments Raise {A} e.

Definition rbind {A B} (c : result A) (k : A -> result B) : result B :=
  match c with
  | Ok a => k a
  | Raise e => Raise e
  end.

Declare Scope py_scope.
Delimit Scope py_scope with py.
Notation "x <- c ;; k" := (rbind c (fun x => k))
  (at level 100, c at next level, right associativity) : py_scope.
Local Open Scope py_scope.

(** [try: body except (ValueError, ZeroDivisionError): pass], for a body
    that yields the amount to add: [None] is the skipped term. *)
Definition try_value_zero (body : result Q) : result (option Q) :=
  match body with
  | Ok q => Ok (Some q)
  | Raise ValueError => Ok None
  | Raise ZeroDivisionError => Ok None
  | Raise e => Raise e
  end.

Definition Qltb (a b : Q) : bool := negb (Qle_bool b a).

(** [bool(v)] *)
Definition truthy (v : pyval) : bool :=
  match v with
  | VNone => false
  | VBool b => b
  | VNum q => negb (Qeq_bool q 0)
  | VStr s => negb (String.eqb s "")
  end.

(** An operand of arithmetic: [bool] is a subclass of [int]; [None] and
    [str] operands make [-], [abs] and [/] raise [TypeError]. *)
Definition as_num (v : pyval) : result Q :=
  match v with
  | VBool b => Ok (if b then 1 else 0)
  | VNum q => Ok q
  | VNone => Raise TypeError
  | VStr _ => Raise TypeError
  end.

(** [v > q], [v >= q] for a number [q] *)
Definition py_gt (v : pyval) (q : Q) : result bool :=
  x <- as_num v ;; Ok (Qltb q x).

Definition py_ge (v : pyval) (q : Q) : result bool :=
  x <- as_num v ;; Ok (Qle_bool q x).

(** [v == w]: never raises; numbers compare by value, across [bool]. *)
Definition py_eq (v w : pyval) : bool :=
  match v, w with
  | VNone, VNone => true
  | VStr s, VStr t => String.eqb s t
  | (VBool _ | VNum _), (VBool _ | VNum _) =>
      match as_num v, as_num w with
      | Ok a, Ok b => Qeq_bool a b
      | _, _ => false
      end
  | _, _ => false
  end.

Definition py_ne (v w : pyval) : bool := negb (py_eq v w).

(** *** [int(v)] *)

Definition is_space (c : ascii) : bool :=
  let n := nat_of_ascii c in
  (Nat.eqb n 32 || (Nat.leb 9 n && Nat.leb n 13))%bool.

Fixpoint lstrip (s : string) : string :=
  match s with
  | String c s' => if is_space c then lstrip s' else s
  | EmptyString => EmptyString
  end.

Fixpoint rstrip (s : string) : string :=
  match s with
  | String c s' =>
      match rstrip s' with
      | EmptyString => if is_space c then EmptyString else String c EmptyString
      | r => String c r
      end
  | EmptyString => EmptyString
  end.

Definition digit_of (c : ascii) : option Z :=
  let n := nat_of_ascii c in
  if (Nat.leb 48 n && Nat.leb n 57)%bool then Some (Z.of_nat (n - 48)) else None.

(** Decimal digits, a single underscore allowed between two digits.
    [after_digit] tells whether the previous character was a digit. *)
Fixpoint parse_digits (s : string) (acc : Z) (after_digit : bool) : option Z :=
  match s with
  | EmptyString => if after_digit then Some acc else None
  | String c s' =>
      match digit_of c with
      | Some d => parse_digits s' (acc * 10 + d)%Z true
      | None =>
          if (Nat.eqb (nat_of_ascii c) 95 && after_digit)%bool
          then parse_digits s' acc false
          else None
      end
  end.

Definition parse_int (s : string) : option Z :=
  match rstrip (lstrip s) with
  | String "-" s' => Z.opp <$> parse_digits s' 0%Z false
  | String "+" s' => parse_digits s' 0%Z false
  | s' => parse_digits s' 0%Z false
  end.

Definition py_int (v : pyval) : result Z :=
  match v with
  | VNone => Raise TypeError
  | VBool b => Ok (if b then 1 else 0)%Z
  | VNum q => Ok (Z.quot (Qnum q) (Zpos (Qden q)))
  | VStr s =>
      match parse_int s with
      | Some z => Ok z
      | None => Raise ValueError
      end
  end.

(** [hay.index(needle)] for a string [hay] *)
Definition str_index (hay : string) (needle : pyval) : result nat :=
  match needle with
  | VStr s =>
      match String.index 0 s hay with
      | Some i => Ok i
      | None => Raise ValueError
      end
  | _ => Raise TypeError
  end.

(** ** Dictionaries of scalars *)

Abbreviation pydict := (gmap string pyval).

(** [d.get(k)] and [d.get(k, dflt)] *)
Definition get (d : pydict) (k : string) : pyval := default VNone (d !! k).
Definition getd (d : pydict) (k : string) (dflt : pyval) : pyval := default dflt (d !! k).

(** ** The similarity scorer *)

Module weights.
Definition cup_to_bmi : Q := 3 # 10.
Definition o_counter : Q := 2 # 10.
Definition scene_count : Q := 1 # 10.
Definition band_size : Q := 2 # 10.
Definition cup_letter : Q := 2 # 10.
Definition volume : Q := 3 # 10.
Definition height : Q := 1 # 10.
Definition weight : Q := 1 # 10.
End weights.

(** [a / b] *)
Definition py_div (a b : Q) : result Q :=
  if Qeq_bool b 0 then Raise ZeroDivisionError else Ok (a / b).

(** [1 - min(abs(a - b) / max(a, b), 1)] *)
Definition ratio_similarity (a b : Q) : result Q :=
  r <- py_div (Qabs (a - b)) (Qmax a b) ;; Ok (1 - Qmin r 1).

(** [1 - min(abs(a - b) / scale, 1)] for a literal [scale] *)
Definition scaled_similarity (a b scale : Q) : result Q :=
  r <- py_div (Qabs (a - b)) scale ;; Ok (1 - Qmin r 1).

(** [x > 0 and y > 0], the right operand evaluated only when the left holds *)
Definition both_positive (x y : pyval) : result bool :=
  bx <- py_gt x 0 ;; if bx : bool then py_gt y 0 else Ok false.

(** Each block of [_calculate_similarity] yields what it adds to
    [similarity]: [Some c] when the block executes [similarity += c],
    [None] when it is skipped. *)

Definition cup_to_bmi_term (base target : pydict) : result (option Q) :=
  if (truthy (get base "bmi") && truthy (get target "bmi"))%bool then
    let cup_to_bmi_base := getd base "cup_to_bmi" (VNum 0) in
    let cup_to_bmi_target := getd target "cup_to_bmi" (VNum 0) in
    if (truthy cup_to_bmi_base && truthy cup_to_bmi_target)%bool then
      a <- as_num cup_to_bmi_base ;;
      b <- as_num cup_to_bmi_target ;;
      bmi_similarity <- ratio_similarity a b ;;
      Ok (Some (bmi_similarity * weights.cup_to_bmi))
    else Ok None
  else Ok None.

(** The blocks guarded by [x > 0 and y > 0] on the attribute [k] *)
Definition positive_term (k : string) (sim : Q -> Q -> result Q) (w : Q)
    (base target : pydict) : result (option Q) :=
  let x := getd base k (VNum 0) in
  let y := getd target k (VNum 0) in
  ok <- both_positive x y ;;
  if ok : bool then
    a <- as_num x ;;
    b <- as_num y ;;
    s <- sim a b ;;
    Ok (Some (s * w))
  else Ok None.

Definition o_counter_term := positive_term "o_counter" ratio_similarity weights.o_counter.
Definition scene_count_term := positive_term "scene_count" ratio_similarity weights.scene_count.
Definition volume_term := positive_term "volume_cc" ratio_similarity weights.volume.
Definition height_term :=
  positive_term "height_cm" (fun a b => scaled_similarity a b 30) weights.height.
Definition weight_term :=
  positive_term "weight" (fun a b => scaled_similarity a b 30) weights.weight.

Definition band_size_term (base target : pydict) : result (option Q) :=
  let base_band := get base "band_size" in
  let target_band := get target "band_size" in
  if (truthy base_band && truthy target_band)%bool then
    try_value_zero
      (a <- py_int base_band ;;
       b <- py_int target_band ;;
       band_similarity <- ratio_similarity (inject_Z a) (inject_Z b) ;;
       Ok (band_similarity * weights.band_size))
  else Ok None.

Definition cup_letters : string := "ABCDEFGHIJK".

Definition cup_letter_term (base target : pydict) : result (option Q) :=
  let base_cup := get base "cup_letter" in
  let target_cup := get target "cup_letter" in
  if (truthy base_cup && truthy target_cup)%bool then
    try_value_zero
      (base_cup_index <- str_index cup_letters base_cup ;;
       target_cup_index <- str_index cup_letters target_cup ;;
       cup_similarity <-
         scaled_similarity (inject_Z (Z.of_nat base_cup_index))
                           (inject_Z (Z.of_nat target_cup_index))
                           (inject_Z (Z.of_nat (String.length cup_letters))) ;;
       Ok (cup_similarity * weights.cup_letter))
  else Ok None.

(** [similarity += c] *)
Definition add_term (similarity : Q) (t : option Q) : Q :=
  match t with
  | Some c => similarity + c
  | None => similarity
  end.

Definition similarity_terms : list (pydict -> pydict -> result (option Q)) :=
  [cup_to_bmi_term; o_counter_term; scene_count_term; band_size_term;
   cup_letter_term; volume_term; height_term; weight_term].

Fixpoint run_terms (ts : list (pydict -> pydict -> result (option Q)))
    (base target : pydict) (similarity : Q) : result Q :=
  match ts with
  | [] => Ok similarity
  | t :: ts' =>
      c <- t base target ;;
      run_terms ts' base target (add_term similarity c)
  end.

Definition _calculate_similarity (base_performer target_performer : pydict) : result Q :=
  run_terms similarity_terms base_performer target_performer 0.

(** ** Lists, sets and counters of Python values *)

(** [sorted(l, key=key, reverse=True)] and [l.sort(key=key, reverse=True)]:
    a stable sort, elements with equal keys keep their order. [lt] is the
    comparison [<] of the keys. *)
Fixpoint insert_desc {A K} (lt : K -> K -> bool) (key : A -> K) (x : A) (l : list A) : list A :=
  match l with
  | [] => [x]
  | y :: ys =>
      if lt (key x) (key y) then y :: insert_desc lt key x ys else x :: y :: ys
  end.

Definition sorted_desc {A K} (lt : K -> K -> bool) (key : A -> K) (l : list A) : list A :=
  foldr (insert_desc lt key) [] l.

(** [v in l] *)
Definition py_in (v : pyval) (l : list pyval) : bool := existsb (py_eq v) l.

(** [set(l)], as a list without repetition *)
Fixpoint py_set (l : list pyval) : list pyval :=
  match l with
  | [] => []
  | x :: l' => if py_in x l' then py_set l' else x :: py_set l'
  end.

(** [len(set(l1).intersection(l2))] *)
Definition intersection_size (l1 l2 : list pyval) : nat :=
  length (filter (fun x => Is_true (py_in x l2)) (py_set l1)).

(** [len(set(l1).union(set(l2)))] *)
Definition union_size (l1 l2 : list pyval) : nat :=
  length (py_set (l1 ++ l2)).

(** A [collections.Counter]: keys in order of first insertion. *)
Abbreviation counter := (list (pyval * Q)).

(** [c[k] += w] *)
Fixpoint counter_add (k : pyval) (w : Q) (c : counter) : counter :=
  match c with
  | [] => [(k, 0 + w)]
  | (k', n) :: c' =>
      if py_eq k' k then (k', n + w) :: c' else (k', n) :: counter_add k w c'
  end.

(** [Counter(l)] *)
Definition counter_of (l : list pyval) : counter :=
  foldl (fun c k => counter_add k 1 c) [] l.

(** [c.most_common(n)] *)
Definition most_common (n : nat) (c : counter) : counter :=
  take n (sorted_desc Qltb snd c).

(** An insertion-ordered [dict] with string keys: [d[k] = v] keeps the
    position of a key that is already there. *)
Fixpoint dict_set {V} (k : string) (v : V) (d : list (string * V)) : list (string * V) :=
  match d with
  | [] => [(k, v)]
  | (k', v') :: d' =>
      if String.eqb k' k then (k', v) :: d' else (k', v') :: dict_set k v d'
  end.

Fixpoint dict_get {V} (k : string) (d : list (string * V)) : option V :=
  match d with
  | [] => None
  | (k', v') :: d' => if String.eqb k' k then Some v' else dict_get k d'
  end.

(** [l[i:] + l[:i]] *)
Definition rotate {A} (i : nat) (l : list A) : list A := drop i l ++ take i l.

(** ** Scenes and the tag analyzer *)

(** A scene: its scalar attributes and its two list-valued keys, read as
    [scene.get('performers', [])] and [scene.get('tags', [])]. *)
Record scene : Type := {
  scalars : pydict;
  performers : list pydict;
  tags : list pydict;
}.

(** The inner loop of [_get_popular_tags] over the tags of one scene *)
Fixpoint count_tags (tags : list pydict) (o_counter : Q) (tag_counter : counter) : counter :=
  match tags with
  | [] => tag_counter
  | tag :: tags' =>
      let tag_name := getd tag "name" (VStr "") in
      if truthy tag_name
      then count_tags tags' o_counter (counter_add tag_name o_counter tag_counter)
      else count_tags tags' o_counter tag_counter
  end.

Fixpoint weigh_scenes (scenes_data : list scene) (min_o_counter : Q) (tag_counter : counter)
    : result counter :=
  match scenes_data with
  | [] => Ok tag_counter
  | scene :: rest =>
      let o_counter := getd (scalars scene) "o_counter" (VNum 0) in
      qualifies <- py_ge o_counter min_o_counter ;;
      if qualifies : bool then
        w <- as_num o_counter ;;
        weigh_scenes rest min_o_counter (count_tags (tags scene) w tag_counter)
      else weigh_scenes rest min_o_counter tag_counter
  end.

Definition _get_popular_tags (scenes_data : list scene) (min_o_counter : Q) (top_n : nat)
    : result (list pyval) :=
  tag_counter <- weigh_scenes scenes_data min_o_counter [] ;;
  Ok (map fst (most_common top_n tag_counter)).

Definition _calculate_tag_similarity (tags1 tags2 : list pyval) : Q :=
  match tags1, tags2 with
  | [], _ => 0
  | _, [] => 0
  | _, _ =>
      let intersection := intersection_size tags1 tags2 in
      let union := union_size tags1 tags2 in
      if Nat.eqb union 0 then 0
      else inject_Z (Z.of_nat intersection) / inject_Z (Z.of_nat union)
  end.

(** ** Recommendation records, the statistics payload and the module state *)

(** A performer recommendation: [{'id', 'performer', 'similar_performers',
    'recommendation_type'}]. *)
Record recommendation : Type := {
  rec_id : string;
  rec_performer : pydict;
  similar_performers : list pydict;
  recommendation_type : string;
}.

(** A scene recommendation: [{'id', 'title', 'performers', 'tags',
    'tag_similarity', 'similarity'}]. *)
Record scene_recommendation : Type := {
  scene_id : pyval;
  title : pyval;
  performer_names : list pyval;
  tag_names : list pyval;
  tag_similarity : Q;
  similarity : nat;
}.

(** What [recommend_performers] and [recommend_scenes] read of the
    dictionary returned by [stats_module.generate_all_stats()]:
    [stats['top_o_counter_performers']],
    [stats['volume_stats']['top_volume_performers']],
    [stats['cup_size_stats']['cup_size_dataframe']],
    [stats['cup_size_o_counter_correlation']['cup_letter_o_stats']],
    each read with [.get] and an empty default; [other_fields] stands for
    every other key of the payload. *)
Record stats : Type := {
  top_o_counter_performers : list pydict;
  top_volume_performers : list pydict;
  cup_size_dataframe : list pydict;
  cup_letter_o_stats : list pydict;
  other_fields : pydict;
}.

(** The attributes of a [RecommendationModule] instance. The two
    collaborators are not part of it: what they answer is an argument of
    the call that asks them. *)
Record module_state : Type := {
  performers_data : list pydict;
  scenes_data : list scene;
  _performer_recommendation_cache : list (string * recommendation);
  _scene_recommendation_cache : gmap string (list scene_recommendation);
  _recommendation_counter : nat;
}.

Definition with_counter (n : nat) (self : module_state) : module_state :=
  {| performers_data := performers_data self;
     scenes_data := scenes_data self;
     _performer_recommendation_cache := _performer_recommendation_cache self;
     _scene_recommendation_cache := _scene_recommendation_cache self;
     _recommendation_counter := n |}.

Definition with_performer_cache (c : list (string * recommendation)) (self : module_state)
    : module_state :=
  {| performers_data := performers_data self;
     scenes_data := scenes_data self;
     _performer_recommendation_cache := c;
     _scene_recommendation_cache := _scene_recommendation_cache self;
     _recommendation_counter := _recommendation_counter self |}.

Definition with_scene_cache (c : gmap string (list scene_recommendation)) (self : module_state)
    : module_state :=
  {| performers_data := performers_data self;
     scenes_data := scenes_data self;
     _performer_recommendation_cache := _performer_recommendation_cache self;
     _scene_recommendation_cache := c;
     _recommendation_counter := _recommendation_counter self |}.

(** [__init__] and [reload_data]: [loaded] is what [_load_data] obtains
    from the data source, [Raise] when either fetch fails. *)
Definition _load_data (loaded : result (list pydict * list scene)) : list pydict * list scene :=
  match loaded with
  | Ok snapshot => snapshot
  | Raise _ => ([], [])
  end.

Definition init (loaded : result (list pydict * list scene)) : module_state :=
  let snapshot := _load_data loaded in
  {| performers_data := fst snapshot;
     scenes_data := snd snapshot;
     _performer_recommendation_cache := [];
     _scene_recommendation_cache := ∅;
     _recommendation_counter := 0 |}.

Definition reload_data (loaded : result (list pydict * list scene)) (self : module_state)
    : module_state := init loaded.

(** [x['similarity']] of a candidate entry *)
Definition entry_similarity (x : pydict) : Q :=
  match x !! "similarity" with
  | Some (VNum q) => q
  | _ => 0
  end.

(** [pd.DataFrame(rows).empty]: no row, or no column in any row *)
Definition df_empty (rows : list pydict) : bool :=
  forallb (fun row => Nat.eqb (size row) 0) rows.

(** [v < w] for two numbers or two strings *)
Definition py_lt (v w : pyval) : bool :=
  match v, w with
  | VStr s, VStr t => String.ltb s t
  | _, _ =>
      match as_num v, as_num w with
      | Ok a, Ok b => Qltb a b
      | _, _ => false
      end
  end.

Definition is_number (v : pyval) : bool :=
  match v with VBool _ | VNum _ => true | _ => false end.

Definition is_string (v : pyval) : bool :=
  match v with VStr _ => true | _ => false end.

(** [sorted(l, key=key, reverse=True)] for keys that are Python values:
    ordering two keys raises [TypeError] unless both are numbers or both
    are strings; a list of fewer than two elements orders nothing. *)
Definition py_sorted_desc {A} (key : A -> pyval) (l : list A) : result (list A) :=
  match l with
  | [] | [_] => Ok l
  | _ =>
      if (forallb is_number (map key l) || forallb is_string (map key l))%bool
      then Ok (sorted_desc py_lt key l)
      else Raise TypeError
  end.

(** ** The recommender *)

Section Engine.

(** [str(v)] as an f-string renders a value, and [format(q, '.2f')]. *)
Variable py_str : pyval -> string.
Variable py_format_2f : Q -> string.

(** The state of the [random] module and [random.shuffle]. *)
Variable rng : Type.
Variable shuffle : forall A : Type, list A -> rng -> list A * rng.

(** What a method can change: the instance and the random state. *)
Definition heap : Type := module_state * rng.

(** A statement sequence inside [try]: it yields a value or raises, and
    what it assigned to the instance before raising stays assigned. *)
Definition M (A : Type) : Type := heap -> result A * heap.

Definition ret {A} (a : A) : M A := fun h => (Ok a, h).

Definition bind {A B} (c : M A) (k : A -> M B) : M B :=
  fun h =>
    match c h with
    | (Ok a, h') => k a h'
    | (Raise e, h') => (Raise e, h')
    end.

Definition lift {A} (r : result A) : M A := fun h => (r, h).

Definition read_self : M module_state := fun h => (Ok (fst h), h).

Notation "x <~ c ;; k" := (bind c (fun x => k))
  (at level 100, c at next level, right associativity).

(** [self._performer_recommendation_cache[recommendation_id] = recommendation] *)
Definition cache_store (recommendation_id : string) (r : recommendation) : M unit :=
  fun h =>
    let self := fst h in
    (Ok tt,
     (with_performer_cache
        (dict_set recommendation_id r (_performer_recommendation_cache self)) self,
      snd h)).

(** [random.shuffle(l)] *)
Definition random_shuffle {A} (l : list A) : M (list A) :=
  fun h => let (l', g) := shuffle A l (snd h) in (Ok l', (fst h, g)).

(** [for x in l: body], threading the local variables [s] *)
Fixpoint for_each {A S} (l : list A) (body : A -> S -> M S) (s : S) : M S :=
  match l with
  | [] => ret s
  | x :: l' => s' <~ body x s ;; for_each l' body s'
  end.

(** *** 1. Seeds with the top o_counter *)

Definition o_counter_entry (base_performer target_performer : pydict) (sim : Q) : pydict :=
  list_to_map
    [("id", get target_performer "id");
     ("name", getd target_performer "name" (VStr "Unknown"));
     ("cup_size",
      VStr (py_str (getd target_performer "band_size" (VStr "N/A"))
            +:+ py_str (getd target_performer "cup_letter" (VStr ""))));
     ("cup_to_bmi", get target_performer "cup_to_bmi");
     ("o_counter", getd target_performer "o_counter" (VNum 0));
     ("similarity", VNum sim);
     ("reason",
      VStr ("Ähnlich zu " +:+ py_str (getd base_performer "name" (VStr "Unknown"))
            +:+ " (O-Counter: " +:+ py_str (getd base_performer "o_counter" (VNum 0))
            +:+ ")"))].

(** The scan of [performers_data] for one seed *)
Fixpoint similar_to (base_performer : pydict) (targets : list pydict)
    : result (list pydict) :=
  match targets with
  | [] => Ok []
  | target_performer :: rest =>
      if py_eq (get target_performer "id") (get base_performer "id")
      then similar_to base_performer rest
      else if py_ne (getd target_performer "o_counter" (VNum 0)) (VNum 0)
      then similar_to base_performer rest
      else
        sim <- _calculate_similarity base_performer target_performer ;;
        found <- similar_to base_performer rest ;;
        Ok (if Qltb (1 # 2) sim
            then o_counter_entry base_performer target_performer sim :: found
            else found)
  end.

Definition o_counter_seed (base_performer : pydict)
    (recommendations : list recommendation) : M (list recommendation) :=
  self <~ read_self ;;
  found <~ lift (similar_to base_performer (performers_data self)) ;;
  let similar := sorted_desc Qltb entry_similarity found in
  match similar with
  | [] => ret recommendations
  | _ =>
      let recommendation_id :=
        "o_counter_" +:+ py_str (getd base_performer "id" (VStr "")) in
      let recommendation :=
        {| rec_id := recommendation_id;
           rec_performer :=
             list_to_map
               [("name", getd base_performer "name" (VStr "Unknown"));
                ("measurements", getd base_performer "measurements" (VStr "N/A"));
                ("o_counter", getd base_performer "o_counter" (VNum 0));
                ("cup_to_bmi", get base_performer "cup_to_bmi")];
           similar_performers := take 5 similar;
           recommendation_type := "o_counter_similarity" |} in
      _ <~ cache_store recommendation_id recommendation ;;
      ret (recommendations ++ [recommendation])
  end.

Definition o_counter_strategy (seeds : list pydict)
    (recommendations : list recommendation) : M (list recommendation) :=
  for_each seeds o_counter_seed recommendations.

(** *** 2. Seeds with the top breast volume *)

Definition volume_entry (volume_performer performer : pydict) (volume_similarity : Q)
    : pydict :=
  list_to_map
    [("id", get performer "id");
     ("name", getd performer "name" (VStr "Unknown"));
     ("cup_size", getd performer "cup_size" (VStr "N/A"));
     ("volume_cc", getd performer "volume_cc" (VNum 0));
     ("o_counter", VNum 0);
     ("similarity", VNum volume_similarity);
     ("reason",
      VStr ("Ähnliches Brustvolumen wie "
            +:+ py_str (getd volume_performer "name" (VStr "Unknown"))
            +:+ " (O-Counter: "
            +:+ py_str (getd volume_performer "o_counter" (VNum 0)) +:+ ")"))].

Fixpoint volume_similar_to (volume_performer : pydict) (target_volume : Q)
    (candidates : list pydict) : result (list pydict) :=
  match candidates with
  | [] => Ok []
  | performer :: rest =>
      seen <- py_gt (getd performer "o_counter" (VNum 0)) 0 ;;
      if seen : bool then volume_similar_to volume_performer target_volume rest
      else
        let performer_volume := getd performer "volume_cc" (VNum 0) in
        has_volume <- py_gt performer_volume 0 ;;
        if has_volume : bool then
          pv <- as_num performer_volume ;;
          let volume_diff := Qabs (pv - target_volume) in
          r <- py_div volume_diff (Qmax target_volume pv) ;;
          let volume_similarity := Qmax 0 (1 - r) in
          found <- volume_similar_to volume_performer target_volume rest ;;
          Ok (if Qltb (7 # 10) volume_similarity
              then volume_entry volume_performer performer volume_similarity :: found
              else found)
        else volume_similar_to volume_performer target_volume rest
  end.

Definition volume_seed (volume_performer : pydict)
    (recommendations : list recommendation) : M (list recommendation) :=
  engaged <~ lift (py_gt (getd volume_performer "o_counter" (VNum 0)) 0) ;;
  if engaged : bool then
    let target_volume := getd volume_performer "volume_cc" (VNum 0) in
    has_volume <~ lift (py_gt target_volume 0) ;;
    if has_volume : bool then
      self <~ read_self ;;
      found <~ lift (tv <- as_num target_volume ;;
                     volume_similar_to volume_performer tv (performers_data self)) ;;
      let volume_similar_performers := sorted_desc Qltb entry_similarity found in
      match volume_similar_performers with
      | [] => ret recommendations
      | _ =>
          let recommendation_id :=
            "volume_" +:+ py_str (getd volume_performer "id" (VStr "")) in
          let recommendation :=
            {| rec_id := recommendation_id;
               rec_performer :=
                 list_to_map
                   [("name", getd volume_performer "name" (VStr "Unknown"));
                    ("measurements", getd volume_performer "measurements" (VStr "N/A"));
                    ("o_counter", getd volume_performer "o_counter" (VNum 0));
                    ("volume_cc", getd volume_performer "volume_cc" (VNum 0));
                    ("cup_size", getd volume_performer "cup_size" (VStr "N/A"))];
               similar_performers := take 5 volume_similar_performers;
               recommendation_type := "volume_similarity" |} in
          _ <~ cache_store recommendation_id recommendation ;;
          ret (recommendations ++ [recommendation])
      end
    else ret recommendations
  else ret recommendations.

Definition volume_strategy (seeds cup_df : list pydict)
    (recommendations : list recommendation) : M (list recommendation) :=
  match seeds with
  | [] => ret recommendations
  | _ =>
      if df_empty cup_df then ret recommendations
      else for_each seeds volume_seed recommendations
  end.

(** *** 3. The cup letters with the top average o_counter *)

Definition cup_entry (performer : pydict) (cup_letter : pyval) (avg_o_count : Q) : pydict :=
  list_to_map
    [("id", get performer "id");
     ("name", getd performer "name" (VStr "Unknown"));
     ("cup_size",
      VStr (py_str (getd performer "band_size" (VStr "N/A")) +:+ py_str cup_letter));
     ("o_counter", VNum 0);
     ("similarity", VNum (8 # 10));
     ("reason",
      VStr ("Cup-Größe " +:+ py_str cup_letter
            +:+ " hat durchschnittlichen O-Counter von "
            +:+ py_format_2f avg_o_count))].

Definition has_cup (cup_letter : pyval) (performer : pydict) : bool :=
  py_eq (get performer "cup_letter") cup_letter
  && py_eq (getd performer "o_counter" (VNum 0)) (VNum 0).

Definition cup_seed (cup_stat : pydict)
    (recommendations : list recommendation) : M (list recommendation) :=
  let cup_letter := get cup_stat "cup_letter" in
  let avg_o_count := getd cup_stat "avg_o_count" (VNum 0) in
  if truthy cup_letter then
    popular <~ lift (py_gt avg_o_count 0) ;;
    if popular : bool then
      self <~ read_self ;;
      avg <~ lift (as_num avg_o_count) ;;
      cup_similar_performers <~
        random_shuffle
          (map (fun performer => cup_entry performer cup_letter avg)
               (List.filter (has_cup cup_letter) (performers_data self))) ;;
      match cup_similar_performers with
      | [] => ret recommendations
      | _ =>
          let recommendation_id := "cup_" +:+ py_str cup_letter in
          let recommendation :=
            {| rec_id := recommendation_id;
               rec_performer :=
                 list_to_map
                   [("name", VStr ("Cup-Größe " +:+ py_str cup_letter));
                    ("measurements", VStr ("Cup " +:+ py_str cup_letter));
                    ("o_counter", avg_o_count);
                    ("cup_letter", cup_letter)];
               similar_performers := take 5 cup_similar_performers;
               recommendation_type := "cup_size_popularity" |} in
          _ <~ cache_store recommendation_id recommendation ;;
          ret (recommendations ++ [recommendation])
      end
    else ret recommendations
  else ret recommendations.

Definition cup_strategy (cup_letter_stats : list pydict)
    (recommendations : list recommendation) : M (list recommendation) :=
  match cup_letter_stats with
  | [] => ret recommendations
  | _ =>
      sorted_cup_stats <~
        lift (py_sorted_desc (fun x => getd x "avg_o_count" (VNum 0)) cup_letter_stats) ;;
      for_each (take 3 sorted_cup_stats) cup_seed recommendations
  end.

(** *** [recommend_performers] *)

(** The body of the [try] block: [stats_outcome] is what
    [self.stats_module.generate_all_stats()] answers. *)
Definition performer_scan (stats_outcome : result stats) : M (list recommendation) :=
  stats <~ lift stats_outcome ;;
  let cup_df := cup_size_dataframe stats in
  recommendations <~ o_counter_strategy (top_o_counter_performers stats) [] ;;
  recommendations <~ volume_strategy (top_volume_performers stats) cup_df recommendations ;;
  recommendations <~ cup_strategy (cup_letter_o_stats stats) recommendations ;;
  recommendations <~ random_shuffle recommendations ;;
  ret (take 10 recommendations).

Definition recommend_performers (stats_outcome : result stats) (h : heap)
    : list recommendation * heap :=
  let self := with_counter (S (_recommendation_counter (fst h))) (fst h) in
  let h := (self, snd h) in
  match _performer_recommendation_cache self with
  | _ :: _ =>
      let cached_recommendations := map snd (_performer_recommendation_cache self) in
      let rotation_index :=
        (_recommendation_counter self mod length cached_recommendations)%nat in
      (take 10 (rotate rotation_index cached_recommendations), h)
  | [] =>
      match performers_data self with
      | [] => ([], h)
      | _ :: _ =>
          match performer_scan stats_outcome h with
          | (Ok recommendations, h') => (recommendations, h')
          | (Raise _, h') => ([], h')
          end
      end
  end.

End Engine.

(** *** [recommend_scenes] *)

Definition favorite_performer_scenes : string := "favorite_performer_scenes".
Definition non_favorite_performer_scenes : string := "non_favorite_performer_scenes".
Definition recommended_performer_scenes : string := "recommended_performer_scenes".
Definition similar_tag_scenes : string := "similar_tag_scenes".

Definition no_recommendations : gmap string (list scene_recommendation) :=
  <[favorite_performer_scenes := []]>
    (<[non_favorite_performer_scenes := []]>
       (<[recommended_performer_scenes := []]>
          (<[similar_tag_scenes := []]> ∅))).

(** The tag names of the scenes with [o_counter >= 3], with repetition *)
Fixpoint high_o_counter_tags (scenes_data : list scene) : result (list pyval) :=
  match scenes_data with
  | [] => Ok []
  | scene :: rest =>
      high <- py_ge (getd (scalars scene) "o_counter" (VNum 0)) 3 ;;
      more <- high_o_counter_tags rest ;;
      Ok (if high : bool
          then map (fun t => getd t "name" (VStr "")) (tags scene) ++ more
          else more)
  end.

Definition scene_performer_names (s : scene) : list pyval :=
  map (fun p => getd p "name" (VStr "")) (performers s).

Definition scene_tag_names (s : scene) : list pyval :=
  map (fun t => getd t "name" (VStr "")) (tags s).

(** The record prepared for one scene *)
Definition scene_record (popular_tags most_common_tags : list pyval) (s : scene)
    : scene_recommendation :=
  {| scene_id := get (scalars s) "id";
     title := getd (scalars s) "title" (VStr "Unknown");
     performer_names := scene_performer_names s;
     tag_names := scene_tag_names s;
     tag_similarity := _calculate_tag_similarity (scene_tag_names s) most_common_tags;
     similarity := intersection_size (scene_tag_names s) popular_tags |}.

(** The key under which the record of a scene is appended *)
Definition category_of (top_performer_names most_common_tags : list pyval) (s : scene)
    : string :=
  let has_favorite_performer :=
    existsb (fun p => truthy (getd p "favorite" (VBool false))) (performers s) in
  let has_top_performer :=
    existsb (fun name => py_in name top_performer_names) (scene_performer_names s) in
  if has_favorite_performer then favorite_performer_scenes
  else if has_top_performer then recommended_performer_scenes
  else if Qltb (3 # 10) (_calculate_tag_similarity (scene_tag_names s) most_common_tags)
  then similar_tag_scenes
  else non_favorite_performer_scenes.

(** The loop over [scenes_data] that fills the four lists *)
Fixpoint categorise (popular_tags top_performer_names most_common_tags : list pyval)
    (scenes_data : list scene) (recommendations : gmap string (list scene_recommendation))
    : gmap string (list scene_recommendation) :=
  match scenes_data with
  | [] => recommendations
  | s :: rest =>
      if py_ne (getd (scalars s) "o_counter" (VNum 0)) (VNum 0)
      then categorise popular_tags top_performer_names most_common_tags rest recommendations
      else
        categorise popular_tags top_performer_names most_common_tags rest
          (alter (fun l => l ++ [scene_record popular_tags most_common_tags s])
                 (category_of top_performer_names most_common_tags s)
                 recommendations)
  end.

(** The sort and the cut of one category *)
Definition sort_and_limit (category : string) (l : list scene_recommendation)
    : list scene_recommendation :=
  if String.eqb category similar_tag_scenes
  then take 15 (sorted_desc Qltb tag_similarity l)
  else take 10 (sorted_desc Nat.ltb similarity l).

(** The body of the [try] block of [recommend_scenes] *)
Definition scene_scan (stats_outcome : result stats) (scenes_data : list scene)
    : result (gmap string (list scene_recommendation)) :=
  let recommendations := no_recommendations in
  stats <- stats_outcome ;;
  popular_tags <- _get_popular_tags scenes_data 3 20 ;;
  let top_performers := top_o_counter_performers stats in
  let top_performer_names := map (fun p => getd p "name" (VStr "")) top_performers in
  high_tags <- high_o_counter_tags scenes_data ;;
  let tag_counter := counter_of high_tags in
  let most_common_tags := map fst (most_common 20 tag_counter) in
  let recommendations :=
    categorise popular_tags top_performer_names most_common_tags scenes_data
               recommendations in
  Ok (map_imap (fun category l => Some (sort_and_limit category l)) recommendations).

(** The rotation of one cached category *)
Definition rotate_category (counter : nat) (scenes : list scene_recommendation)
    : list scene_recommendation :=
  match scenes with
  | [] => scenes
  | _ => rotate (counter mod length scenes)%nat scenes
  end.

Definition recommend_scenes (stats_outcome : result stats) (self : module_state)
    : gmap string (list scene_recommendation) * module_state :=
  let self := with_counter (S (_recommendation_counter self)) self in
  if negb (Nat.eqb (size (_scene_recommendation_cache self)) 0) then
    (rotate_category (_recommendation_counter self) <$> _scene_recommendation_cache self,
     self)
  else
    match scenes_data self with
    | [] => (∅, self)
    | _ :: _ =>
        match scene_scan stats_outcome (scenes_data self) with
        | Ok recommendations => (recommendations, with_scene_cache recommendations self)
        | Raise _ => (∅, self)
        end
    end.

(** ** Running the model

    To evaluate the recommender on concrete data the two renderings and
    the shuffle are fixed: [render] is [str] on the strings, [None], the
    booleans and the whole numbers the examples use, and [shuffle_id] is
    the shuffle that happens to leave every list in place. *)

Definition render_Z (z : Z) : string :=
  match z with
  | Zneg p => "-" +:+ pretty (Npos p)
  | _ => pretty (Z.to_N z)
  end.

Definition render (v : pyval) : string :=
  match v with
  | VNone => "None"
  | VBool true => "True"
  | VBool false => "False"
  | VStr s => s
  | VNum q => render_Z (Z.quot (Qnum q) (Zpos (Qden q)))
  end.

(** Two decimals, rounded half up from the exact value *)
Definition render_2f (q : Q) : string :=
  let cents := Qfloor (Qabs q * 100 + (1 # 2)) in
  let frac := (cents mod 100)%Z in
  (if Qle_bool 0 q then "" else "-")
  +:+ render_Z (cents / 100)%Z +:+ "."
  +:+ (if (frac <? 10)%Z then "0" else "") +:+ render_Z frac.

Definition shuffle_id (A : Type) (l : list A) (g : unit) : list A * unit := (l, g).

Definition run_performers := recommend_performers render render_2f unit shuffle_id.

Definition dict (l : list (string * pyval)) : pydict := list_to_map l.

Definition int (z : Z) : pyval := VNum (inject_Z z).

Definition cold (ps : list pydict) (ss : list scene) : module_state :=
  init (Ok (ps, ss)).

Definition payload (tops volumes cup_df cup_stats : list pydict) : stats :=
  {| top_o_counter_performers := tops;
     top_volume_performers := volumes;
     cup_size_dataframe := cup_df;
     cup_letter_o_stats := cup_stats;
     other_fields := ∅ |}.

(** *** Example data *)

Module Examples.

(** A seed, a seed with a height, and an unseen performer close to the
    first seed. *)
Definition seed (i : string) : pydict :=
  dict [("id", VStr i); ("name", VStr ("seed " +:+ i)); ("o_counter", int 5);
        ("cup_letter", VStr "C"); ("band_size", int 34); ("volume_cc", int 400)].

Definition seed_with_height : pydict :=
  dict [("id", VStr "2"); ("name", VStr "B"); ("o_counter", int 3);
        ("height_cm", int 170)].

Definition unseen : pydict :=
  dict [("id", VStr "99"); ("name", VStr "C"); ("o_counter", int 0);
        ("cup_letter", VStr "C"); ("band_size", int 34); ("volume_cc", int 420)].

(** The same unseen performer as the data source delivers it when no
    height is recorded: the key is there and holds [None]. *)
Definition unseen_without_height : pydict :=
  dict [("id", VStr "99"); ("name", VStr "C"); ("o_counter", int 0);
        ("cup_letter", VStr "C"); ("band_size", int 34); ("volume_cc", int 420);
        ("height_cm", VNone)].

(** Performers with a non-zero cup-to-BMI ratio, without and with a [bmi] *)
Definition ratio_only (i : string) : pydict :=
  dict [("id", VStr i); ("cup_to_bmi", int 2)].

Definition ratio_and_bmi (i : string) : pydict :=
  dict [("id", VStr i); ("bmi", int 22); ("cup_to_bmi", int 2)].

(** A snapshot in which the second of two seeds makes the scorer raise *)
Definition failing_snapshot : module_state :=
  cold [seed "1"; seed_with_height; unseen_without_height] [].

Definition failing_stats : stats := payload [seed "1"; seed_with_height] [] [] [].

(** Three seeds, one unseen performer: a pool of three records *)
Definition three_seeds : list pydict := [seed "1"; seed "2"; seed "3"].

Definition small_snapshot : module_state := cold (three_seeds ++ [unseen]) [].

Definition small_stats : stats := payload three_seeds [] [] [].

(** Eleven seeds: a pool of eleven records *)
Definition eleven_seeds : list pydict :=
  map (fun i => seed (pretty i)) (seq 1 11).

Definition large_snapshot : module_state := cold (eleven_seeds ++ [unseen]) [].

Definition large_stats : stats := payload eleven_seeds [] [] [].

(** A volume seed, with and without rows in the cup-size table *)
Definition volume_snapshot : module_state := cold [unseen] [].

Definition volume_stats_without_table : stats := payload [] [seed "9"] [] [].

Definition volume_stats_with_table : stats :=
  payload [] [seed "9"] [dict [("cup_letter", VStr "C")]] [].

(** Scenes *)
Definition tag (name : string) : pydict := dict [("name", VStr name)].

Definition plain_scene (i : string) (o_counter : Z) (names : list string) : scene :=
  {| scalars := dict [("id", VStr i); ("title", VStr ("scene " +:+ i));
                      ("o_counter", int o_counter)];
     performers := [];
     tags := map tag names |}.

(** One scene seen once and one unseen scene, both tagged [x] *)
Definition seen_once : list scene := [plain_scene "1" 1 ["x"]; plain_scene "2" 0 ["x"]].

(** Eleven unseen scenes without performers or tags *)
Definition eleven_scenes : list scene :=
  map (fun i => plain_scene (pretty i) 0 []) (seq 1 11).

(** The scenario of the specification for the popular tags *)
Definition scenario_scenes : list scene :=
  [plain_scene "1" 5 ["x"; "y"]; plain_scene "2" 1 ["x"]].

Definition no_stats : stats := payload [] [] [] [].

(** The states after the first, populating call *)
Definition warm_small : module_state :=
  fst (snd (run_performers (Ok small_stats) (small_snapshot, tt))).

Definition warm_large : module_state :=
  fst (snd (run_performers (Ok large_stats) (large_snapshot, tt))).

End Examples.

(** ** Definitions used to state the properties *)

(** What the cup-to-BMI block adds for the ratios [a] and [b]:
    [(1 - min(abs(a - b) / max(a, b), 1)) * 0.3]. *)
Definition cup_to_bmi_contribution (a b : Q) : Q :=
  (1 - Qmin (Qabs (a - b) / Qmax a b) 1) * weights.cup_to_bmi.

(** The same with [max(|a|, |b|)] as the denominator *)
Definition cup_to_bmi_contribution_abs (a b : Q) : Q :=
  (1 - Qmin (Qabs (a - b) / Qmax (Qabs a) (Qabs b)) 1) * weights.cup_to_bmi.

(** An attribute that is absent or holds a number *)
Definition number_or_absent (p : pydict) (k : string) : Prop :=
  match p !! k with
  | None => True
  | Some v => is_number v = true
  end.

(** A performer whose scored attributes have the types of the data model:
    numbers where a number is compared or subtracted, a string for the cup
    letter, [None] allowed where the scorer tests truthiness first. *)
Record typed_performer (p : pydict) : Prop := {
  typed_cup_to_bmi : is_string (get p "cup_to_bmi") = false;
  typed_o_counter : number_or_absent p "o_counter";
  typed_scene_count : number_or_absent p "scene_count";
  typed_cup_letter : is_number (get p "cup_letter") = false;
  typed_volume_cc : number_or_absent p "volume_cc";
  typed_height_cm : number_or_absent p "height_cm";
  typed_weight : number_or_absent p "weight";
}.


(** The similarity the volume strategy computes by itself:
    [max(0, 1 - abs(pv - tv) / max(tv, pv))]. *)
Definition volume_similarity (target_volume performer_volume : Q) : Q :=
  Qmax 0 (1 - Qabs (performer_volume - target_volume)
              / Qmax target_volume performer_volume).

(** A performer the volume strategy keeps for a seed of volume [tv] *)
Definition volume_candidate (tv : Q) (p : pydict) : Prop :=
  exists o pv : Q,
    as_num (getd p "o_counter" (VNum 0)) = Ok o /\ o <= 0 /\
    as_num (getd p "volume_cc" (VNum 0)) = Ok pv /\ 0 < pv /\
    7 # 10 < volume_similarity tv pv.

(** A volume seed that qualifies: engaged, with a volume, and with at
    least one candidate among the performers. *)
Definition qualifying_volume_seed (ps : list pydict) (vp : pydict) : Prop :=
  exists o tv : Q,
    as_num (getd vp "o_counter" (VNum 0)) = Ok o /\ 0 < o /\
    as_num (getd vp "volume_cc" (VNum 0)) = Ok tv /\ 0 < tv /\
    Exists (volume_candidate tv) ps.

(** The attributes the volume strategy compares are numbers or absent. *)
Definition volume_typed (p : pydict) : Prop :=
  number_or_absent p "o_counter" /\ number_or_absent p "volume_cc".

(** [self'] has the performers of [self] and every cache key of [self]. *)
Definition extends_cache (self self' : module_state) : Prop :=
  performers_data self' = performers_data self /\
  forall k, is_Some (dict_get k (_performer_recommendation_cache self)) ->
            is_Some (dict_get k (_performer_recommendation_cache self')).

(** Two payloads that agree on the four fields the recommender reads *)
Definition same_consumed_fields (s1 s2 : stats) : Prop :=
  top_o_counter_performers s1 = top_o_counter_performers s2 /\
  top_volume_performers s1 = top_volume_performers s2 /\
  cup_size_dataframe s1 = cup_size_dataframe s2 /\
  cup_letter_o_stats s1 = cup_letter_o_stats s2.

(** The cache key of the record of a volume seed *)
Definition volume_key (py_str : pyval -> string) (vp : pydict) : string :=
  "volume_" +:+ py_str (getd vp "id" (VStr "")).

(** The four keys of the mapping of scene recommendations, by priority *)
Definition categories : list string :=
  [favorite_performer_scenes; recommended_performer_scenes;
   similar_tag_scenes; non_favorite_performer_scenes].

(** The scenes whose record is appended under [category]: the unseen
    scenes that [category_of] sends there. *)
Definition assigned_to (top_performer_names most_common_tags : list pyval)
    (category : string) (s : scene) : bool :=
  py_eq (getd (scalars s) "o_counter" (VNum 0)) (VNum 0)
  && String.eqb (category_of top_performer_names most_common_tags s) category.

(** A scene whose o_counter is a number or absent *)
Definition scene_typed (s : scene) : Prop := number_or_absent (scalars s) "o_counter".

(** The list of a category before it is sorted and cut *)
Definition uncut (popular_tags top_performer_names most_common_tags : list pyval)
    (scenes_data : list scene) (category : string) : list scene_recommendation :=
  map (scene_record popular_tags most_common_tags)
      (List.filter (assigned_to top_performer_names most_common_tags category) scenes_data).




(** The count a counter holds for [t] *)
Fixpoint counter_weight (c : counter) (t : pyval) : Q :=
  match c with
  | [] => 0
  | (k, n) :: c' => (if py_eq k t then n else 0) + counter_weight c' t
  end.

(** Keys that are pairwise different as Python values *)
Fixpoint distinct_keys (ks : list pyval) : Prop :=
  match ks with
  | [] => True
  | k :: ks' => Forall (fun k' => py_eq k k' = false) ks' /\ distinct_keys ks'
  end.


(** The keys of a counter stay truthy and pairwise different. *)
Definition good_keys (c : counter) : Prop :=
  distinct_keys (map fst c) /\ Forall (fun k => truthy k = true) (map fst c).

(** ** Definitions used to state further properties of the code *)

(** Everything of an instance but its performer cache is the same. *)
Definition same_frame (self self' : module_state) : Prop :=
  performers_data self' = performers_data self /\
  scenes_data self' = scenes_data self /\
  _scene_recommendation_cache self' = _scene_recommendation_cache self /\
  _recommendation_counter self' = _recommendation_counter self.

(** A performer cache in which every record sits under its own id and no
    key occurs twice. *)
Definition well_keyed (cache : list (string * recommendation)) : Prop :=
  Forall (fun kv => fst kv = rec_id (snd kv)) cache /\ NoDup (map fst cache).

(** A statement sequence that relates the instance before it to the
    instance after it by [R], whether it returns or raises. *)
Definition respects {rng A : Type} (R : module_state -> module_state -> Prop)
    (c : M rng A) : Prop :=
  forall h, R (fst h) (fst (snd (c h))).

(** [n + 1] successive calls of [recommend_performers] with the same
    answer of the collaborator: the outcome of the last one. *)
Fixpoint successive_calls (py_str : pyval -> string) (py_format_2f : Q -> string)
    (rng : Type) (shuffle : forall A : Type, list A -> rng -> list A * rng)
    (n : nat) (outcome : result stats) (h : heap rng)
    : list recommendation * heap rng :=
  match n with
  | O => recommend_performers py_str py_format_2f rng shuffle outcome h
  | S n' =>
      successive_calls py_str py_format_2f rng shuffle n' outcome
        (snd (recommend_performers py_str py_format_2f rng shuffle outcome h))
  end.

(** The instances a program can reach: a fresh one, and what the three
    public methods make of a reachable one. *)
Inductive reachable (py_str : pyval -> string) (py_format_2f : Q -> string)
    (rng : Type) (shuffle : forall A : Type, list A -> rng -> list A * rng)
    : heap rng -> Prop :=
| reach_init (loaded : result (list pydict * list scene)) (g : rng) :
    reachable py_str py_format_2f rng shuffle (init loaded, g)
| reach_performers (outcome : result stats) (h : heap rng) :
    reachable py_str py_format_2f rng shuffle h ->
    reachable py_str py_format_2f rng shuffle
      (snd (recommend_performers py_str py_format_2f rng shuffle outcome h))
| reach_scenes (outcome : result stats) (h : heap rng) :
    reachable py_str py_format_2f rng shuffle h ->
    reachable py_str py_format_2f rng shuffle
      (snd (recommend_scenes outcome (fst h)), snd h)
| reach_reload (loaded : result (list pydict * list scene)) (h : heap rng) :
    reachable py_str py_format_2f rng shuffle h ->
    reachable py_str py_format_2f rng shuffle (reload_data loaded (fst h), snd h).

(** A record as the three strategies build it: between one and five
    candidates, and the tag of one of the strategies. *)
Definition strategy_record (r : recommendation) : Prop :=
  similar_performers r <> [] /\
  (length (similar_performers r) <= 5)%nat /\
  recommendation_type r ∈
    ["o_counter_similarity"; "volume_similarity"; "cup_size_popularity"].

(** A candidate entry of the o_counter strategy for the seed [base]: the
    entry of a performer of [targets] that has another id than the seed,
    an o_counter equal to 0 and a score above 0.5. *)
Definition o_counter_candidate (py_str : pyval -> string) (base : pydict)
    (targets : list pydict) (e : pydict) : Prop :=
  exists (target : pydict) (sim : Q),
    target ∈ targets /\
    py_eq (get target "id") (get base "id") = false /\
    py_eq (getd target "o_counter" (VNum 0)) (VNum 0) = true /\
    _calculate_similarity base target = Ok sim /\
    1 # 2 < sim /\
    e = o_counter_entry py_str base target sim /\
    entry_similarity e = sim.

(** From the greatest key to the least *)
Definition descending {A} (key : A -> Q) (x y : A) : Prop := key y <= key x.

(** A statement sequence that, when it returns, has appended to the
    local list [recs] at most [n] records, all satisfying [P]. *)
Definition grows_by {rng : Type} (P : recommendation -> Prop) (n : nat)
    (c : M rng (list recommendation)) (recs : list recommendation) : Prop :=
  forall h recs' h', c h = (Ok recs', h') ->
    exists ext, recs' = recs ++ ext /\ Forall P ext /\ (length ext <= n)%nat.

(** An instance without data and with empty caches, as a failed load
    leaves it. *)
Definition drained (self : module_state) : Prop :=
  performers_data self = [] /\
  scenes_data self = [] /\
  _performer_recommendation_cache self = [] /\
  _scene_recommendation_cache self = ∅.

(** From the greatest count of popular tags to the least *)
Definition by_popularity (x y : scene_recommendation) : Prop :=
  (similarity y <= similarity x)%nat.

(** *** [_get_performer_tags] *)

(** The tag names of the scenes that list [performer_name], with
    repetition, in the order of the scenes *)
Fixpoint performer_scene_tags (scenes_data : list scene) (performer_name : pyval)
    : list pyval :=
  match scenes_data with
  | [] => []
  | s :: rest =>
      (if py_in performer_name (scene_performer_names s)
       then scene_tag_names s else [])
      ++ performer_scene_tags rest performer_name
  end.

(** [list(set(tags))]: Python fixes no order for it; the model lists the
    set in the order [py_set] keeps. *)
Definition _get_performer_tags (scenes_data : list scene) (performer_name : pyval)
    : list pyval :=
  py_set (performer_scene_tags scenes_data performer_name).

(** One representative for the Python values that are equal: a boolean
    stands for its number, a number for its reduced fraction. *)
Definition canon (v : pyval) : pyval :=
  match v with
  | VBool b => VNum (if b then 1 else 0)
  | VNum q => VNum (Qred q)
  | _ => v
  end.

(** The distinct elements of [l1] that occur in [l2] *)
Definition common (l1 l2 : list pyval) : list pyval :=
  filter (fun x => Is_true (py_in x l2)) (py_set l1).

(** Two outcomes of a block of the scorer that add the same amount *)
Definition same_amount (o1 o2 : result (option Q)) : Prop :=
  match o1, o2 with
  | Ok None, Ok None => True
  | Ok (Some a), Ok (Some b) => a == b
  | _, _ => False
  end.

(** Two outcomes of a partial similarity that agree *)
Definition same_similarity (r1 r2 : result Q) : Prop :=
  match r1, r2 with
  | Ok x, Ok y => x == y
  | Raise e1, Raise e2 => e1 = e2
  | _, _ => False
  end.

(** A candidate entry of the volume strategy for the seed [vp] of volume
    [tv]: the entry of a performer whose o_counter is not above 0, whose
    volume is above 0 and whose volume similarity to the seed is above
    0.7. *)
Definition volume_match (py_str : pyval -> string) (vp : pydict) (tv : Q)
    (ps : list pydict) (e : pydict) : Prop :=
  exists (p : pydict) (pv : Q),
    p ∈ ps /\
    py_gt (getd p "o_counter" (VNum 0)) 0 = Ok false /\
    as_num (getd p "volume_cc" (VNum 0)) = Ok pv /\
    0 < pv /\
    7 # 10 < volume_similarity tv pv /\
    e = volume_entry py_str vp p (volume_similarity tv pv) /\
    entry_similarity e = volume_similarity tv pv.


(** ** Definitions used to state the rotation and the categories *)

(** [l] rotated to the left by [k] places, [k] taken modulo the length of
    [l]: the elements from the position [k mod len(l)] on, followed by
    the elements before that position. *)
Definition rotated_left {A} (k : nat) (l : list A) : list A :=
  drop (k mod length l)%nat l ++ take (k mod length l)%nat l.

(** A scene that was never seen: its o_counter equals 0. *)
Definition unseen_scene (s : scene) : Prop :=
  py_eq (getd (scalars s) "o_counter" (VNum 0)) (VNum 0) = true.

(** A scene with a performer marked as a favorite *)
Definition has_favorite_performer (s : scene) : Prop :=
  exists p, p ∈ performers s /\ truthy (getd p "favorite" (VBool false)) = true.

(** A scene with a performer whose name is among [top_performer_names] *)
Definition has_top_performer (top_performer_names : list pyval) (s : scene) : Prop :=
  exists p, p ∈ performers s /\
            py_in (getd p "name" (VStr "")) top_performer_names = true.

(** The category of a scene [s] with the record [r], by priority, as the
    specification words it: a favorite performer first; else a top
    performer; else a tag similarity above 0.3; else the fallback. *)
Inductive falls_under (top_performer_names : list pyval) (s : scene)
    (r : scene_recommendation) : string -> Prop :=
| under_favorite :
    has_favorite_performer s ->
    falls_under top_performer_names s r favorite_performer_scenes
| under_recommended :
    ~ has_favorite_performer s ->
    has_top_performer top_performer_names s ->
    falls_under top_performer_names s r recommended_performer_scenes
| under_similar_tags :
    ~ has_favorite_performer s ->
    ~ has_top_performer top_performer_names s ->
    3 # 10 < tag_similarity r ->
    falls_under top_performer_names s r similar_tag_scenes
| under_fallback :
    ~ has_favorite_performer s ->
    ~ has_top_performer top_performer_names s ->
    tag_similarity r <= 3 # 10 ->
    falls_under top_performer_names s r non_favorite_performer_scenes.

(** [kept P l l']: [l'] holds the elements of [l] that satisfy [P], in
    the order of [l]. *)
Inductive kept {A} (P : A -> Prop) : list A -> list A -> Prop :=
| kept_nil : kept P [] []
| kept_keep (x : A) (l l' : list A) : P x -> kept P l l' -> kept P (x :: l) (x :: l')
| kept_skip (x : A) (l l' : list A) : ~ P x -> kept P l l' -> kept P (x :: l) l'.

(** The order of the list of a category: by tag similarity for the
    similar-tag category, by the count of popular tags for the others,
    from the greatest to the least. *)
Definition ranked (category : string) : relation scene_recommendation :=
  if String.eqb category similar_tag_scenes
  then descending tag_similarity
  else by_popularity.

(** Two records with the same sort key in the list of a category *)
Definition same_rank (category : string) (x y : scene_recommendation) : bool :=
  if String.eqb category similar_tag_scenes
  then Qeq_bool (tag_similarity x) (tag_similarity y)
  else Nat.eqb (similarity x) (similarity y).

(** The number of records a category keeps *)
Definition category_limit (category : string) : nat :=
  if String.eqb category similar_tag_scenes then 15%nat else 10%nat.

(** [full] is the list [before] sorted for [category]: the same records,
    from the greatest key to the least, records with the same key in the
    order they have in [before]. *)
Definition sorted_from (category : string) (before full : list scene_recommendation)
    : Prop :=
  Permutation full before /\
  StronglySorted (ranked category) full /\
  forall r, List.filter (same_rank category r) full
            = List.filter (same_rank category r) before.

(** *** Further example data *)

Module MoreExamples.

(** A scene whose o_counter holds [None] *)
Definition scene_without_counter : scene :=
  {| scalars := dict [("id", VStr "3"); ("title", VStr "scene 3"); ("o_counter", VNone)];
     performers := [];
     tags := [] |}.

Definition uncomparable_snapshot : module_state :=
  cold [] [Examples.plain_scene "1" 0 []; scene_without_counter].

(** A table of four cup letters *)
Definition cup_row (letter : string) (avg : Z) : pydict :=
  dict [("cup_letter", VStr letter); ("avg_o_count", int avg)].

Definition cup_table : list pydict :=
  [cup_row "C" 4; cup_row "B" 3; cup_row "D" 2; cup_row "A" 1].

(** One unseen performer for each of the four letters *)
Definition of_letter (letter : string) : pydict :=
  dict [("id", VStr letter); ("name", VStr letter); ("cup_letter", VStr letter);
        ("o_counter", int 0)].

Definition four_letters_snapshot : module_state :=
  cold (map of_letter ["A"; "B"; "C"; "D"]) [].

(** A scene of the performer [P], tagged [x] and [y] *)
Definition scene_of_p : scene :=
  {| scalars := dict [("id", VStr "7"); ("o_counter", int 0)];
     performers := [dict [("name", VStr "P")]];
     tags := [Examples.tag "x"; Examples.tag "y"] |}.


(** What a statement sequence returned, and [[]] when it raised *)
Definition returned {S : Type} (out : result (list recommendation) * S)
    : list recommendation :=
  match fst out with
  | Ok l => l
  | Raise _ => []
  end.

(** Scenes of every category. One scene seen three times carries the
    tags [a], [b], [c], [d], which makes them the popular and the most
    common tags. The unseen scenes: one with a favorite performer who is
    also a top performer, one with a top performer and all four tags,
    one with two of the four tags, and eleven without performers, the
    last of which carries the tag [a]. *)
Definition top_name : string := "Top".

Definition favorite_top : pydict :=
  dict [("name", VStr top_name); ("favorite", VBool true)].

Definition plain_top : pydict := dict [("name", VStr top_name)].

Definition cast_scene (i : string) (o_counter : Z) (cast : list pydict)
    (names : list string) : scene :=
  {| scalars := dict [("id", VStr i); ("title", VStr ("scene " +:+ i));
                      ("o_counter", int o_counter)];
     performers := cast;
     tags := map Examples.tag names |}.

Definition mixed_scenes : list scene :=
  [cast_scene "seen" 3 [] ["a"; "b"; "c"; "d"];
   cast_scene "fav" 0 [favorite_top] ["a"; "b"; "c"; "d"];
   cast_scene "top" 0 [plain_top] ["a"; "b"; "c"; "d"];
   cast_scene "tags" 0 [] ["a"; "b"]]
  ++ map (fun i => cast_scene (pretty i) 0 [] []) (seq 1 10)
  ++ [cast_scene "late" 0 [] ["a"]].

Definition mixed_stats : stats := payload [plain_top] [] [] [].

(** An instance with both caches filled: three seeds and one unseen
    performer, five unseen scenes; one call of each method. *)
Definition five_scenes : list scene :=
  map (fun i => Examples.plain_scene (pretty i) 0 []) (seq 1 5).

Definition both_cold : module_state :=
  cold (Examples.three_seeds ++ [Examples.unseen]) five_scenes.

Definition both_warm : module_state :=
  snd (recommend_scenes (Ok Examples.small_stats)
         (fst (snd (run_performers (Ok Examples.small_stats) (both_cold, tt))))).

(** The instance after a first call of [recommend_scenes] on five scenes *)
Definition five_warm : module_state :=
  snd (recommend_scenes (Ok Examples.no_stats) (cold [] five_scenes)).

End MoreExamples.

(** * Properties *)

(** ** Numbers and values *)

Lemma Qltb_lt (a b : Q) : Qltb a b = true <-> a < b.
Proof.
  unfold Qltb. rewrite negb_true_iff. split.
  - intros H. apply Qnot_le_lt. intros Hle.
    apply Qle_bool_iff in Hle. congruence.
  - intros H. destruct (Qle_bool b a) eqn:E; [|reflexivity].
    apply Qle_bool_iff in E. exfalso. eapply Qlt_not_le; eassumption.
Qed.

Lemma Qltb_ge (a b : Q) : Qltb a b = false <-> b <= a.
Proof.
  unfold Qltb. rewrite negb_false_iff. apply Qle_bool_iff.
Qed.

Lemma truthy_number (v : pyval) (a : Q) :
  as_num v = Ok a -> (truthy v = true <-> ~ a == 0).
Proof.
  destruct v as [|[]|q|s]; simpl; intros H; inversion H; subst; clear H.
  - split; [intros _ E; discriminate E | reflexivity].
  - split; [discriminate | intros E; exfalso; apply E; reflexivity].
  - rewrite negb_true_iff. split.
    + intros E. apply Qeq_bool_neq. exact E.
    + intros E. destruct (Qeq_bool a 0) eqn:B; [|reflexivity].
      apply Qeq_bool_iff in B. contradiction.
Qed.

Lemma Qmax_nonzero (a b : Q) : ~ a == 0 -> ~ b == 0 -> Qeq_bool (Qmax a b) 0 = false.
Proof.
  intros Ha Hb. destruct (Qeq_bool (Qmax a b) 0) eqn:E; [|reflexivity].
  apply Qeq_bool_iff in E.
  destruct (Q.max_spec a b) as [[_ H]|[_ H]]; rewrite H in E; contradiction.
Qed.

Lemma ratio_similarity_nonzero (a b : Q) :
  ~ a == 0 -> ~ b == 0 ->
  ratio_similarity a b = Ok (1 - Qmin (Qabs (a - b) / Qmax a b) 1).
Proof.
  intros Ha Hb. unfold ratio_similarity, py_div.
  rewrite (Qmax_nonzero a b Ha Hb). reflexivity.
Qed.

Lemma ratio_similarity_zero (a b : Q) :
  ratio_similarity a b = Raise ZeroDivisionError \/
  exists r, ratio_similarity a b = Ok (1 - Qmin r 1).
Proof.
  unfold ratio_similarity, py_div.
  destruct (Qeq_bool (Qmax a b) 0); [left | right; eexists]; reflexivity.
Qed.

Lemma one_minus_min_nonneg (r : Q) : 0 <= 1 - Qmin r 1.
Proof. pose proof (Q.le_min_r r 1). lra. Qed.

(** ** The cup-to-BMI term *)

(** C7, as the code has it: the block adds
    [(1 - min(|a-b| / max(a,b), 1)) * 0.3] exactly when both performers
    have a truthy [bmi] and both [cup_to_bmi] values are non-zero numbers;
    in every other case over numbers it adds nothing. For positive ratios
    the amount is the one with [max(|a|,|b|)]. *)
Theorem cup_to_bmi_term_gated_by_bmi (base target : pydict) :
  (forall c : Q,
     cup_to_bmi_term base target = Ok (Some c) <->
     truthy (get base "bmi") = true /\
     truthy (get target "bmi") = true /\
     exists a b : Q,
       as_num (getd base "cup_to_bmi" (VNum 0)) = Ok a /\
       as_num (getd target "cup_to_bmi" (VNum 0)) = Ok b /\
       ~ a == 0 /\ ~ b == 0 /\
       c = cup_to_bmi_contribution a b) /\
  (forall a b : Q, 0 < a -> 0 < b ->
     cup_to_bmi_contribution a b == cup_to_bmi_contribution_abs a b).
Proof.
  split.
  - intros c. unfold cup_to_bmi_term.
    destruct (truthy (get base "bmi")) eqn:Bb; simpl;
      [|split; [discriminate | intros [H _]; discriminate H]].
    destruct (truthy (get target "bmi")) eqn:Bt; simpl;
      [|split; [discriminate | intros (_ & H & _); discriminate H]].
    set (x := getd base "cup_to_bmi" (VNum 0)).
    set (y := getd target "cup_to_bmi" (VNum 0)).
    destruct (as_num x) as [a|e] eqn:Ea.
    + destruct (as_num y) as [b|e] eqn:Eb.
      * pose proof (truthy_number x a Ea) as Hx.
        pose proof (truthy_number y b Eb) as Hy.
        destruct (truthy x) eqn:Tx; simpl.
        -- destruct (truthy y) eqn:Ty; simpl.
           ++ assert (Ha : ~ a == 0) by (apply Hx; reflexivity).
              assert (Hb : ~ b == 0) by (apply Hy; reflexivity).
              rewrite (ratio_similarity_nonzero a b Ha Hb). simpl.
              split.
              ** intros H. inversion H; subst. repeat split.
                 exists a, b. repeat split; assumption.
              ** intros (_ & _ & a' & b' & Ha' & Hb' & _ & _ & ->).
                 inversion Ha'; inversion Hb'; subst. reflexivity.
           ++ split; [discriminate|].
              intros (_ & _ & a' & b' & _ & Hb' & _ & Hnz & _).
              inversion Hb'; subst. apply Hy in Hnz. discriminate Hnz.
        -- split; [discriminate|].
           intros (_ & _ & a' & b' & Ha' & _ & Hnz & _).
           inversion Ha'; subst. apply Hx in Hnz. discriminate Hnz.
      * split.
        -- destruct (truthy x && truthy y)%bool; simpl; discriminate.
        -- intros (_ & _ & a' & b' & _ & Hb' & _). discriminate Hb'.
    + split.
      * destruct (truthy x && truthy y)%bool; simpl; discriminate.
      * intros (_ & _ & a' & b' & Ha' & _). discriminate Ha'.
  - intros a b Ha Hb. unfold cup_to_bmi_contribution, cup_to_bmi_contribution_abs.
    rewrite (Qabs_pos a) by (apply Qlt_le_weak; exact Ha).
    rewrite (Qabs_pos b) by (apply Qlt_le_weak; exact Hb).
    reflexivity.
Qed.

(** C7, as the specification has it, fails: two performers whose
    [cup_to_bmi] is 2 and who carry no [bmi] get nothing from the block,
    where the claimed amount is 0.3. *)
Lemma cup_to_bmi_needs_bmi :
  as_num (getd (Examples.ratio_only "4") "cup_to_bmi" (VNum 0)) = Ok (inject_Z 2) /\
  as_num (getd (Examples.ratio_only "5") "cup_to_bmi" (VNum 0)) = Ok (inject_Z 2) /\
  ~ inject_Z 2 == 0 /\
  cup_to_bmi_contribution_abs (inject_Z 2) (inject_Z 2) == 3 # 10 /\
  cup_to_bmi_term (Examples.ratio_only "4") (Examples.ratio_only "5") = Ok None /\
  _calculate_similarity (Examples.ratio_only "4") (Examples.ratio_only "5") = Ok 0.
Proof.
  repeat split; try (vm_compute; reflexivity).
  intros H. vm_compute in H. discriminate H.
Qed.

(** The block at two performers with a [bmi] and a ratio of 2 *)
Lemma cup_to_bmi_term_gated_by_bmi_witness :
  cup_to_bmi_term (Examples.ratio_and_bmi "6") (Examples.ratio_and_bmi "7")
    = Ok (Some (cup_to_bmi_contribution (inject_Z 2) (inject_Z 2))) /\
  (0 < 2 -> 0 < 3 ->
   cup_to_bmi_contribution 2 3 == cup_to_bmi_contribution_abs 2 3).
Proof.
  split.
  - apply (proj1 (cup_to_bmi_term_gated_by_bmi
                    (Examples.ratio_and_bmi "6") (Examples.ratio_and_bmi "7"))).
    split; [reflexivity|]. split; [reflexivity|].
    exists (inject_Z 2), (inject_Z 2).
    repeat split; try reflexivity; intros H; vm_compute in H; discriminate H.
  - apply (proj2 (cup_to_bmi_term_gated_by_bmi
                    (Examples.ratio_and_bmi "6") (Examples.ratio_and_bmi "7"))).
Defined.

(** ** The scorer on typed records, and on a record with a [None] *)

Lemma as_num_number (v : pyval) : is_number v = true -> exists a, as_num v = Ok a.
Proof. destruct v; simpl; intros H; try discriminate H; eexists; reflexivity. Qed.

Lemma getd_number (p : pydict) (k : string) :
  number_or_absent p k -> is_number (getd p k (VNum 0)) = true.
Proof.
  unfold number_or_absent, getd. destruct (p !! k); simpl; intros H; [exact H | reflexivity].
Qed.





Lemma ratio_similarity_positive (a b : Q) :
  0 < a -> 0 < b -> exists s, ratio_similarity a b = Ok s /\ 0 <= s.
Proof.
  intros Ha Hb. eexists. split.
  - apply ratio_similarity_nonzero; intros E; rewrite E in *;
      eapply Qlt_irrefl; eassumption.
  - apply one_minus_min_nonneg.
Qed.



Lemma py_int_truthy (v : pyval) :
  truthy v = true -> (exists z, py_int v = Ok z) \/ py_int v = Raise ValueError.
Proof.
  destruct v as [|b|q|s]; simpl; intros H; try discriminate H.
  - left. eexists. reflexivity.
  - left. eexists. reflexivity.
  - destruct (parse_int s); [left; eexists|right]; reflexivity.
Qed.


Lemma str_index_string (hay : string) (v : pyval) :
  is_number v = false -> truthy v = true ->
  (exists i, str_index hay v = Ok i) \/ str_index hay v = Raise ValueError.
Proof.
  destruct v as [|b|q|s]; simpl; intros Hn Ht; try discriminate.
  destruct (String.index 0 s hay); [left; eexists|right]; reflexivity.
Qed.




(** C8 at a record the scorer does not survive: against a seed with a
    height, an unseen performer whose [height_cm] is [None] makes
    [target_height > 0] raise [TypeError], which no handler inside the
    scorer catches; the blocks before it add their amounts or are skipped
    without an error. *)
Theorem score_raises_on_none_height :
  Examples.unseen_without_height !! "height_cm" = Some VNone /\
  (exists q, run_terms [cup_to_bmi_term; o_counter_term; scene_count_term;
                        band_size_term; cup_letter_term; volume_term]
               Examples.seed_with_height Examples.unseen_without_height 0 = Ok q) /\
  height_term Examples.seed_with_height Examples.unseen_without_height
    = Raise TypeError /\
  _calculate_similarity Examples.seed_with_height Examples.unseen_without_height
    = Raise TypeError.
Proof.
  split; [reflexivity|]. split; [eexists; vm_compute; reflexivity|].
  split; vm_compute; reflexivity.
Qed.


(** ** The performer cache: rotation and the shared counter *)

Lemma rotate_perm {A} (i : nat) (l : list A) : Permutation (rotate i l) l.
Proof.
  unfold rotate. rewrite Permutation_app_comm. rewrite take_drop. reflexivity.
Qed.

Lemma rotate_length {A} (i : nat) (l : list A) : length (rotate i l) = length l.
Proof. apply Permutation_length, rotate_perm. Qed.

Section EngineProperties.

Variable py_str : pyval -> string.
Variable py_format_2f : Q -> string.
Variable rng : Type.
Variable shuffle : forall A : Type, list A -> rng -> list A * rng.

Local Abbreviation performers_call :=
  (recommend_performers py_str py_format_2f rng shuffle).

(** A call on a populated performer cache: the pool is served rotated by
    the incremented counter and cut to ten, and nothing but the counter
    changes. *)
Lemma recommend_performers_hot (outcome : result stats) (self : module_state) (g : rng) :
  _performer_recommendation_cache self <> [] ->
  performers_call outcome (self, g) =
    (take 10 (rotate (S (_recommendation_counter self)
                        mod length (_performer_recommendation_cache self))%nat
                     (map snd (_performer_recommendation_cache self))),
     (with_counter (S (_recommendation_counter self)) self, g)).
Proof.
  intros Hne. unfold recommend_performers. simpl.
  destruct (_performer_recommendation_cache self) as [|kv cache] eqn:E;
    [contradiction|].
  simpl. rewrite length_map. reflexivity.
Qed.

(** What [recommend_scenes] leaves alone, and the one counter it moves *)
Lemma recommend_scenes_frame (outcome : result stats) (self : module_state) :
  let self' := snd (recommend_scenes outcome self) in
  _recommendation_counter self' = S (_recommendation_counter self) /\
  _performer_recommendation_cache self' = _performer_recommendation_cache self /\
  performers_data self' = performers_data self /\
  scenes_data self' = scenes_data self.
Proof.
  unfold recommend_scenes. cbv zeta.
  repeat case_match; simpl; repeat split.
Qed.

(** C6, as the code has it: on a populated cache a call returns the
    first ten records of the pool rotated by the incremented counter and
    leaves the pool as it is; a pool of at most ten records is returned
    whole, so that two successive calls return permutations of the same
    records. *)
Theorem hot_calls_serve_a_rotating_window
    (outcome outcome' : result stats) (self : module_state) (g : rng) :
  _performer_recommendation_cache self <> [] ->
  let pool := map snd (_performer_recommendation_cache self) in
  let c := _recommendation_counter self in
  let first := performers_call outcome (self, g) in
  let second := performers_call outcome' (snd first) in
  fst first = take 10 (rotate ((c + 1) mod length pool)%nat pool) /\
  fst second = take 10 (rotate ((c + 2) mod length pool)%nat pool) /\
  _performer_recommendation_cache (fst (snd second)) =
    _performer_recommendation_cache self /\
  ((length pool <= 10)%nat ->
   Permutation (fst first) pool /\
   Permutation (map rec_id (fst first)) (map rec_id (fst second))).
Proof.
  intros Hne pool c first second.
  assert (Hfirst : first =
            (take 10 (rotate ((c + 1) mod length pool)%nat pool),
             (with_counter (S c) self, g))).
  { subst first. rewrite recommend_performers_hot by exact Hne.
    subst pool c. rewrite length_map. do 4 f_equal. lia. }
  assert (Hsecond : second =
            (take 10 (rotate ((c + 2) mod length pool)%nat pool),
             (with_counter (S (S c)) self, g))).
  { subst second. rewrite Hfirst. simpl.
    rewrite recommend_performers_hot by exact Hne. simpl.
    subst pool c. rewrite length_map. do 4 f_equal. lia. }
  rewrite Hfirst, Hsecond. simpl.
  do 3 (split; [reflexivity|]). intros Hle. split.
  - rewrite take_ge by (rewrite rotate_length; exact Hle).
    apply rotate_perm.
  - rewrite !take_ge by (rewrite rotate_length; exact Hle).
    apply Permutation_map. rewrite !rotate_perm. reflexivity.
Qed.

(** When the collaborator itself raises, the caller gets the empty list
    and the empty cache stays empty. *)
Lemma collaborator_failure_leaves_cache (e : pyexn) (self : module_state) (g : rng) :
  _performer_recommendation_cache self = [] ->
  performers_call (Raise e) (self, g) =
    ([], (with_counter (S (_recommendation_counter self)) self, g)).
Proof.
  intros Hc. unfold recommend_performers. simpl. rewrite Hc.
  destruct (performers_data self); reflexivity.
Qed.

End EngineProperties.

(** ** The volume strategy and the cup-size table *)

Lemma dict_get_set_eq {V} (k : string) (v : V) (d : list (string * V)) :
  dict_get k (dict_set k v d) = Some v.
Proof.
  induction d as [|[k' v'] d IH]; simpl.
  - rewrite String.eqb_refl. reflexivity.
  - destruct (String.eqb k' k) eqn:E; simpl; rewrite E; [reflexivity | exact IH].
Qed.

Lemma dict_get_set_ne {V} (k k0 : string) (v : V) (d : list (string * V)) :
  k0 <> k -> dict_get k0 (dict_set k v d) = dict_get k0 d.
Proof.
  intros Hne. induction d as [|[k' v'] d IH]; simpl.
  - destruct (String.eqb k k0) eqn:E; [|reflexivity].
    apply String.eqb_eq in E. congruence.
  - destruct (String.eqb k' k) eqn:E; simpl.
    + apply String.eqb_eq in E. subst k'.
      destruct (String.eqb k k0) eqn:E0; [|reflexivity].
      apply String.eqb_eq in E0. congruence.
    + destruct (String.eqb k' k0); [reflexivity | exact IH].
Qed.

Lemma dict_get_set_is_Some {V} (k k0 : string) (v : V) (d : list (string * V)) :
  is_Some (dict_get k0 d) -> is_Some (dict_get k0 (dict_set k v d)).
Proof.
  intros H. destruct (decide (k0 = k)) as [->|Hne].
  - rewrite dict_get_set_eq. eexists. reflexivity.
  - rewrite dict_get_set_ne by exact Hne. exact H.
Qed.

Lemma extends_cache_refl (self : module_state) : extends_cache self self.
Proof. split; [reflexivity | auto]. Qed.

Lemma extends_cache_trans (s1 s2 s3 : module_state) :
  extends_cache s1 s2 -> extends_cache s2 s3 -> extends_cache s1 s3.
Proof.
  intros [H1 K1] [H2 K2]. split; [congruence | auto].
Qed.

Lemma sorted_desc_perm {A K} (lt : K -> K -> bool) (key : A -> K) (l : list A) :
  Permutation (sorted_desc lt key l) l.
Proof.
  induction l as [|x l IH]; simpl; [reflexivity|].
  unfold sorted_desc in *. simpl.
  transitivity (x :: foldr (insert_desc lt key) [] l); [|constructor; exact IH].
  generalize (foldr (insert_desc lt key) [] l). clear.
  intros l. induction l as [|y l IH]; simpl; [reflexivity|].
  destruct (lt (key x) (key y)); [|reflexivity].
  rewrite IH. apply perm_swap.
Qed.

Lemma sorted_desc_nonempty {A K} (lt : K -> K -> bool) (key : A -> K) (l : list A) :
  l <> [] -> sorted_desc lt key l <> [].
Proof.
  intros Hne E. apply Hne. apply Permutation_nil.
  pose proof (sorted_desc_perm lt key l) as P. rewrite E in P. exact P.
Qed.

Section VolumeStrategy.

Variable py_str : pyval -> string.
Variable py_format_2f : Q -> string.
Variable rng : Type.
Variable shuffle : forall A : Type, list A -> rng -> list A * rng.

Local Abbreviation performers_call :=
  (recommend_performers py_str py_format_2f rng shuffle).
Local Abbreviation run_volume_strategy := (volume_strategy py_str rng).
Local Abbreviation run_volume_seed := (volume_seed py_str rng).
Local Abbreviation scan_volume := (volume_similar_to py_str).

Local Abbreviation key_of := (volume_key py_str).

Lemma volume_typed_numbers (p : pydict) :
  volume_typed p ->
  exists o v, as_num (getd p "o_counter" (VNum 0)) = Ok o /\
              as_num (getd p "volume_cc" (VNum 0)) = Ok v.
Proof.
  intros [Ho Hv].
  destruct (as_num_number _ (getd_number _ _ Ho)) as [o Eo].
  destruct (as_num_number _ (getd_number _ _ Hv)) as [v Ev].
  eauto.
Qed.

Lemma Qmax_positive (a b : Q) : 0 < a -> Qeq_bool (Qmax a b) 0 = false.
Proof.
  intros Ha. destruct (Qeq_bool (Qmax a b) 0) eqn:E; [|reflexivity].
  apply Qeq_bool_iff in E. pose proof (Q.le_max_l a b). lra.
Qed.

(** The scan for one seed: it succeeds on typed performers and finds
    something when a candidate is there. *)
Lemma volume_similar_to_typed (vp : pydict) (tv : Q) (ps : list pydict) :
  0 < tv -> Forall volume_typed ps ->
  exists found, scan_volume vp tv ps = Ok found /\
                (Exists (volume_candidate tv) ps -> found <> []).
Proof.
  intros Htv. induction 1 as [|p ps Hp _ (found & IH & IHc)]; simpl.
  - exists []. split; [reflexivity|]. intros H. inversion H.
  - destruct (volume_typed_numbers p Hp) as (o & pv & Eo & Ev).
    unfold py_gt. rewrite Eo. simpl.
    destruct (Qltb 0 o) eqn:Lo.
    { exists found. split; [exact IH|].
      intros Hex. apply IHc. inversion Hex as [? ? Hc|]; subst; [|assumption].
      destruct Hc as (o' & pv' & Eo' & Ho' & _).
      rewrite Eo in Eo'. inversion Eo'; subst.
      apply Qltb_lt in Lo. lra. }
    rewrite Ev. simpl.
    destruct (Qltb 0 pv) eqn:Lv.
    2:{ exists found. split; [exact IH|].
        intros Hex. apply IHc. inversion Hex as [? ? Hc|]; subst; [|assumption].
        destruct Hc as (o' & pv' & _ & _ & Ev' & Hv' & _).
        rewrite Ev in Ev'. inversion Ev'; subst.
        apply Qltb_ge in Lv. lra. }
    unfold py_div. rewrite (Qmax_positive tv pv Htv). simpl.
    rewrite IH. simpl.
    destruct (Qltb (7 # 10) _) eqn:Ls.
    + eexists. split; [reflexivity | discriminate].
    + exists found. split; [reflexivity|].
      intros Hex. apply IHc. inversion Hex as [? ? Hc|]; subst; [|assumption].
      destruct Hc as (o' & pv' & _ & _ & Ev' & _ & Hs).
      rewrite Ev in Ev'. inversion Ev'; subst.
      apply Qltb_ge in Ls. unfold volume_similarity in Hs.
      exfalso. exact (Qlt_not_le _ _ Hs Ls).
Qed.

(** One seed: the run succeeds, appends at most one record of the
    volume kind, keeps the cache keys, and stores the record of a
    qualifying seed under its key. *)
Lemma volume_seed_typed (vp : pydict) (recs : list recommendation)
    (self : module_state) (g : rng) :
  volume_typed vp -> Forall volume_typed (performers_data self) ->
  exists ext self',
    run_volume_seed vp recs (self, g) = (Ok (recs ++ ext), (self', g)) /\
    extends_cache self self' /\
    (qualifying_volume_seed (performers_data self) vp ->
     is_Some (dict_get (key_of vp) (_performer_recommendation_cache self')) /\
     exists r, r ∈ ext /\ rec_id r = key_of vp /\
               recommendation_type r = "volume_similarity").
Proof.
  intros Hvp Hps.
  destruct (volume_typed_numbers vp Hvp) as (o & tv & Eo & Ev).
  unfold volume_seed, bind, lift, py_gt. rewrite Eo. simpl.
  destruct (Qltb 0 o) eqn:Lo.
  2:{ exists [], self. rewrite app_nil_r. split; [reflexivity|].
      split; [apply extends_cache_refl|].
      intros (o' & tv' & Eo' & Ho' & _). rewrite Eo in Eo'. inversion Eo'; subst.
      apply Qltb_ge in Lo. lra. }
  rewrite Ev. simpl.
  destruct (Qltb 0 tv) eqn:Lv.
  2:{ exists [], self. rewrite app_nil_r. split; [reflexivity|].
      split; [apply extends_cache_refl|].
      intros (o' & tv' & _ & _ & Ev' & Hv' & _). rewrite Ev in Ev'.
      inversion Ev'; subst. apply Qltb_ge in Lv. lra. }
  apply Qltb_lt in Lv.
  destruct (volume_similar_to_typed vp tv _ Lv Hps) as (found & Ef & Hfound).
  unfold read_self. simpl. rewrite Ef.
  destruct (sorted_desc Qltb entry_similarity found) as [|e es] eqn:Es.
  - exists [], self. rewrite app_nil_r. split; [reflexivity|].
    split; [apply extends_cache_refl|].
    intros (o' & tv' & _ & _ & Ev' & _ & Hex). rewrite Ev in Ev'.
    inversion Ev'; subst. exfalso.
    apply (sorted_desc_nonempty Qltb entry_similarity found (Hfound Hex)).
    exact Es.
  - unfold ret. simpl. eexists [_], _. split; [reflexivity|].
    split.
    + split; [reflexivity|]. simpl. intros k. apply dict_get_set_is_Some.
    + intros _. simpl. split.
      * unfold volume_key. rewrite dict_get_set_eq. eexists. reflexivity.
      * eexists. split; [apply list_elem_of_here|]. split; reflexivity.
Qed.

Lemma volume_seeds_typed (seeds : list pydict) :
  Forall volume_typed seeds ->
  forall (recs : list recommendation) (self : module_state) (g : rng),
  Forall volume_typed (performers_data self) ->
  exists ext self',
    for_each rng seeds run_volume_seed recs (self, g) = (Ok (recs ++ ext), (self', g)) /\
    extends_cache self self' /\
    forall vp, vp ∈ seeds ->
      qualifying_volume_seed (performers_data self) vp ->
      is_Some (dict_get (key_of vp) (_performer_recommendation_cache self')) /\
      exists r, r ∈ ext /\ rec_id r = key_of vp /\
                recommendation_type r = "volume_similarity".
Proof.
  induction 1 as [|vp seeds Hvp _ IH]; intros recs self g Hps; simpl.
  - exists [], self. rewrite app_nil_r. split; [reflexivity|].
    split; [apply extends_cache_refl|]. intros vp Hin. inversion Hin.
  - destruct (volume_seed_typed vp recs self g Hvp Hps)
      as (ext1 & self1 & E1 & X1 & Q1).
    unfold bind. rewrite E1.
    assert (Hps1 : Forall volume_typed (performers_data self1))
      by (destruct X1 as [-> _]; exact Hps).
    destruct (IH (recs ++ ext1) self1 g Hps1) as (ext2 & self2 & E2 & X2 & Q2).
    exists (ext1 ++ ext2), self2. rewrite app_assoc.
    split; [exact E2|]. split; [eapply extends_cache_trans; eassumption|].
    intros vp' Hin Hq. apply elem_of_cons in Hin as [-> | Hin].
    + destruct (Q1 Hq) as (Hk & r & Hr & Hid & Hty). split.
      * apply X2. exact Hk.
      * exists r. split; [apply elem_of_app; left; exact Hr | split; assumption].
    + destruct X1 as [Hpd _]. rewrite <- Hpd in Hq.
      destruct (Q2 vp' Hin Hq) as (Hk & r & Hr & Hid & Hty). split; [exact Hk|].
      exists r. split; [apply elem_of_app; right; exact Hr | split; assumption].
Qed.

(** With an empty cup-size table the volume strategy does nothing. *)
Lemma volume_strategy_without_table (seeds cup_df : list pydict)
    (recs : list recommendation) (h : heap rng) :
  df_empty cup_df = true -> run_volume_strategy seeds cup_df recs h = (Ok recs, h).
Proof.
  intros He. unfold volume_strategy. rewrite He.
  destruct seeds; reflexivity.
Qed.

(** The call reads the payload through four fields only. *)
Lemma recommend_performers_reads_four_fields (s1 s2 : stats) (h : heap rng) :
  same_consumed_fields s1 s2 ->
  performers_call (Ok s1) h = performers_call (Ok s2) h.
Proof.
  intros (H1 & H2 & H3 & H4).
  unfold recommend_performers, performer_scan, bind, lift. simpl.
  rewrite H1, H2, H3, H4. reflexivity.
Qed.

(** C4, as the code has it: the volume strategy runs only when the
    cup-size table of the payload is not empty. Given that, on
    performers whose o_counter and volume are numbers, it returns and
    every qualifying seed of the volume list has its record, of the
    volume kind, among the produced records and under its key in the
    cache. *)
Theorem volume_strategy_gated_by_cup_table (seeds cup_df : list pydict)
    (recs : list recommendation) (self : module_state) (g : rng) (vp : pydict) :
  df_empty cup_df = false ->
  Forall volume_typed seeds ->
  Forall volume_typed (performers_data self) ->
  vp ∈ seeds ->
  qualifying_volume_seed (performers_data self) vp ->
  exists ext self',
    run_volume_strategy seeds cup_df recs (self, g) = (Ok (recs ++ ext), (self', g)) /\
    is_Some (dict_get (key_of vp) (_performer_recommendation_cache self')) /\
    exists r, r ∈ ext /\ rec_id r = key_of vp /\
              recommendation_type r = "volume_similarity".
Proof.
  intros Hdf Hseeds Hps Hin Hq.
  unfold volume_strategy. rewrite Hdf.
  destruct seeds as [|s seeds]; [inversion Hin|].
  destruct (volume_seeds_typed (s :: seeds) Hseeds recs self g Hps)
    as (ext & self' & E & _ & Q).
  exists ext, self'. split; [exact E|]. apply Q; assumption.
Qed.

End VolumeStrategy.

(** ** The recommender on the example data *)

(** C1 at a run that ends in the error branch after the first record was
    stored: scoring the unseen performer against the second seed raises,
    the caller gets the empty list, the record of the first seed stays in
    the cache, and the next call serves it as the whole pool. *)
Theorem partial_pool_served_after_error :
  let first := run_performers (Ok Examples.failing_stats) (Examples.failing_snapshot, tt) in
  let later := run_performers (Ok Examples.failing_stats) (snd first) in
  _performer_recommendation_cache Examples.failing_snapshot = [] /\
  fst (performer_scan render render_2f unit shuffle_id (Ok Examples.failing_stats)
         (with_counter 1 Examples.failing_snapshot, tt)) = Raise TypeError /\
  fst first = [] /\
  map fst (_performer_recommendation_cache (fst (snd first))) = ["o_counter_1"] /\
  map rec_id (fst later) = ["o_counter_1"].
Proof. repeat split; vm_compute; reflexivity. Qed.

(** C3, as the specification has it, fails: with a pool of three records
    the second of two successive calls serves the pool from its third
    record, and with a call of [recommend_scenes] in between it serves the
    pool from its first. *)
Lemma scenes_call_moves_performer_rotation :
  let self := Examples.warm_small in
  let direct := run_performers (Ok Examples.small_stats) (self, tt) in
  let after_scenes := snd (recommend_scenes (Ok Examples.small_stats) self) in
  let interleaved := run_performers (Ok Examples.small_stats) (after_scenes, tt) in
  map fst (_performer_recommendation_cache self)
    = ["o_counter_1"; "o_counter_2"; "o_counter_3"] /\
  map rec_id (fst direct) = ["o_counter_3"; "o_counter_1"; "o_counter_2"] /\
  map rec_id (fst interleaved) = ["o_counter_1"; "o_counter_2"; "o_counter_3"] /\
  fst direct <> fst interleaved.
Proof.
  repeat split; try (vm_compute; reflexivity).
  intros E. apply (f_equal (map rec_id)) in E. vm_compute in E. discriminate E.
Qed.

(** C6, as the specification has it, fails: with a pool of eleven
    records two successive calls on the populated cache return different
    windows of ten, the first with the record of seed 3 and without that
    of seed 2, the second the other way round. *)
Lemma window_of_eleven_moves :
  let first := run_performers (Ok Examples.large_stats) (Examples.warm_large, tt) in
  let second := run_performers (Ok Examples.large_stats) (snd first) in
  length (_performer_recommendation_cache Examples.warm_large) = 11%nat /\
  map rec_id (fst first) =
    ["o_counter_3"; "o_counter_4"; "o_counter_5"; "o_counter_6"; "o_counter_7";
     "o_counter_8"; "o_counter_9"; "o_counter_10"; "o_counter_11"; "o_counter_1"] /\
  map rec_id (fst second) =
    ["o_counter_4"; "o_counter_5"; "o_counter_6"; "o_counter_7"; "o_counter_8";
     "o_counter_9"; "o_counter_10"; "o_counter_11"; "o_counter_1"; "o_counter_2"] /\
  "o_counter_3" ∈ map rec_id (fst first) /\
  "o_counter_3" ∉ map rec_id (fst second).
Proof.
  repeat split; try (vm_compute; reflexivity).
  - apply (bool_decide_unpack _). vm_compute. exact I.
  - apply (bool_decide_unpack _). vm_compute. exact I.
Qed.

(** The rotating window on the pool of three records *)
Lemma hot_calls_serve_a_rotating_window_witness :
  _performer_recommendation_cache Examples.warm_small <> [] /\
  let pool := map snd (_performer_recommendation_cache Examples.warm_small) in
  let c := _recommendation_counter Examples.warm_small in
  let first := run_performers (Ok Examples.small_stats) (Examples.warm_small, tt) in
  let second := run_performers (Ok Examples.small_stats) (snd first) in
  fst first = take 10 (rotate ((c + 1) mod length pool)%nat pool) /\
  fst second = take 10 (rotate ((c + 2) mod length pool)%nat pool) /\
  _performer_recommendation_cache (fst (snd second)) =
    _performer_recommendation_cache Examples.warm_small /\
  ((length pool <= 10)%nat ->
   Permutation (fst first) pool /\
   Permutation (map rec_id (fst first)) (map rec_id (fst second))).
Proof.
  assert (H : _performer_recommendation_cache Examples.warm_small <> [])
    by (vm_compute; discriminate).
  split; [exact H|].
  exact (hot_calls_serve_a_rotating_window render render_2f unit shuffle_id
           (Ok Examples.small_stats) (Ok Examples.small_stats)
           Examples.warm_small tt H).
Defined.

(** C4, as the specification has it, fails: a payload whose volume list
    holds a qualifying seed produces no volume record when its cup-size
    table is empty, and produces it when the table has a row; the two
    payloads agree on the three fields the specification lists. *)
Lemma volume_seed_needs_cup_table :
  let without := Examples.volume_stats_without_table in
  let with_table := Examples.volume_stats_with_table in
  let run s := run_performers (Ok s) (Examples.volume_snapshot, tt) in
  Examples.seed "9" ∈ top_volume_performers without /\
  qualifying_volume_seed (performers_data Examples.volume_snapshot) (Examples.seed "9") /\
  top_o_counter_performers without = top_o_counter_performers with_table /\
  top_volume_performers without = top_volume_performers with_table /\
  cup_letter_o_stats without = cup_letter_o_stats with_table /\
  fst (run without) = [] /\
  _performer_recommendation_cache (fst (snd (run without))) = [] /\
  map rec_id (fst (run with_table)) = ["volume_9"].
Proof.
  repeat split; try (vm_compute; reflexivity).
  - apply list_elem_of_here.
  - exists (inject_Z 5), (inject_Z 400).
    repeat split; try (vm_compute; reflexivity).
    apply Exists_cons_hd. exists (inject_Z 0), (inject_Z 420).
    repeat split; try (vm_compute; reflexivity).
    vm_compute. discriminate.
Qed.

(** The volume strategy on a payload whose cup-size table has a row *)
Lemma volume_strategy_gated_by_cup_table_witness :
  let seeds := [Examples.seed "9"] in
  let cup_df := cup_size_dataframe Examples.volume_stats_with_table in
  df_empty cup_df = false /\
  Forall volume_typed seeds /\
  Forall volume_typed (performers_data Examples.volume_snapshot) /\
  Examples.seed "9" ∈ seeds /\
  qualifying_volume_seed (performers_data Examples.volume_snapshot) (Examples.seed "9") /\
  exists ext self',
    volume_strategy render unit seeds cup_df [] (Examples.volume_snapshot, tt)
      = (Ok ([] ++ ext), (self', tt)) /\
    is_Some (dict_get (volume_key render (Examples.seed "9"))
                      (_performer_recommendation_cache self')) /\
    exists r, r ∈ ext /\ rec_id r = volume_key render (Examples.seed "9") /\
              recommendation_type r = "volume_similarity".
Proof.
  assert (Hdf : df_empty (cup_size_dataframe Examples.volume_stats_with_table) = false)
    by (vm_compute; reflexivity).
  assert (Hty : forall p, p = Examples.seed "9" \/ p = Examples.unseen -> volume_typed p).
  { intros p [-> | ->]; split; vm_compute; reflexivity. }
  assert (Hseeds : Forall volume_typed [Examples.seed "9"])
    by (apply Forall_cons_2; [apply Hty; left; reflexivity | apply Forall_nil_2]).
  assert (Hps : Forall volume_typed (performers_data Examples.volume_snapshot))
    by (apply Forall_cons_2; [apply Hty; right; reflexivity | apply Forall_nil_2]).
  assert (Hin : Examples.seed "9" ∈ [Examples.seed "9"]) by apply list_elem_of_here.
  assert (Hq : qualifying_volume_seed (performers_data Examples.volume_snapshot)
                 (Examples.seed "9")).
  { exists (inject_Z 5), (inject_Z 400).
    repeat split; try (vm_compute; reflexivity).
    apply Exists_cons_hd. exists (inject_Z 0), (inject_Z 420).
    repeat split; try (vm_compute; reflexivity).
    vm_compute. discriminate. }
  do 5 (split; [assumption|]).
  exact (volume_strategy_gated_by_cup_table render unit [Examples.seed "9"] _ []
           Examples.volume_snapshot tt (Examples.seed "9") Hdf Hseeds Hps Hin Hq).
Defined.

(** ** Scene recommendations *)

Lemma categorise_lookup (popular top mct : list pyval) (scenes : list scene) :
  forall (m : gmap string (list scene_recommendation)) (category : string),
  categorise popular top mct scenes m !! category =
    (fun l => l ++ uncut popular top mct scenes category) <$> (m !! category).
Proof.
  induction scenes as [|s scenes IH]; intros m category; simpl.
  - unfold uncut. simpl. destruct (m !! category); simpl; [|reflexivity].
    rewrite app_nil_r. reflexivity.
  - unfold uncut, assigned_to, py_ne in *. simpl.
    destruct (py_eq (getd (scalars s) "o_counter" (VNum 0)) (VNum 0)); simpl.
    + rewrite IH. rewrite lookup_alter.
      destruct (String.eqb (category_of top mct s) category) eqn:E.
      * apply String.eqb_eq in E. subst category.
        rewrite decide_True by reflexivity.
        destruct (m !! category_of top mct s); simpl; [|reflexivity].
        rewrite <- app_assoc. reflexivity.
      * apply String.eqb_neq in E. rewrite decide_False by exact E. reflexivity.
    + apply IH.
Qed.

Lemma no_recommendations_lookup (category : string) :
  (category ∈ categories -> no_recommendations !! category = Some []) /\
  (category ∉ categories -> no_recommendations !! category = None).
Proof.
  unfold no_recommendations, categories. split.
  - intros H. repeat (apply elem_of_cons in H as [-> | H]; [vm_compute; reflexivity|]).
    inversion H.
  - intros H.
    rewrite !lookup_insert_ne; [apply lookup_empty | ..];
      intros E; subst category; apply H; set_solver.
Qed.

(** What a successful scan returns: under each of the four keys the
    records of the scenes assigned to it, sorted and cut; no other key. *)
Lemma scene_scan_categories (outcome : result stats) (scenes : list scene)
    (recs : gmap string (list scene_recommendation)) :
  scene_scan outcome scenes = Ok recs ->
  exists (st : stats) (popular most_common : list pyval),
    outcome = Ok st /\
    _get_popular_tags scenes 3 20 = Ok popular /\
    let top := map (fun p => getd p "name" (VStr "")) (top_o_counter_performers st) in
    (forall category, category ∈ categories ->
       recs !! category =
         Some (sort_and_limit category (uncut popular top most_common scenes category))) /\
    (forall category, category ∉ categories -> recs !! category = None).
Proof.
  unfold scene_scan. intros H.
  destruct outcome as [st|]; simpl in H; [|discriminate].
  destruct (_get_popular_tags scenes 3 20) as [popular|] eqn:Ep; simpl in H; [|discriminate].
  destruct (high_o_counter_tags scenes) as [high|] eqn:Eh; simpl in H; [|discriminate].
  inversion H; subst; clear H.
  exists st, popular, (map fst (most_common 20 (counter_of high))).
  split; [reflexivity|]. split; [reflexivity|]. simpl. split.
  - intros category Hc. rewrite map_lookup_imap, categorise_lookup.
    rewrite (proj1 (no_recommendations_lookup category) Hc). reflexivity.
  - intros category Hc. rewrite map_lookup_imap, categorise_lookup.
    rewrite (proj2 (no_recommendations_lookup category) Hc). reflexivity.
Qed.

Lemma elem_of_take_weaken {A} (n : nat) (l : list A) (x : A) : x ∈ take n l -> x ∈ l.
Proof.
  intros H. rewrite <- (take_drop n l). apply elem_of_app. left. exact H.
Qed.

Lemma sort_and_limit_subset (category : string) (l : list scene_recommendation)
    (r : scene_recommendation) :
  r ∈ sort_and_limit category l -> r ∈ l.
Proof.
  unfold sort_and_limit. intros H.
  destruct (String.eqb category similar_tag_scenes);
    apply elem_of_take_weaken in H; rewrite sorted_desc_perm in H; exact H.
Qed.

Lemma sort_and_limit_length (category : string) (l : list scene_recommendation) :
  (length (sort_and_limit category l) <= if String.eqb category similar_tag_scenes
                                         then 15 else 10)%nat.
Proof.
  unfold sort_and_limit.
  destruct (String.eqb category similar_tag_scenes); rewrite length_take; lia.
Qed.

Lemma recommend_scenes_cold (outcome : result stats) (self : module_state) :
  _scene_recommendation_cache self = ∅ ->
  fst (recommend_scenes outcome self) =
    match scenes_data self with
    | [] => ∅
    | _ :: _ =>
        match scene_scan outcome (scenes_data self) with
        | Ok recs => recs
        | Raise _ => ∅
        end
    end.
Proof.
  intros Hc. unfold recommend_scenes. simpl. rewrite Hc.
  rewrite map_size_empty. simpl.
  destruct (scenes_data self); [reflexivity|].
  destruct (scene_scan _ _); reflexivity.
Qed.

(** C2, as the code has it: every record of the returned mapping counts
    the tags of its scene that are among the top twenty weighted tags of
    the scenes with an o_counter of at least 3. *)
Theorem popularity_counts_tags_weighted_from_three
    (outcome : result stats) (self : module_state)
    (category : string) (l : list scene_recommendation) (r : scene_recommendation) :
  _scene_recommendation_cache self = ∅ ->
  fst (recommend_scenes outcome self) !! category = Some l ->
  r ∈ l ->
  exists popular_tags,
    _get_popular_tags (scenes_data self) 3 20 = Ok popular_tags /\
    similarity r = intersection_size (tag_names r) popular_tags.
Proof.
  intros Hc Hl Hr. rewrite recommend_scenes_cold in Hl by exact Hc.
  destruct (scenes_data self) as [|s ss] eqn:Es; [rewrite lookup_empty in Hl; discriminate|].
  destruct (scene_scan outcome (s :: ss)) as [recs|] eqn:E;
    [|rewrite lookup_empty in Hl; discriminate].
  apply scene_scan_categories in E as (st & popular & mct & _ & Ep & Hin & Hout).
  exists popular. split; [exact Ep|].
  destruct (decide (category ∈ categories)) as [Hcat|Hcat].
  - rewrite (Hin category Hcat) in Hl. inversion Hl; subst; clear Hl.
    apply sort_and_limit_subset in Hr. unfold uncut in Hr.
    apply list_elem_of_fmap in Hr as (sc & -> & _). reflexivity.
  - rewrite (Hout category Hcat) in Hl. discriminate.
Qed.

(** C2, as the specification has it, fails: with one scene seen once and
    one unseen scene, both tagged [x], the vocabulary from o_counter 1
    holds [x] and would give the unseen scene a score of 1; the returned
    record has 0, the size of the overlap with the vocabulary from
    o_counter 3, which is empty. *)
Lemma popularity_ignores_scenes_seen_once :
  let out := fst (recommend_scenes (Ok Examples.no_stats) (cold [] Examples.seen_once)) in
  exists r,
    out !! non_favorite_performer_scenes = Some [r] /\
    scene_id r = VStr "2" /\
    tag_names r = [VStr "x"] /\
    _get_popular_tags Examples.seen_once 1 20 = Ok [VStr "x"] /\
    intersection_size (tag_names r) [VStr "x"] = 1%nat /\
    _get_popular_tags Examples.seen_once 3 20 = Ok [] /\
    similarity r = 0%nat.
Proof. eexists. repeat split; vm_compute; reflexivity. Qed.

(** The score of the unseen scene of the example *)
Lemma popularity_counts_tags_weighted_from_three_witness :
  let self := cold [] Examples.seen_once in
  let r := scene_record [] [] (Examples.plain_scene "2" 0 ["x"]) in
  _scene_recommendation_cache self = ∅ /\
  fst (recommend_scenes (Ok Examples.no_stats) self) !! non_favorite_performer_scenes
    = Some [r] /\
  r ∈ [r] /\
  exists popular_tags,
    _get_popular_tags (scenes_data self) 3 20 = Ok popular_tags /\
    similarity r = intersection_size (tag_names r) popular_tags.
Proof.
  assert (H1 : _scene_recommendation_cache (cold [] Examples.seen_once) = ∅)
    by reflexivity.
  assert (H2 : fst (recommend_scenes (Ok Examples.no_stats) (cold [] Examples.seen_once))
                 !! non_favorite_performer_scenes
               = Some [scene_record [] [] (Examples.plain_scene "2" 0 ["x"])])
    by (vm_compute; reflexivity).
  assert (H3 : scene_record [] [] (Examples.plain_scene "2" 0 ["x"])
               ∈ [scene_record [] [] (Examples.plain_scene "2" 0 ["x"])])
    by apply list_elem_of_here.
  do 3 (split; [assumption|]).
  exact (popularity_counts_tags_weighted_from_three (Ok Examples.no_stats)
           (cold [] Examples.seen_once) non_favorite_performer_scenes _ _ H1 H2 H3).
Defined.

(** C10: with no scene in the snapshot and an empty scene cache the call
    returns the empty mapping: no category is a key of it, whatever the
    collaborator would have answered. *)
Theorem no_scenes_no_categories (outcome : result stats) (self : module_state) :
  scenes_data self = [] ->
  _scene_recommendation_cache self = ∅ ->
  fst (recommend_scenes outcome self) = ∅ /\
  (forall category, fst (recommend_scenes outcome self) !! category = None) /\
  fst (recommend_scenes outcome self) <> no_recommendations.
Proof.
  intros Hs Hc. rewrite recommend_scenes_cold by exact Hc. rewrite Hs.
  split; [reflexivity|]. split; [intros; apply lookup_empty|].
  intros E. apply (f_equal (fun m => m !! favorite_performer_scenes)) in E.
  rewrite lookup_empty in E.
  rewrite (proj1 (no_recommendations_lookup favorite_performer_scenes)) in E;
    [discriminate | apply list_elem_of_here].
Qed.

(** A snapshot with a performer and no scene *)
Lemma no_scenes_no_categories_witness :
  let self := cold [Examples.unseen] [] in
  scenes_data self = [] /\
  _scene_recommendation_cache self = ∅ /\
  fst (recommend_scenes (Ok Examples.no_stats) self) = ∅ /\
  (forall category,
     fst (recommend_scenes (Ok Examples.no_stats) self) !! category = None) /\
  fst (recommend_scenes (Ok Examples.no_stats) self) <> no_recommendations.
Proof.
  assert (H1 : scenes_data (cold [Examples.unseen] []) = []) by reflexivity.
  assert (H2 : _scene_recommendation_cache (cold [Examples.unseen] []) = ∅)
    by reflexivity.
  do 2 (split; [assumption|]).
  exact (no_scenes_no_categories (Ok Examples.no_stats) (cold [Examples.unseen] []) H1 H2).
Defined.

(** ** The categories of the scene recommendations *)

Lemma py_ge_typed (s : scene) (q : Q) :
  scene_typed s ->
  exists o, as_num (getd (scalars s) "o_counter" (VNum 0)) = Ok o /\
            py_ge (getd (scalars s) "o_counter" (VNum 0)) q = Ok (Qle_bool q o).
Proof.
  intros H. destruct (as_num_number _ (getd_number _ _ H)) as [o Eo].
  exists o. split; [exact Eo|]. unfold py_ge. rewrite Eo. reflexivity.
Qed.

Lemma weigh_scenes_typed (scenes : list scene) (min_o_counter : Q) :
  Forall scene_typed scenes ->
  forall acc, exists c, weigh_scenes scenes min_o_counter acc = Ok c.
Proof.
  induction 1 as [|s scenes Hs _ IH]; intros acc; simpl.
  - eexists. reflexivity.
  - destruct (py_ge_typed s min_o_counter Hs) as (o & Eo & ->). simpl.
    destruct (Qle_bool min_o_counter o); [rewrite Eo; simpl|]; apply IH.
Qed.

Lemma high_o_counter_tags_typed (scenes : list scene) :
  Forall scene_typed scenes -> exists l, high_o_counter_tags scenes = Ok l.
Proof.
  induction 1 as [|s scenes Hs _ [l IH]]; simpl.
  - eexists. reflexivity.
  - destruct (py_ge_typed s 3 Hs) as (o & _ & ->). simpl. rewrite IH. simpl.
    eexists. reflexivity.
Qed.

Lemma scene_scan_typed (st : stats) (scenes : list scene) :
  Forall scene_typed scenes -> exists recs, scene_scan (Ok st) scenes = Ok recs.
Proof.
  intros H. unfold scene_scan, _get_popular_tags. simpl.
  destruct (weigh_scenes_typed scenes 3 H []) as [c ->]. simpl.
  destruct (high_o_counter_tags_typed scenes H) as [l ->]. simpl.
  eexists. reflexivity.
Qed.

Lemma category_of_in_categories (top mct : list pyval) (s : scene) :
  category_of top mct s ∈ categories.
Proof.
  unfold category_of, categories. repeat case_match; set_solver.
Qed.

Lemma assigned_to_iff (top mct : list pyval) (category : string) (s : scene) :
  assigned_to top mct category s = true <->
  py_eq (getd (scalars s) "o_counter" (VNum 0)) (VNum 0) = true /\
  category = category_of top mct s.
Proof.
  unfold assigned_to. rewrite andb_true_iff, String.eqb_eq.
  split; intros [H1 H2]; split; congruence.
Qed.

(** C5, as the specification has it, fails: of eleven unseen scenes
    without performers and tags, ten are returned under the fallback
    category and the eleventh under none of the four. *)
Lemma eleventh_unseen_scene_is_cut :
  let out :=
    fst (recommend_scenes (Ok Examples.no_stats) (cold [] Examples.eleven_scenes)) in
  let eleventh := Examples.plain_scene "11" 0 [] in
  eleventh ∈ Examples.eleven_scenes /\
  py_eq (getd (scalars eleventh) "o_counter" (VNum 0)) (VNum 0) = true /\
  out !! favorite_performer_scenes = Some [] /\
  out !! recommended_performer_scenes = Some [] /\
  out !! similar_tag_scenes = Some [] /\
  map scene_id <$> out !! non_favorite_performer_scenes =
    Some [VStr "1"; VStr "2"; VStr "3"; VStr "4"; VStr "5";
          VStr "6"; VStr "7"; VStr "8"; VStr "9"; VStr "10"].
Proof.
  repeat split; try (vm_compute; reflexivity).
  apply list_elem_of_In. vm_compute. tauto.
Qed.

(** ** The popular tags *)

Lemma py_eq_refl (v : pyval) : py_eq v v = true.
Proof.
  destruct v as [|[]|q|s]; simpl; try reflexivity.
  - apply Qeq_bool_refl.
  - apply String.eqb_refl.
Qed.

Lemma py_eq_num (v w : pyval) (a b : Q) :
  as_num v = Ok a -> as_num w = Ok b -> py_eq v w = Qeq_bool a b.
Proof.
  destruct v as [|[]|q|s], w as [|[]|q'|s']; simpl; intros Ha Hb;
    inversion Ha; inversion Hb; subst; reflexivity.
Qed.

Lemma py_eq_cases (v w : pyval) :
  py_eq v w = true ->
  (v = VNone /\ w = VNone) \/
  (exists s, v = VStr s /\ w = VStr s) \/
  (exists a b, as_num v = Ok a /\ as_num w = Ok b /\ a == b).
Proof.
  destruct v as [|b|q|s], w as [|b'|q'|s']; simpl; intros H; try discriminate H.
  - left. split; reflexivity.
  - right. right. do 2 eexists. repeat split. apply Qeq_bool_iff. exact H.
  - right. right. do 2 eexists. repeat split. apply Qeq_bool_iff. exact H.
  - right. right. do 2 eexists. repeat split. apply Qeq_bool_iff. exact H.
  - right. right. do 2 eexists. repeat split. apply Qeq_bool_iff. exact H.
  - right. left. apply String.eqb_eq in H. subst. eexists. split; reflexivity.
Qed.

Lemma py_eq_congr (k k' t : pyval) : py_eq k' k = true -> py_eq k' t = py_eq k t.
Proof.
  intros H. apply py_eq_cases in H
    as [[-> ->] | [(s & -> & ->) | (a & b & Ha & Hb & E)]]; try reflexivity.
  destruct (as_num t) as [c|e] eqn:Hc.
  - rewrite (py_eq_num k' t a c Ha Hc), (py_eq_num k t b c Hb Hc).
    rewrite E. reflexivity.
  - destruct t; simpl in Hc; try discriminate Hc;
      destruct k' as [|[]| |], k as [|[]| |]; simpl in *; try discriminate; reflexivity.
Qed.

Lemma counter_add_weight (k : pyval) (w : Q) (c : counter) (t : pyval) :
  counter_weight (counter_add k w c) t ==
  counter_weight c t + (if py_eq k t then w else 0).
Proof.
  induction c as [|[k' n] c IH]; simpl.
  - destruct (py_eq k t); ring.
  - destruct (py_eq k' k) eqn:E; simpl.
    + rewrite (py_eq_congr k k' t E). destruct (py_eq k t); ring.
    + rewrite IH. ring.
Qed.

Lemma counter_add_keys (k : pyval) (w : Q) (c : counter) :
  map fst (counter_add k w c) =
    if existsb (fun k' => py_eq k' k) (map fst c) then map fst c else map fst c ++ [k].
Proof.
  induction c as [|[k' n] c IH]; simpl; [reflexivity|].
  destruct (py_eq k' k); simpl; [reflexivity|].
  rewrite IH. destruct (existsb _ _); reflexivity.
Qed.

Lemma distinct_keys_snoc (ks : list pyval) (k : pyval) :
  distinct_keys ks -> existsb (fun k' => py_eq k' k) ks = false ->
  distinct_keys (ks ++ [k]).
Proof.
  induction ks as [|k0 ks IH]; simpl; intros Hd He.
  - split; [constructor | exact I].
  - apply orb_false_iff in He as [He0 He]. destruct Hd as [Hf Hd]. split.
    + apply Forall_app. split; [exact Hf|].
      apply Forall_cons_2; [exact He0 | apply Forall_nil_2].
    + apply IH; assumption.
Qed.

Lemma counter_add_good (k : pyval) (w : Q) (c : counter) :
  truthy k = true -> good_keys c -> good_keys (counter_add k w c).
Proof.
  intros Hk [Hd Ht]. unfold good_keys. rewrite counter_add_keys.
  destruct (existsb _ _) eqn:E; [split; assumption|]. split.
  - apply distinct_keys_snoc; assumption.
  - apply Forall_app. split; [exact Ht|].
    apply Forall_cons_2; [exact Hk | apply Forall_nil_2].
Qed.

Lemma count_tags_spec (tags : list pydict) (w : Q) :
  forall c : counter,
  good_keys c ->
  good_keys (count_tags tags w c) /\
  forall t,
    counter_weight (count_tags tags w c) t ==
    counter_weight c t
    + w * inject_Z (Z.of_nat
          (length (List.filter (fun n => truthy n && py_eq n t)
                     (map (fun tg => getd tg "name" (VStr "")) tags)))).
Proof.
  induction tags as [|tg tags IH]; intros c Hc; simpl.
  - split; [exact Hc|]. intros t. ring.
  - destruct (truthy (getd tg "name" (VStr ""))) eqn:Tn; simpl.
    + destruct (IH _ (counter_add_good _ w c Tn Hc)) as [Hg Hw].
      split; [exact Hg|]. intros t. rewrite Hw, counter_add_weight.
      destruct (py_eq (getd tg "name" (VStr "")) t); simpl.
      * rewrite Nat2Z.inj_succ, <- Z.add_1_r, inject_Z_plus. ring.
      * ring.
    + apply IH. exact Hc.
Qed.



Lemma py_eq_sym (v w : pyval) : py_eq v w = py_eq w v.
Proof.
  destruct v as [|[]|q|s], w as [|[]|q'|s']; simpl; try reflexivity;
    try apply Qeq_bool_comm.
  apply String.eqb_sym.
Qed.



Lemma insert_desc_perm {A K} (lt : K -> K -> bool) (key : A -> K) (x : A) (l : list A) :
  Permutation (insert_desc lt key x l) (x :: l).
Proof.
  induction l as [|y l IH]; simpl; [reflexivity|].
  destruct (lt (key x) (key y)); [|reflexivity].
  rewrite IH. apply perm_swap.
Qed.





(** ** What a call of the performer recommender keeps *)

Lemma same_frame_refl (self : module_state) : same_frame self self.
Proof. repeat split. Qed.

Lemma same_frame_trans (s1 s2 s3 : module_state) :
  same_frame s1 s2 -> same_frame s2 s3 -> same_frame s1 s3.
Proof.
  intros (A1 & B1 & C1 & D1) (A2 & B2 & C2 & D2). repeat split; congruence.
Qed.

Lemma same_frame_store (r : recommendation) (self : module_state) :
  strategy_record r ->
  same_frame self
    (with_performer_cache
       (dict_set (rec_id r) r (_performer_recommendation_cache self)) self).
Proof. repeat split. Qed.

Lemma dict_set_keys {V} (k : string) (v : V) (d : list (string * V)) :
  map fst (dict_set k v d) =
    if bool_decide (k ∈ map fst d) then map fst d else map fst d ++ [k].
Proof.
  induction d as [|[k' v'] d IH]; simpl; [reflexivity|].
  destruct (String.eqb k' k) eqn:E; simpl.
  - apply String.eqb_eq in E. subst k'.
    rewrite bool_decide_eq_true_2 by apply list_elem_of_here. reflexivity.
  - apply String.eqb_neq in E. rewrite IH.
    destruct (bool_decide (k ∈ map fst d)) eqn:B.
    + apply bool_decide_eq_true_1 in B.
      rewrite bool_decide_eq_true_2 by (apply list_elem_of_further; exact B).
      reflexivity.
    + apply bool_decide_eq_false_1 in B.
      rewrite bool_decide_eq_false_2; [reflexivity|].
      intros H. apply elem_of_cons in H as [H | H]; [congruence | contradiction].
Qed.

Lemma dict_set_values {V} (P : string * V -> Prop) (k : string) (v : V)
    (d : list (string * V)) :
  P (k, v) -> Forall P d -> Forall P (dict_set k v d).
Proof.
  intros Hkv. induction 1 as [|[k' v'] d Hx Hd IH]; simpl.
  - apply Forall_cons_2; [exact Hkv | apply Forall_nil_2].
  - destruct (String.eqb k' k) eqn:E.
    + apply String.eqb_eq in E. subst k'. apply Forall_cons_2; assumption.
    + apply Forall_cons_2; assumption.
Qed.

Lemma dict_set_well_keyed (r : recommendation) (cache : list (string * recommendation)) :
  well_keyed cache -> well_keyed (dict_set (rec_id r) r cache).
Proof.
  intros [Hv Hk]. split.
  - apply dict_set_values; [reflexivity | exact Hv].
  - rewrite dict_set_keys. destruct (bool_decide _) eqn:B; [exact Hk|].
    apply bool_decide_eq_false_1 in B.
    apply NoDup_app. split; [exact Hk|]. split.
    + intros x Hx Hx'. apply list_elem_of_singleton in Hx'. subst x. contradiction.
    + apply NoDup_singleton.
Qed.

Section Respects.

Variable py_str : pyval -> string.
Variable py_format_2f : Q -> string.
Variable rng : Type.
Variable shuffle : forall A : Type, list A -> rng -> list A * rng.

Variable R : module_state -> module_state -> Prop.
Hypothesis R_refl : forall s, R s s.
Hypothesis R_trans : forall s1 s2 s3, R s1 s2 -> R s2 s3 -> R s1 s3.
Hypothesis R_store :
  forall (r : recommendation) (self : module_state),
    strategy_record r ->
    R self (with_performer_cache
              (dict_set (rec_id r) r (_performer_recommendation_cache self)) self).

Lemma respects_ret {A} (a : A) : respects R (ret rng a).
Proof. intros h. apply R_refl. Qed.

Lemma respects_lift {A} (r : result A) : respects R (lift rng r).
Proof. intros h. apply R_refl. Qed.

Lemma respects_read : respects R (read_self rng).
Proof. intros h. apply R_refl. Qed.

Lemma respects_shuffle {A} (l : list A) : respects R (random_shuffle rng shuffle l).
Proof.
  intros h. unfold random_shuffle. destruct (shuffle A l (snd h)). apply R_refl.
Qed.

Lemma respects_store (r : recommendation) :
  strategy_record r -> respects R (cache_store rng (rec_id r) r).
Proof. intros Hr h. apply R_store. exact Hr. Qed.

Ltac strategy_record_built :=
  split; [discriminate | split; [simpl; rewrite ?length_take; lia | set_solver]].

Lemma respects_bind {A B} (c : M rng A) (k : A -> M rng B) :
  respects R c -> (forall a, respects R (k a)) -> respects R (bind rng c k).
Proof.
  intros Hc Hk h. unfold bind. specialize (Hc h).
  destruct (c h) as [[a|e] h1]; simpl in *; [|exact Hc].
  eapply R_trans; [exact Hc | apply Hk].
Qed.

Lemma respects_for_each {A S} (l : list A) (body : A -> S -> M rng S) :
  (forall x s, respects R (body x s)) -> forall s, respects R (for_each rng l body s).
Proof.
  intros Hb. induction l as [|x l IH]; intros s; simpl.
  - apply respects_ret.
  - apply respects_bind; [apply Hb | exact IH].
Qed.

Ltac respects_step :=
  first
    [ apply respects_ret
    | apply respects_lift
    | apply respects_read
    | apply respects_shuffle
    | apply (respects_store {| rec_id := _; rec_performer := _;
                               similar_performers := _;
                               recommendation_type := _ |});
      strategy_record_built
    | apply respects_bind; [|intros ?]
    | apply respects_for_each; intros ? ? ].

Ltac respects_go :=
  repeat first
    [ respects_step
    | match goal with
      | |- respects _ (let _ := _ in _) => cbv zeta
      | |- respects _ (if ?b then _ else _) => destruct b
      | |- respects _ (match ?x with _ => _ end) => destruct x eqn:?
      end ].

Lemma respects_o_counter_seed (base : pydict) (recs : list recommendation) :
  respects R (o_counter_seed py_str rng base recs).
Proof. unfold o_counter_seed. respects_go. Qed.

Lemma respects_volume_seed (vp : pydict) (recs : list recommendation) :
  respects R (volume_seed py_str rng vp recs).
Proof. unfold volume_seed. respects_go. Qed.

Lemma respects_cup_seed (cup_stat : pydict) (recs : list recommendation) :
  respects R (cup_seed py_str py_format_2f rng shuffle cup_stat recs).
Proof. unfold cup_seed. respects_go. Qed.

Lemma respects_performer_scan (outcome : result stats) :
  respects R (performer_scan py_str py_format_2f rng shuffle outcome).
Proof.
  unfold performer_scan.
  apply respects_bind; [apply respects_lift | intros st].
  apply respects_bind; [|intros r1].
  { apply respects_for_each. intros. apply respects_o_counter_seed. }
  apply respects_bind; [|intros r2].
  { unfold volume_strategy.
    destruct (top_volume_performers st); [apply respects_ret|].
    destruct (df_empty _); [apply respects_ret|].
    apply respects_for_each. intros. apply respects_volume_seed. }
  apply respects_bind; [|intros r3].
  { unfold cup_strategy.
    destruct (cup_letter_o_stats st); [apply respects_ret|].
    apply respects_bind; [apply respects_lift | intros sorted].
    apply respects_for_each. intros. apply respects_cup_seed. }
  apply respects_bind; [apply respects_shuffle | intros r4].
  apply respects_ret.
Qed.

End Respects.

(** ** Every call of the performer recommender *)

Section PerformerCalls.

Variable py_str : pyval -> string.
Variable py_format_2f : Q -> string.
Variable rng : Type.
Variable shuffle : forall A : Type, list A -> rng -> list A * rng.

Local Abbreviation performers_call :=
  (recommend_performers py_str py_format_2f rng shuffle).
Local Abbreviation scan := (performer_scan py_str py_format_2f rng shuffle).
Local Abbreviation calls := (successive_calls py_str py_format_2f rng shuffle).
Local Abbreviation reachable_heap := (reachable py_str py_format_2f rng shuffle).

Lemma bind_Ok {A B} (c : M rng A) (k : A -> M rng B) (h h' : heap rng) (b : B) :
  bind rng c k h = (Ok b, h') ->
  exists a h1, c h = (Ok a, h1) /\ k a h1 = (Ok b, h').
Proof.
  unfold bind. destruct (c h) as [[a|e] h1]; intros H; [|discriminate].
  exists a, h1. split; [reflexivity | exact H].
Qed.

Lemma scan_length (outcome : result stats) (h h' : heap rng)
    (l : list recommendation) :
  scan outcome h = (Ok l, h') -> (length l <= 10)%nat.
Proof.
  unfold performer_scan. intros H.
  repeat (apply bind_Ok in H as (? & ? & _ & H)).
  unfold ret in H. inversion H; subst. rewrite length_take. lia.
Qed.

(** What a call leaves alone, on every path, and the one counter it moves *)
Lemma recommend_performers_frame (outcome : result stats) (h : heap rng) :
  let self' := fst (snd (performers_call outcome h)) in
  _recommendation_counter self' = S (_recommendation_counter (fst h)) /\
  performers_data self' = performers_data (fst h) /\
  scenes_data self' = scenes_data (fst h) /\
  _scene_recommendation_cache self' = _scene_recommendation_cache (fst h).
Proof.
  unfold recommend_performers. cbv zeta. simpl.
  destruct (_performer_recommendation_cache (fst h)) as [|kv cache].
  - destruct (performers_data (fst h)) as [|p ps] eqn:Ep.
    + simpl. rewrite Ep. repeat split.
    + pose proof (respects_performer_scan py_str py_format_2f rng shuffle
                    same_frame same_frame_refl same_frame_trans
                    same_frame_store outcome
                    (with_counter (S (_recommendation_counter (fst h))) (fst h), snd h))
        as (A & B & C & D).
      simpl in A, B, C, D.
      destruct (scan outcome _) as [[l|e] h1] eqn:E; simpl in *;
        rewrite D, A, B, C, Ep; repeat split.
  - simpl. repeat split.
Qed.

(** A call returns at most ten records; it moves the counter by one and
    leaves the snapshot and the scene cache as they are, on every path:
    cache hit, no performer, completed scan and failed scan. *)
Theorem performers_call_bounded_and_framed (outcome : result stats) (h : heap rng) :
  let out := performers_call outcome h in
  let self' := fst (snd out) in
  (length (fst out) <= 10)%nat /\
  _recommendation_counter self' = S (_recommendation_counter (fst h)) /\
  performers_data self' = performers_data (fst h) /\
  scenes_data self' = scenes_data (fst h) /\
  _scene_recommendation_cache self' = _scene_recommendation_cache (fst h).
Proof.
  unfold recommend_performers. cbv zeta. simpl.
  destruct (_performer_recommendation_cache (fst h)) as [|kv cache].
  - destruct (performers_data (fst h)) as [|p ps] eqn:Ep.
    + simpl. rewrite Ep. repeat split. lia.
    + pose proof (respects_performer_scan py_str py_format_2f rng shuffle
                    same_frame same_frame_refl same_frame_trans
                    same_frame_store outcome
                    (with_counter (S (_recommendation_counter (fst h))) (fst h), snd h))
        as (A & B & C & D).
      simpl in A, B, C, D.
      destruct (scan outcome _) as [[l|e] h1] eqn:E; simpl in *.
      * split; [eapply scan_length; exact E|].
        rewrite D, A, B, C, Ep. repeat split.
      * split; [lia|]. rewrite D, A, B, C, Ep. repeat split.
  - simpl. split; [rewrite length_take; lia | repeat split].
Qed.

Lemma well_keyed_store (r : recommendation) (self : module_state) :
  strategy_record r ->
  well_keyed (_performer_recommendation_cache self) ->
  well_keyed (_performer_recommendation_cache
                (with_performer_cache
                   (dict_set (rec_id r) r (_performer_recommendation_cache self)) self)).
Proof. intros _. simpl. apply dict_set_well_keyed. Qed.

Lemma performers_call_well_keyed (outcome : result stats) (h : heap rng) :
  well_keyed (_performer_recommendation_cache (fst h)) ->
  well_keyed (_performer_recommendation_cache (fst (snd (performers_call outcome h)))).
Proof.
  intros Hk. unfold recommend_performers. cbv zeta. simpl.
  destruct (_performer_recommendation_cache (fst h)) as [|kv cache] eqn:Ec.
  - destruct (performers_data (fst h)) as [|p ps] eqn:Ep.
    + simpl. rewrite Ec. exact Hk.
    + pose proof (respects_performer_scan py_str py_format_2f rng shuffle
                    (fun s s' => well_keyed (_performer_recommendation_cache s) ->
                                 well_keyed (_performer_recommendation_cache s'))
                    (fun s H => H) (fun s1 s2 s3 H1 H2 H => H2 (H1 H))
                    well_keyed_store outcome
                    (with_counter (S (_recommendation_counter (fst h))) (fst h), snd h))
        as Hscan.
      simpl in Hscan. rewrite Ec in Hscan. specialize (Hscan Hk).
      destruct (scan outcome _) as [[l|e] h1]; exact Hscan.
  - simpl. rewrite Ec. exact Hk.
Qed.

(** In every instance a program can reach, each record of the performer
    cache sits under its own id and no key occurs twice. *)
Lemma reachable_well_keyed (h : heap rng) :
  reachable_heap h -> well_keyed (_performer_recommendation_cache (fst h)).
Proof.
  induction 1 as [loaded g | outcome h _ IH | outcome h _ IH | loaded h _ IH]; simpl.
  - split; constructor.
  - apply performers_call_well_keyed. exact IH.
  - destruct (recommend_scenes_frame outcome (fst h)) as (_ & -> & _). exact IH.
  - split; constructor.
Qed.

(** A call served from the cache of a reachable instance never returns
    the same id twice. *)
Theorem cached_records_have_distinct_ids (outcome : result stats) (h : heap rng) :
  reachable_heap h ->
  _performer_recommendation_cache (fst h) <> [] ->
  NoDup (map rec_id (fst (performers_call outcome h))).
Proof.
  intros Hr Hne. destruct h as [self g]. simpl in Hne.
  rewrite recommend_performers_hot by exact Hne. simpl.
  destruct (reachable_well_keyed _ Hr) as [Hv Hk]. simpl in Hv, Hk.
  assert (Hids : map rec_id (map snd (_performer_recommendation_cache self))
                 = map fst (_performer_recommendation_cache self)).
  { clear -Hv. induction Hv as [|[k r] l Hx _ IH]; simpl; [reflexivity|].
    simpl in Hx. rewrite Hx, IH. reflexivity. }
  set (pool := map snd (_performer_recommendation_cache self)) in *.
  set (i := (S (_recommendation_counter self)
             mod length (_performer_recommendation_cache self))%nat).
  assert (Hsub : map rec_id (take 10 (rotate i pool))
                 `sublist_of` map rec_id (rotate i pool))
    by (apply (fmap_sublist rec_id), sublist_take).
  eapply sublist_NoDup; [|exact Hsub].
  assert (Hperm : Permutation (map rec_id (rotate i pool)) (map rec_id pool))
    by (apply Permutation_map, rotate_perm).
  rewrite Hperm, Hids. exact Hk.
Qed.

(** *** The rotation over successive calls *)

Lemma successive_calls_hot (k : nat) :
  forall (outcome : result stats) (self : module_state) (g : rng),
  _performer_recommendation_cache self <> [] ->
  successive_calls py_str py_format_2f rng shuffle k outcome (self, g) =
    (take 10 (rotate ((_recommendation_counter self + k + 1)
                        mod length (_performer_recommendation_cache self))%nat
                     (map snd (_performer_recommendation_cache self))),
     (with_counter (_recommendation_counter self + k + 1) self, g)).
Proof.
  induction k as [|k IH]; intros outcome self g Hne; simpl.
  - rewrite recommend_performers_hot by exact Hne.
    replace (_recommendation_counter self + 0 + 1)%nat
      with (S (_recommendation_counter self)) by lia.
    reflexivity.
  - rewrite recommend_performers_hot by exact Hne. simpl.
    rewrite IH by exact Hne. simpl.
    replace (_recommendation_counter self + S k + 1)%nat
      with (S (_recommendation_counter self + k + 1)) by lia.
    reflexivity.
Qed.

Lemma head_rotate {A} (i : nat) (l : list A) (x : A) :
  l !! i = Some x -> head (take 10 (rotate i l)) = Some x.
Proof.
  intros H. unfold rotate.
  pose proof (lookup_lt_Some _ _ _ H) as Hlt.
  rewrite (drop_S l x i H). reflexivity.
Qed.

(** On a populated cache of [n] records the served window depends on the
    counter modulo [n] only: the call made [n] calls later returns the
    same list, and within [n] successive calls every record of the pool
    is at the head of the returned list once. *)
Theorem rotation_cycles_through_the_pool
    (outcome : result stats) (self : module_state) (g : rng) :
  _performer_recommendation_cache self <> [] ->
  let pool := map snd (_performer_recommendation_cache self) in
  let n := length pool in
  (forall k, fst (calls (k + n) outcome (self, g)) = fst (calls k outcome (self, g))) /\
  (forall r, r ∈ pool ->
     exists k, (k < n)%nat /\ head (fst (calls k outcome (self, g))) = Some r).
Proof.
  intros Hne pool n.
  assert (Hn : n = length (_performer_recommendation_cache self))
    by (subst n pool; apply length_map).
  assert (Hpos : (0 < n)%nat).
  { rewrite Hn. destruct (_performer_recommendation_cache self);
      [contradiction | simpl; lia]. }
  split.
  - intros k. rewrite !successive_calls_hot by exact Hne. simpl. rewrite <- Hn.
    replace (_recommendation_counter self + (k + n) + 1)%nat
      with (_recommendation_counter self + k + 1 + 1 * n)%nat by lia.
    rewrite Nat.Div0.mod_add. reflexivity.
  - intros r Hr. apply list_elem_of_lookup in Hr as [i Hi].
    pose proof (lookup_lt_Some _ _ _ Hi) as Hlt. fold n in Hlt.
    set (m := ((_recommendation_counter self + 1) mod n)%nat).
    assert (Hm : (m < n)%nat) by (apply Nat.mod_upper_bound; lia).
    exists ((i + n - m) mod n)%nat. split; [apply Nat.mod_upper_bound; lia|].
    rewrite successive_calls_hot by exact Hne. simpl. rewrite <- Hn.
    apply head_rotate.
    replace (_recommendation_counter self + (i + n - m) mod n + 1)%nat
      with ((_recommendation_counter self + 1) + (i + n - m) mod n)%nat by lia.
    rewrite Nat.Div0.add_mod_idemp_r.
    rewrite <- Nat.Div0.add_mod_idemp_l. fold m.
    replace (m + (i + n - m))%nat with (i + 1 * n)%nat by lia.
    rewrite Nat.Div0.mod_add. rewrite Nat.mod_small by exact Hlt. exact Hi.
Qed.

End PerformerCalls.

(** ** The records the strategies build *)

Lemma insert_desc_descending {A} (key : A -> Q) (x : A) (l : list A) :
  StronglySorted (descending key) l ->
  StronglySorted (descending key) (insert_desc Qltb key x l).
Proof.
  induction 1 as [|y l Hl IH Hy]; simpl.
  - constructor; constructor.
  - destruct (Qltb (key x) (key y)) eqn:E.
    + constructor; [exact IH|].
      rewrite insert_desc_perm. constructor; [|exact Hy].
      apply Qltb_lt in E. unfold descending. apply Qlt_le_weak. exact E.
    + apply Qltb_ge in E. constructor; [constructor; assumption|].
      constructor; [exact E|].
      eapply Forall_impl; [exact Hy|]. intros z Hz. unfold descending in *.
      eapply Qle_trans; eassumption.
Qed.

Lemma sorted_desc_descending {A} (key : A -> Q) (l : list A) :
  StronglySorted (descending key) (sorted_desc Qltb key l).
Proof.
  induction l as [|x l IH]; simpl; [constructor|].
  apply insert_desc_descending. exact IH.
Qed.

Lemma StronglySorted_take {A} (R : relation A) (n : nat) (l : list A) :
  StronglySorted R l -> StronglySorted R (take n l).
Proof.
  intros H. revert n. induction H as [|x l Hl IH Hx]; intros [|n]; simpl;
    try constructor.
  - apply IH.
  - apply Forall_take. exact Hx.
Qed.

Section Strategies.

Variable py_str : pyval -> string.
Variable py_format_2f : Q -> string.
Variable rng : Type.
Variable shuffle : forall A : Type, list A -> rng -> list A * rng.

Local Abbreviation scan_targets := (similar_to py_str).
Local Abbreviation seed_step := (o_counter_seed py_str rng).
Local Abbreviation candidate := (o_counter_candidate py_str).

Lemma o_counter_entry_similarity (base target : pydict) (sim : Q) :
  entry_similarity (o_counter_entry py_str base target sim) = sim.
Proof. reflexivity. Qed.

Lemma candidate_weaken (base p : pydict) (targets : list pydict) (e : pydict) :
  candidate base targets e -> candidate base (p :: targets) e.
Proof.
  intros (t & sim & Hin & H). exists t, sim.
  split; [apply list_elem_of_further; exact Hin | exact H].
Qed.

Lemma similar_to_candidates (base : pydict) (targets : list pydict) :
  forall found, scan_targets base targets = Ok found ->
                Forall (candidate base targets) found.
Proof.
  induction targets as [|t targets IH]; simpl; intros found H.
  - inversion H. constructor.
  - destruct (py_eq (get t "id") (get base "id")) eqn:Eid.
    { eapply Forall_impl; [apply IH; exact H|]. intros. apply candidate_weaken.
      assumption. }
    unfold py_ne in H.
    destruct (py_eq (getd t "o_counter" (VNum 0)) (VNum 0)) eqn:Eo; simpl in H.
    2:{ eapply Forall_impl; [apply IH; exact H|]. intros. apply candidate_weaken.
        assumption. }
    destruct (_calculate_similarity base t) as [sim|] eqn:Es; simpl in H;
      [|discriminate].
    destruct (scan_targets base targets) as [rest|] eqn:Er; simpl in H;
      [|discriminate].
    specialize (IH rest eq_refl).
    assert (Hrest : Forall (candidate base (t :: targets)) rest).
    { eapply Forall_impl; [exact IH|]. intros. apply candidate_weaken. assumption. }
    inversion H; subst; clear H.
    destruct (Qltb (1 # 2) sim) eqn:El; [|exact Hrest].
    apply Forall_cons_2; [|exact Hrest].
    exists t, sim. split; [apply list_elem_of_here|].
    repeat split; try assumption. apply Qltb_lt. exact El.
Qed.

(** The o_counter strategy on one seed, when it returns: it appends
    nothing and stores nothing, or it appends one record, stored under
    its id, whose candidates are at most five, come from performers that
    are unseen, differ from the seed by id and score above 0.5, and are
    listed from the highest score to the lowest. *)
Theorem o_counter_record_lists_unseen_matches
    (base : pydict) (recs recs' : list recommendation)
    (self : module_state) (g : rng) (h' : heap rng) :
  seed_step base recs (self, g) = (Ok recs', h') ->
  (recs' = recs /\ h' = (self, g)) \/
  exists r,
    recs' = recs ++ [r] /\
    rec_id r = "o_counter_" +:+ py_str (getd base "id" (VStr "")) /\
    recommendation_type r = "o_counter_similarity" /\
    dict_get (rec_id r) (_performer_recommendation_cache (fst h')) = Some r /\
    similar_performers r <> [] /\
    (length (similar_performers r) <= 5)%nat /\
    Forall (candidate base (performers_data self)) (similar_performers r) /\
    StronglySorted (descending entry_similarity) (similar_performers r).
Proof.
  unfold o_counter_seed, bind, read_self, lift. simpl.
  destruct (scan_targets base (performers_data self)) as [found|] eqn:Ef;
    [|discriminate].
  pose proof (similar_to_candidates _ _ _ Ef) as Hc.
  pose proof (sorted_desc_perm Qltb entry_similarity found) as Hp.
  pose proof (sorted_desc_descending entry_similarity found) as Hs.
  destruct (sorted_desc Qltb entry_similarity found) as [|e es] eqn:Es.
  - unfold ret. intros H. inversion H. left. split; reflexivity.
  - unfold ret, cache_store. simpl. intros H. inversion H; subst; clear H.
    right. eexists. split; [reflexivity|]. split; [reflexivity|].
    split; [reflexivity|]. split; [simpl; apply dict_get_set_eq|].
    split; [discriminate|]. split; [simpl; rewrite length_take; lia|].
    split.
    + change (Forall (candidate base (performers_data self)) (take 5 (e :: es))).
      apply Forall_take. rewrite Hp. exact Hc.
    + change (StronglySorted (descending entry_similarity) (take 5 (e :: es))).
      apply StronglySorted_take. exact Hs.
Qed.

(** *** The volume strategy on one seed *)

Lemma volume_match_weaken (vp p : pydict) (tv : Q) (ps : list pydict) (e : pydict) :
  volume_match py_str vp tv ps e -> volume_match py_str vp tv (p :: ps) e.
Proof.
  intros (q & pv & Hin & H). exists q, pv.
  split; [apply list_elem_of_further; exact Hin | exact H].
Qed.

Lemma volume_similar_to_matches (vp : pydict) (tv : Q) (ps : list pydict) :
  forall found, volume_similar_to py_str vp tv ps = Ok found ->
                Forall (volume_match py_str vp tv ps) found.
Proof.
  induction ps as [|p ps IH]; simpl; intros found H.
  - inversion H. constructor.
  - assert (Hw : forall l, Forall (volume_match py_str vp tv ps) l ->
                           Forall (volume_match py_str vp tv (p :: ps)) l).
    { intros l Hl. eapply Forall_impl; [exact Hl|]. intros.
      apply volume_match_weaken. assumption. }
    destruct (py_gt (getd p "o_counter" (VNum 0)) 0) as [[]|] eqn:Eo;
      unfold rbind in H; try discriminate.
    { apply Hw, IH, H. }
    unfold py_gt, rbind in H.
    destruct (as_num (getd p "volume_cc" (VNum 0))) as [pv|] eqn:Ev;
      [|discriminate].
    destruct (Qltb 0 pv) eqn:Lv; [|apply Hw, IH, H].
    unfold py_div in H.
    destruct (Qeq_bool (Qmax tv pv) 0); [discriminate|].
    destruct (volume_similar_to py_str vp tv ps) as [rest|] eqn:Er; [|discriminate].
    specialize (IH rest eq_refl).
    change (Ok (if Qltb (7 # 10) (volume_similarity tv pv)
                then volume_entry py_str vp p (volume_similarity tv pv) :: rest
                else rest) = Ok found) in H.
    destruct (Qltb (7 # 10) (volume_similarity tv pv)) eqn:Ls;
      inversion H; subst; clear H; [|apply Hw, IH].
    apply Forall_cons_2; [|apply Hw, IH].
    exists p, pv. split; [apply list_elem_of_here|].
    split; [exact Eo|]. split; [exact Ev|].
    split; [apply Qltb_lt; exact Lv|]. split; [apply Qltb_lt; exact Ls|].
    split; reflexivity.
Qed.

(** The volume strategy on one seed, when it returns: it appends nothing
    and stores nothing, or the seed has an o_counter above 0 and a volume
    above 0 and one record is appended, stored under its id, whose
    candidates are at most five, come from performers whose o_counter is
    not above 0 (zero or negative), have a volume above 0 and a volume
    similarity above 0.7, and are listed from the nearest volume on. *)
Theorem volume_record_lists_close_volumes
    (vp : pydict) (recs recs' : list recommendation)
    (self : module_state) (g : rng) (h' : heap rng) :
  volume_seed py_str rng vp recs (self, g) = (Ok recs', h') ->
  (recs' = recs /\ h' = (self, g)) \/
  exists r tv,
    py_gt (getd vp "o_counter" (VNum 0)) 0 = Ok true /\
    as_num (getd vp "volume_cc" (VNum 0)) = Ok tv /\ 0 < tv /\
    recs' = recs ++ [r] /\
    rec_id r = volume_key py_str vp /\
    recommendation_type r = "volume_similarity" /\
    dict_get (rec_id r) (_performer_recommendation_cache (fst h')) = Some r /\
    similar_performers r <> [] /\
    (length (similar_performers r) <= 5)%nat /\
    Forall (volume_match py_str vp tv (performers_data self)) (similar_performers r) /\
    StronglySorted (descending entry_similarity) (similar_performers r).
Proof.
  unfold volume_seed, bind, read_self, lift. simpl.
  destruct (py_gt (getd vp "o_counter" (VNum 0)) 0) as [[]|] eqn:Eo; try discriminate.
  2:{ unfold ret. intros H. inversion H. left. split; reflexivity. }
  unfold py_gt at 1. unfold rbind at 1.
  destruct (as_num (getd vp "volume_cc" (VNum 0))) as [tv|] eqn:Ev; [|discriminate].
  destruct (Qltb 0 tv) eqn:Lv.
  2:{ unfold ret. intros H. inversion H. left. split; reflexivity. }
  cbv beta iota delta [rbind]. cbn [fst snd].
  destruct (volume_similar_to py_str vp tv (performers_data self)) as [found|] eqn:Ef;
    [|intros H; discriminate H].
  pose proof (volume_similar_to_matches _ _ _ _ Ef) as Hc.
  pose proof (sorted_desc_perm Qltb entry_similarity found) as Hp.
  pose proof (sorted_desc_descending entry_similarity found) as Hs.
  destruct (sorted_desc Qltb entry_similarity found) as [|e es] eqn:Es.
  - unfold ret. intros H. inversion H. left. split; reflexivity.
  - unfold ret, cache_store. simpl. intros H. inversion H; subst; clear H.
    right. eexists _, tv. split; [reflexivity|]. split; [reflexivity|].
    split; [apply Qltb_lt; exact Lv|].
    split; [reflexivity|]. split; [reflexivity|]. split; [reflexivity|].
    split; [simpl; apply dict_get_set_eq|].
    split; [discriminate|]. split; [simpl; rewrite length_take; lia|].
    split.
    + change (Forall (volume_match py_str vp tv (performers_data self))
                (take 5 (e :: es))).
      apply Forall_take. rewrite Hp. exact Hc.
    + change (StronglySorted (descending entry_similarity) (take 5 (e :: es))).
      apply StronglySorted_take. exact Hs.
Qed.

(** *** Every record is a strategy record *)

Lemma grows_ret (P : recommendation -> Prop) (n : nat) (recs : list recommendation) :
  grows_by P n (ret rng recs) recs.
Proof.
  intros h recs' h' H. inversion H. exists []. rewrite app_nil_r.
  split; [reflexivity|]. split; [constructor | simpl; lia].
Qed.

Lemma grows_store (r : recommendation) (recs : list recommendation) :
  strategy_record r ->
  grows_by strategy_record 1
    (bind rng (cache_store rng (rec_id r) r) (fun _ => ret rng (recs ++ [r]))) recs.
Proof.
  intros Hr h recs' h' H. inversion H. exists [r].
  split; [reflexivity|]. split; [|simpl; lia].
  apply Forall_cons_2; [exact Hr | apply Forall_nil_2].
Qed.

Lemma grows_for_each {A} (P : recommendation -> Prop) (l : list A)
    (body : A -> list recommendation -> M rng (list recommendation)) :
  (forall x recs, grows_by P 1 (body x recs) recs) ->
  forall recs, grows_by P (length l) (for_each rng l body recs) recs.
Proof.
  intros Hb. induction l as [|x l IH]; intros recs; simpl.
  - apply grows_ret.
  - intros h recs' h' H. apply bind_Ok in H as (r1 & h1 & H1 & H2).
    apply Hb in H1 as (e1 & -> & P1 & L1).
    apply IH in H2 as (e2 & -> & P2 & L2).
    exists (e1 ++ e2). rewrite app_assoc. split; [reflexivity|].
    split; [apply Forall_app; split; assumption|].
    rewrite length_app. lia.
Qed.

Ltac strategy_record_built :=
  split; [discriminate | split; [simpl; rewrite ?length_take; lia | set_solver]].

Lemma o_counter_seed_grows (base : pydict) (recs : list recommendation) :
  grows_by strategy_record 1 (o_counter_seed py_str rng base recs) recs.
Proof.
  intros h recs' h'. unfold o_counter_seed, bind, read_self, lift. simpl.
  destruct (similar_to py_str base _) as [found|]; [|discriminate].
  destruct (sorted_desc Qltb entry_similarity found) as [|e es] eqn:Es.
  - apply grows_ret.
  - apply (grows_store {| rec_id := _; rec_performer := _; similar_performers := _;
                          recommendation_type := _ |}).
    strategy_record_built.
Qed.

Lemma volume_seed_grows (vp : pydict) (recs : list recommendation) :
  grows_by strategy_record 1 (volume_seed py_str rng vp recs) recs.
Proof.
  intros h recs' h'. unfold volume_seed, bind, read_self, lift. simpl.
  destruct (py_gt (getd vp "o_counter" (VNum 0)) 0) as [[]|]; try discriminate;
    [|apply grows_ret].
  destruct (py_gt (getd vp "volume_cc" (VNum 0)) 0) as [[]|]; try discriminate;
    [|apply grows_ret].
  destruct (rbind _ _) as [found|]; [|discriminate].
  destruct (sorted_desc Qltb entry_similarity found) as [|e es] eqn:Es.
  - apply grows_ret.
  - apply (grows_store {| rec_id := _; rec_performer := _; similar_performers := _;
                          recommendation_type := _ |}).
    strategy_record_built.
Qed.

Lemma cup_seed_grows (cup_stat : pydict) (recs : list recommendation) :
  grows_by strategy_record 1
    (cup_seed py_str py_format_2f rng shuffle cup_stat recs) recs.
Proof.
  intros h recs' h'. unfold cup_seed, bind, read_self, lift, random_shuffle. simpl.
  destruct (truthy (get cup_stat "cup_letter")); [|apply grows_ret].
  destruct (py_gt (getd cup_stat "avg_o_count" (VNum 0)) 0) as [[]|];
    try discriminate; [|apply grows_ret].
  destruct (as_num (getd cup_stat "avg_o_count" (VNum 0))) as [avg|];
    [|discriminate].
  destruct (shuffle _ _ _) as [[|e es] g'].
  - apply grows_ret.
  - apply (grows_store {| rec_id := _; rec_performer := _; similar_performers := _;
                          recommendation_type := _ |}).
    strategy_record_built.
Qed.

(** The cup-letter strategy considers at most three cup letters: when it
    returns, it has appended at most three records, whatever the length
    of the table of the collaborator. *)
Theorem cup_strategy_appends_at_most_three
    (cup_letter_stats : list pydict) (recs recs' : list recommendation)
    (h h' : heap rng) :
  cup_strategy py_str py_format_2f rng shuffle cup_letter_stats recs h = (Ok recs', h') ->
  exists ext,
    recs' = recs ++ ext /\ (length ext <= 3)%nat /\
    Forall (fun r => recommendation_type r = "cup_size_popularity"
                     /\ similar_performers r <> []) ext.
Proof.
  unfold cup_strategy. destruct cup_letter_stats as [|c cs].
  { intros H. inversion H. exists []. rewrite app_nil_r.
    split; [reflexivity|]. split; [simpl; lia | constructor]. }
  intros H. apply bind_Ok in H as (sorted & h1 & _ & H).
  assert (Hg : forall recs0,
             grows_by (fun r => recommendation_type r = "cup_size_popularity"
                                /\ similar_performers r <> [])
                      (length (take 3 sorted))
                      (for_each rng (take 3 sorted)
                         (cup_seed py_str py_format_2f rng shuffle) recs0) recs0).
  { apply grows_for_each. clear. intros cup_stat recs h recs' h'.
    unfold cup_seed, bind, read_self, lift, random_shuffle. simpl.
    destruct (truthy (get cup_stat "cup_letter")); [|apply grows_ret].
    destruct (py_gt (getd cup_stat "avg_o_count" (VNum 0)) 0) as [[]|];
      try discriminate; [|apply grows_ret].
    destruct (as_num (getd cup_stat "avg_o_count" (VNum 0))) as [avg|];
      [|discriminate].
    destruct (shuffle _ _ _) as [[|e es] g'].
    - apply grows_ret.
    - intros E. inversion E. eexists [_]. split; [reflexivity|].
      split; [|simpl; lia].
      apply Forall_cons_2; [split; [reflexivity | discriminate] | apply Forall_nil_2]. }
  apply Hg in H as (ext & -> & HP & HL).
  exists ext. split; [reflexivity|]. split; [|exact HP].
  rewrite length_take in HL. lia.
Qed.

Hypothesis shuffle_perm :
  forall (A : Type) (l : list A) (g : rng), Permutation (fst (shuffle A l g)) l.


Lemma scan_returns_strategy_records (outcome : result stats) (h h' : heap rng)
    (l : list recommendation) :
  performer_scan py_str py_format_2f rng shuffle outcome h = (Ok l, h') ->
  Forall strategy_record l.
Proof.
  unfold performer_scan. intros H.
  apply bind_Ok in H as (st & h0 & _ & H).
  apply bind_Ok in H as (r1 & h1 & H1 & H).
  apply bind_Ok in H as (r2 & h2 & H2 & H).
  apply bind_Ok in H as (r3 & h3 & H3 & H).
  apply bind_Ok in H as (r4 & h4 & H4 & H).
  apply (grows_for_each strategy_record _ _ o_counter_seed_grows) in H1
    as (e1 & -> & P1 & _). simpl in P1.
  assert (P2 : Forall strategy_record r2).
  { unfold volume_strategy in H2.
    destruct (top_volume_performers st) as [|v vs];
      [inversion H2; subst; exact P1|].
    destruct (df_empty _); [inversion H2; subst; exact P1|].
    apply (grows_for_each strategy_record _ _ volume_seed_grows) in H2
      as (e2 & -> & P2 & _).
    apply Forall_app. split; assumption. }
  assert (P3 : Forall strategy_record r3).
  { unfold cup_strategy in H3.
    destruct (cup_letter_o_stats st) as [|c cs];
      [inversion H3; subst; exact P2|].
    apply bind_Ok in H3 as (sorted & h5 & _ & H3).
    apply (grows_for_each strategy_record _ _ cup_seed_grows) in H3
      as (e3 & -> & P3 & _).
    apply Forall_app. split; assumption. }
  unfold random_shuffle in H4.
  pose proof (shuffle_perm _ r3 (snd h3)) as Hp.
  destruct (shuffle recommendation r3 (snd h3)) as [r3' g']. simpl in Hp.
  inversion H4; subst. inversion H; subst.
  apply Forall_take. rewrite Hp. exact P3.
Qed.

Lemma strategy_cache_store (r : recommendation) (self : module_state) :
  strategy_record r ->
  Forall (fun kv => strategy_record (snd kv)) (_performer_recommendation_cache self) ->
  Forall (fun kv => strategy_record (snd kv))
    (_performer_recommendation_cache
       (with_performer_cache
          (dict_set (rec_id r) r (_performer_recommendation_cache self)) self)).
Proof. intros Hr Hc. simpl. apply dict_set_values; assumption. Qed.

Lemma reachable_strategy_cache (h : heap rng) :
  reachable py_str py_format_2f rng shuffle h ->
  Forall (fun kv => strategy_record (snd kv)) (_performer_recommendation_cache (fst h)).
Proof.
  induction 1 as [loaded g | outcome h _ IH | outcome h _ IH | loaded h _ IH]; simpl.
  - constructor.
  - unfold recommend_performers. cbv zeta. simpl.
    destruct (_performer_recommendation_cache (fst h)) as [|kv cache] eqn:Ec.
    + destruct (performers_data (fst h)) as [|p ps] eqn:Ep.
      * simpl. rewrite Ec. constructor.
      * pose proof (respects_performer_scan py_str py_format_2f rng shuffle
                      (fun s s' =>
                         Forall (fun kv => strategy_record (snd kv))
                                (_performer_recommendation_cache s) ->
                         Forall (fun kv => strategy_record (snd kv))
                                (_performer_recommendation_cache s'))
                      (fun s H => H) (fun s1 s2 s3 H1 H2 H => H2 (H1 H))
                      strategy_cache_store outcome
                      (with_counter (S (_recommendation_counter (fst h))) (fst h),
                       snd h))
          as Hscan.
        simpl in Hscan. rewrite Ec in Hscan. specialize (Hscan (Forall_nil_2 _)).
        destruct (performer_scan _ _ _ _ outcome _) as [[l|e] h1]; exact Hscan.
    + simpl. rewrite Ec. exact IH.
  - destruct (recommend_scenes_frame outcome (fst h)) as (_ & -> & _). exact IH.
  - constructor.
Qed.

(** Whatever a reachable instance is asked and whatever the collaborator
    answers, every record a call returns has between one and five
    candidates and carries the tag of one of the three strategies. *)
Theorem served_records_are_strategy_records (outcome : result stats) (h : heap rng) :
  reachable py_str py_format_2f rng shuffle h ->
  Forall strategy_record
    (fst (recommend_performers py_str py_format_2f rng shuffle outcome h)).
Proof.
  intros Hr. pose proof (reachable_strategy_cache h Hr) as Hc.
  unfold recommend_performers. cbv zeta. simpl.
  destruct (_performer_recommendation_cache (fst h)) as [|kv cache] eqn:Ec.
  - destruct (performers_data (fst h)) as [|p ps]; [constructor|].
    destruct (performer_scan _ _ _ _ outcome _) as [[l|e] h1] eqn:E; simpl;
      [|constructor].
    eapply scan_returns_strategy_records. exact E.
  - simpl. apply Forall_take.
    rewrite rotate_perm.
    change (Forall strategy_record (map snd (kv :: cache))).
    apply Forall_fmap. exact Hc.
Qed.

End Strategies.

(** ** The scene cache *)

Lemma scan_result_size (outcome : result stats) (scenes : list scene)
    (recs : gmap string (list scene_recommendation)) :
  scene_scan outcome scenes = Ok recs -> Nat.eqb (size recs) 0 = false.
Proof.
  intros H. apply scene_scan_categories in H as (st & pop & mct & _ & _ & Hin & _).
  apply Nat.eqb_neq. intros E. apply map_size_empty_iff in E. subst recs.
  specialize (Hin favorite_performer_scenes (list_elem_of_here _ _)).
  rewrite lookup_empty in Hin. discriminate Hin.
Qed.

(** A call on an empty scene cache stores all or nothing: either it
    returns the empty mapping and the cache stays empty, or it returns a
    mapping with exactly the four category keys and the cache holds that
    mapping. *)
Theorem scene_cache_filled_whole_or_not
    (outcome : result stats) (self : module_state) :
  _scene_recommendation_cache self = ∅ ->
  let out := fst (recommend_scenes outcome self) in
  let cache' := _scene_recommendation_cache (snd (recommend_scenes outcome self)) in
  (out = ∅ /\ cache' = ∅) \/
  (cache' = out /\ forall category, is_Some (out !! category) <-> category ∈ categories).
Proof.
  intros Hc. unfold recommend_scenes. simpl. rewrite Hc, map_size_empty. simpl.
  destruct (scenes_data self) as [|s ss]; [left; split; [reflexivity | exact Hc]|].
  destruct (scene_scan outcome (s :: ss)) as [recs|e] eqn:E; simpl;
    [|left; split; [reflexivity | exact Hc]].
  right. split; [reflexivity|].
  apply scene_scan_categories in E as (st & pop & mct & _ & _ & Hin & Hout).
  intros category. split.
  - intros [l Hl]. destruct (decide (category ∈ categories)) as [H|H]; [exact H|].
    rewrite (Hout category H) in Hl. discriminate Hl.
  - intros H. rewrite (Hin category H). eexists. reflexivity.
Qed.

Lemma rotate_category_perm (c : nat) (l : list scene_recommendation) :
  Permutation (rotate_category c l) l.
Proof.
  unfold rotate_category. destruct l; [reflexivity | apply rotate_perm].
Qed.

Lemma rotate_category_rotated_left (c : nat) (l : list scene_recommendation) :
  rotate_category c l = rotated_left c l.
Proof.
  unfold rotate_category, rotated_left, rotate. destruct l as [|x l]; [|reflexivity].
  rewrite drop_nil, take_nil. reflexivity.
Qed.

(** A call on a populated scene cache: every cached list is served
    rotated by the incremented counter, and nothing but the counter
    changes. *)
Lemma recommend_scenes_hot (outcome : result stats) (self : module_state) :
  _scene_recommendation_cache self <> ∅ ->
  recommend_scenes outcome self =
    (rotate_category (S (_recommendation_counter self))
       <$> _scene_recommendation_cache self,
     with_counter (S (_recommendation_counter self)) self).
Proof.
  intros Hne.
  assert (Hsize : Nat.eqb (size (_scene_recommendation_cache self)) 0 = false).
  { apply Nat.eqb_neq. intros E. apply Hne. apply map_size_empty_iff. exact E. }
  unfold recommend_scenes. simpl. rewrite Hsize. reflexivity.
Qed.

Lemma lookup_rotated (c : nat) (cache : gmap string (list scene_recommendation))
    (category : string) :
  (rotate_category c <$> cache) !! category = rotated_left c <$> cache !! category.
Proof.
  rewrite lookup_fmap. destruct (cache !! category) as [l|]; simpl; [|reflexivity].
  rewrite rotate_category_rotated_left. reflexivity.
Qed.

(** A call on a populated scene cache asks neither the collaborator nor
    the snapshot: it returns the keys of the cache, under each key the
    cached list rotated to the left by the incremented counter modulo
    the length of that list, which is a permutation of the cached list;
    it leaves the cache as it is and moves the counter by one. *)
Theorem scene_cache_served_rotated
    (outcome : result stats) (self : module_state) :
  _scene_recommendation_cache self <> ∅ ->
  let out := fst (recommend_scenes outcome self) in
  let self' := snd (recommend_scenes outcome self) in
  (forall category,
     out !! category =
       rotated_left (S (_recommendation_counter self))
         <$> _scene_recommendation_cache self !! category) /\
  _scene_recommendation_cache self' = _scene_recommendation_cache self /\
  _recommendation_counter self' = S (_recommendation_counter self) /\
  (forall category,
     match _scene_recommendation_cache self !! category, out !! category with
     | Some l, Some l' => Permutation l' l
     | None, None => True
     | _, _ => False
     end).
Proof.
  intros Hne. rewrite (recommend_scenes_hot outcome self Hne). cbn [fst snd].
  split; [intros category; apply lookup_rotated|].
  split; [reflexivity|]. split; [reflexivity|].
  intros category. rewrite lookup_fmap.
  destruct (_scene_recommendation_cache self !! category); simpl;
    [apply rotate_category_perm | exact I].
Qed.

(** When a call on an empty scene cache has returned a mapping that is
    not empty, the next call returns, whatever the collaborator answers
    then, the same keys and under each key the list of the first result
    rotated to the left by the counter, which is then two more than
    before the first call, modulo the length of that list. *)
Theorem scene_result_is_served_again
    (outcome outcome' : result stats) (self : module_state) :
  _scene_recommendation_cache self = ∅ ->
  fst (recommend_scenes outcome self) <> ∅ ->
  forall category,
    fst (recommend_scenes outcome' (snd (recommend_scenes outcome self))) !! category =
      rotated_left (_recommendation_counter self + 2)
        <$> fst (recommend_scenes outcome self) !! category.
Proof.
  intros Hc Hne category.
  assert (Hstored : _scene_recommendation_cache (snd (recommend_scenes outcome self))
                    = fst (recommend_scenes outcome self) /\
                    _recommendation_counter (snd (recommend_scenes outcome self))
                    = S (_recommendation_counter self)).
  { revert Hne. unfold recommend_scenes. simpl. rewrite Hc, map_size_empty. simpl.
    destruct (scenes_data self) as [|s ss]; [intros H; contradiction|].
    destruct (scene_scan outcome (s :: ss)) as [recs|e]; simpl;
      [|intros H; contradiction].
    intros _. split; reflexivity. }
  destruct Hstored as [Hcache Hcounter].
  rewrite recommend_scenes_hot by (rewrite Hcache; exact Hne). cbn [fst].
  rewrite Hcache, Hcounter, lookup_rotated.
  replace (S (S (_recommendation_counter self)))
    with (_recommendation_counter self + 2)%nat by lia.
  reflexivity.
Qed.

(** *** What the lists of a fresh result look like *)

Lemma insert_desc_by_popularity (x : scene_recommendation)
    (l : list scene_recommendation) :
  StronglySorted by_popularity l ->
  StronglySorted by_popularity (insert_desc Nat.ltb similarity x l).
Proof.
  induction 1 as [|y l Hl IH Hy]; simpl.
  - constructor; constructor.
  - destruct (Nat.ltb (similarity x) (similarity y)) eqn:E.
    + constructor; [exact IH|].
      rewrite insert_desc_perm. constructor; [|exact Hy].
      apply Nat.ltb_lt in E. unfold by_popularity. lia.
    + apply Nat.ltb_ge in E. constructor; [constructor; assumption|].
      constructor; [exact E|].
      eapply Forall_impl; [exact Hy|]. intros z Hz. unfold by_popularity in *. lia.
Qed.

Lemma sorted_desc_by_popularity (l : list scene_recommendation) :
  StronglySorted by_popularity (sorted_desc Nat.ltb similarity l).
Proof.
  induction l as [|x l IH]; simpl; [constructor|].
  apply insert_desc_by_popularity. exact IH.
Qed.

Lemma category_of_similar (top mct : list pyval) (s : scene) :
  category_of top mct s = similar_tag_scenes ->
  3 # 10 < _calculate_tag_similarity (scene_tag_names s) mct.
Proof.
  unfold category_of. repeat case_match; try discriminate.
  intros _. apply Qltb_lt. assumption.
Qed.

Lemma category_of_fallback (top mct : list pyval) (s : scene) :
  category_of top mct s = non_favorite_performer_scenes ->
  _calculate_tag_similarity (scene_tag_names s) mct <= 3 # 10 /\
  existsb (fun p => truthy (getd p "favorite" (VBool false))) (performers s) = false.
Proof.
  unfold category_of. repeat case_match; try discriminate.
  intros _. split; [apply Qltb_ge; assumption | reflexivity].
Qed.

(** The lists a call on an empty scene cache returns are ordered: the
    similar-tag list from the highest tag similarity to the lowest, every
    record of it above 0.3; the other lists from the highest count of
    popular tags to the lowest, every record of the fallback list at or
    below 0.3. *)
Theorem fresh_scene_lists_are_ranked
    (outcome : result stats) (self : module_state)
    (category : string) (l : list scene_recommendation) :
  _scene_recommendation_cache self = ∅ ->
  fst (recommend_scenes outcome self) !! category = Some l ->
  (category = similar_tag_scenes ->
   StronglySorted (descending tag_similarity) l /\
   Forall (fun r => 3 # 10 < tag_similarity r) l) /\
  (category <> similar_tag_scenes -> StronglySorted by_popularity l) /\
  (category = non_favorite_performer_scenes ->
   Forall (fun r => tag_similarity r <= 3 # 10) l).
Proof.
  intros Hc Hl. rewrite recommend_scenes_cold in Hl by exact Hc.
  destruct (scenes_data self) as [|s ss]; [rewrite lookup_empty in Hl; discriminate|].
  destruct (scene_scan outcome (s :: ss)) as [recs|] eqn:E;
    [|rewrite lookup_empty in Hl; discriminate].
  apply scene_scan_categories in E as (st & pop & mct & _ & _ & Hin & Hout).
  destruct (decide (category ∈ categories)) as [Hcat|Hcat];
    [|rewrite (Hout category Hcat) in Hl; discriminate].
  rewrite (Hin category Hcat) in Hl. inversion Hl; subst l; clear Hl.
  set (top := map (fun p => getd p "name" (VStr "")) (top_o_counter_performers st)).
  assert (Hsrc : forall r, r ∈ sort_and_limit category (uncut pop top mct (s :: ss) category) ->
            exists sc, category_of top mct sc = category /\
                       r = scene_record pop mct sc).
  { intros r Hr. apply sort_and_limit_subset in Hr. unfold uncut in Hr.
    apply list_elem_of_fmap in Hr as (sc & -> & Hs).
    apply list_elem_of_In, filter_In in Hs as [_ Ha].
    apply assigned_to_iff in Ha as [_ ->]. exists sc. split; reflexivity. }
  split; [|split].
  - intros ->. split.
    + unfold sort_and_limit. rewrite String.eqb_refl.
      apply StronglySorted_take, sorted_desc_descending.
    + apply Forall_forall. intros r Hr.
      destruct (Hsrc r Hr) as (sc & Hcateg & ->). simpl.
      apply (category_of_similar top). exact Hcateg.
  - intros Hne. unfold sort_and_limit.
    destruct (String.eqb category similar_tag_scenes) eqn:Eq;
      [apply String.eqb_eq in Eq; contradiction|].
    apply StronglySorted_take, sorted_desc_by_popularity.
  - intros ->. apply Forall_forall. intros r Hr.
    destruct (Hsrc r Hr) as (sc & Hcateg & ->). simpl.
    apply (category_of_fallback top). exact Hcateg.
Qed.

(** *** Scenes the tag analyzer cannot compare *)

Lemma weigh_scenes_untyped (scenes : list scene) (min_o_counter : Q) :
  Exists (fun s => is_number (getd (scalars s) "o_counter" (VNum 0)) = false) scenes ->
  forall acc, weigh_scenes scenes min_o_counter acc = Raise TypeError.
Proof.
  induction scenes as [|s scenes IH]; intros Hex acc; [inversion Hex|]. simpl.
  unfold py_ge.
  destruct (getd (scalars s) "o_counter" (VNum 0)) as [|b|q|str] eqn:Eo; simpl;
    try reflexivity.
  - destruct (Qle_bool min_o_counter (if b then 1 else 0)); apply IH;
      inversion Hex as [? ? Hs|]; subst; try assumption;
      rewrite Eo in Hs; discriminate Hs.
  - destruct (Qle_bool min_o_counter q); apply IH;
      inversion Hex as [? ? Hs|]; subst; try assumption;
      rewrite Eo in Hs; discriminate Hs.
Qed.

(** One scene whose o_counter is [None] or a string is enough to turn
    scene recommendations off: the tag analyzer raises [TypeError] on it,
    so every call on an empty scene cache returns the empty mapping and
    leaves the cache empty, whatever the other scenes and the
    collaborator are. *)
Theorem uncomparable_o_counter_disables_scenes
    (outcome : result stats) (self : module_state) :
  _scene_recommendation_cache self = ∅ ->
  Exists (fun s => is_number (getd (scalars s) "o_counter" (VNum 0)) = false)
         (scenes_data self) ->
  (forall min_o_counter top_n,
     _get_popular_tags (scenes_data self) min_o_counter top_n = Raise TypeError) /\
  fst (recommend_scenes outcome self) = ∅ /\
  _scene_recommendation_cache (snd (recommend_scenes outcome self)) = ∅.
Proof.
  intros Hc Hex.
  assert (Hp : forall m n, _get_popular_tags (scenes_data self) m n = Raise TypeError).
  { intros m n. unfold _get_popular_tags.
    rewrite (weigh_scenes_untyped _ m Hex). reflexivity. }
  split; [exact Hp|].
  unfold recommend_scenes. simpl. rewrite Hc, map_size_empty. simpl.
  destruct (scenes_data self) as [|s ss] eqn:Es; [inversion Hex|].
  unfold scene_scan. destruct outcome as [st|e]; simpl.
  - rewrite Hp. simpl. split; [reflexivity | exact Hc].
  - split; [reflexivity | exact Hc].
Qed.

(** *** An instance without data *)

(** After a failed load, and until the data is reloaded, both methods
    return nothing, whatever the collaborator answers, and the instance
    stays without data and with empty caches. *)
Theorem failed_load_gives_empty_recommendations
    (py_str : pyval -> string) (py_format_2f : Q -> string) (rng : Type)
    (shuffle : forall A : Type, list A -> rng -> list A * rng) :
  (forall e, drained (init (Raise e))) /\
  (forall outcome self g,
     drained self ->
     let out := recommend_performers py_str py_format_2f rng shuffle outcome (self, g) in
     fst out = [] /\ drained (fst (snd out)) /\ snd (snd out) = g) /\
  (forall outcome self,
     drained self ->
     fst (recommend_scenes outcome self) = ∅ /\
     drained (snd (recommend_scenes outcome self))).
Proof.
  split; [intros e; repeat split|]. split.
  - intros outcome self g (Hp & Hs & Hpc & Hsc).
    unfold recommend_performers. simpl. rewrite Hpc, Hp. simpl.
    split; [reflexivity|]. split; [repeat split; assumption | reflexivity].
  - intros outcome self (Hp & Hs & Hpc & Hsc).
    unfold recommend_scenes. simpl. rewrite Hsc, map_size_empty, Hs. simpl.
    split; [reflexivity | repeat split; assumption].
Qed.

(** ** Sets of Python values and the Jaccard similarity *)

Lemma py_eq_canon (v w : pyval) : py_eq v w = true <-> canon v = canon w.
Proof.
  assert (Hq : forall a b : Q, Qeq_bool a b = true <-> VNum (Qred a) = VNum (Qred b)).
  { intros a b. rewrite Qeq_bool_iff. split.
    - intros E. f_equal. apply Qred_complete. exact E.
    - intros E. inversion E as [E'].
      rewrite <- (Qred_correct a), <- (Qred_correct b).
      rewrite E'. reflexivity. }
  destruct v as [|b|q|s], w as [|b'|q'|s']; simpl;
    try (split; [discriminate | intros E; discriminate E]);
    try (split; reflexivity).
  - destruct b, b'; simpl; split; try reflexivity; try discriminate;
      intros E; inversion E.
  - rewrite Hq. destruct b; reflexivity.
  - rewrite Hq. destruct b'; reflexivity.
  - apply Hq.
  - rewrite String.eqb_eq. split; intros E; [f_equal; exact E | inversion E; reflexivity].
Qed.

Lemma py_in_canon (x : pyval) (l : list pyval) :
  py_in x l = true <-> canon x ∈ map canon l.
Proof.
  unfold py_in. induction l as [|y l IH]; simpl.
  - split; [discriminate | intros H; inversion H].
  - rewrite orb_true_iff, IH, py_eq_canon, elem_of_cons. reflexivity.
Qed.

Lemma py_set_elem (c : pyval) (l : list pyval) :
  c ∈ map canon (py_set l) <-> c ∈ map canon l.
Proof.
  induction l as [|x l IH]; simpl; [reflexivity|].
  destruct (py_in x l) eqn:E.
  - rewrite IH, elem_of_cons. split; [right; assumption|].
    intros [-> | H]; [apply py_in_canon; exact E | exact H].
  - simpl. rewrite !elem_of_cons, IH. reflexivity.
Qed.

Lemma py_set_NoDup (l : list pyval) : NoDup (map canon (py_set l)).
Proof.
  induction l as [|x l IH]; simpl; [constructor|].
  destruct (py_in x l) eqn:E; [exact IH|].
  simpl. constructor; [|exact IH].
  rewrite py_set_elem. intros H. apply py_in_canon in H. congruence.
Qed.

Lemma py_set_subset (x : pyval) (l : list pyval) : x ∈ py_set l -> x ∈ l.
Proof.
  induction l as [|y l IH]; simpl; [intros H; exact H|].
  destruct (py_in y l).
  - intros H. apply list_elem_of_further, IH, H.
  - intros H. apply elem_of_cons in H as [-> | H];
      [apply list_elem_of_here | apply list_elem_of_further, IH, H].
Qed.

Lemma common_elem (c : pyval) (l1 l2 : list pyval) :
  c ∈ map canon (common l1 l2) <-> c ∈ map canon l1 /\ c ∈ map canon l2.
Proof.
  unfold common. split.
  - intros H. apply list_elem_of_fmap in H as (x & -> & Hx).
    apply list_elem_of_filter in Hx as [Hin Hx]. split.
    + apply py_set_elem. apply list_elem_of_fmap_2. exact Hx.
    + apply py_in_canon. apply Is_true_true. exact Hin.
  - intros [H1 H2]. apply py_set_elem in H1.
    apply list_elem_of_fmap in H1 as (x & -> & Hx).
    apply list_elem_of_fmap_2. apply list_elem_of_filter. split; [|exact Hx].
    apply Is_true_true. apply py_in_canon. exact H2.
Qed.

Lemma common_NoDup (l1 l2 : list pyval) : NoDup (map canon (common l1 l2)).
Proof.
  unfold common. eapply sublist_NoDup; [apply (py_set_NoDup l1)|].
  apply (fmap_sublist canon), sublist_filter.
Qed.

Lemma intersection_size_common (l1 l2 : list pyval) :
  intersection_size l1 l2 = length (map canon (common l1 l2)).
Proof. unfold intersection_size, common. rewrite length_map. reflexivity. Qed.

Lemma union_size_canon (l1 l2 : list pyval) :
  union_size l1 l2 = length (map canon (py_set (l1 ++ l2))).
Proof. unfold union_size. rewrite length_map. reflexivity. Qed.

Lemma same_elements_same_length (l k : list pyval) :
  NoDup l -> NoDup k -> (forall c, c ∈ l <-> c ∈ k) -> length l = length k.
Proof.
  intros Hl Hk H. apply Permutation_length. apply NoDup_Permutation; assumption.
Qed.

Lemma intersection_size_comm (l1 l2 : list pyval) :
  intersection_size l1 l2 = intersection_size l2 l1.
Proof.
  rewrite !intersection_size_common.
  apply same_elements_same_length; try apply common_NoDup.
  intros c. rewrite !common_elem. tauto.
Qed.

Lemma union_size_comm (l1 l2 : list pyval) : union_size l1 l2 = union_size l2 l1.
Proof.
  rewrite !union_size_canon.
  apply same_elements_same_length; try apply py_set_NoDup.
  intros c. rewrite !py_set_elem.
  change (c ∈ canon <$> (l1 ++ l2) <-> c ∈ canon <$> (l2 ++ l1)).
  rewrite !fmap_app, !elem_of_app. tauto.
Qed.

Lemma intersection_le_union (l1 l2 : list pyval) :
  (intersection_size l1 l2 <= union_size l1 l2)%nat.
Proof.
  rewrite intersection_size_common, union_size_canon.
  apply submseteq_length, NoDup_submseteq; [apply common_NoDup|].
  intros c Hc. apply common_elem in Hc as [H1 _]. apply py_set_elem.
  change (c ∈ canon <$> (l1 ++ l2)). rewrite fmap_app, elem_of_app. left. exact H1.
Qed.

Lemma union_size_positive (l1 l2 : list pyval) :
  l1 <> [] -> (0 < union_size l1 l2)%nat.
Proof.
  intros Hne. destruct l1 as [|x l1]; [contradiction|].
  rewrite union_size_canon.
  assert (H : canon x ∈ map canon (py_set ((x :: l1) ++ l2))).
  { apply py_set_elem. simpl. apply list_elem_of_here. }
  destruct (map canon (py_set ((x :: l1) ++ l2))); [inversion H | simpl; lia].
Qed.

Lemma tag_similarity_ratio (l1 l2 : list pyval) :
  l1 <> [] -> l2 <> [] ->
  _calculate_tag_similarity l1 l2 =
    inject_Z (Z.of_nat (intersection_size l1 l2))
    / inject_Z (Z.of_nat (union_size l1 l2)).
Proof.
  intros H1 H2. unfold _calculate_tag_similarity.
  destruct l1 as [|x l1]; [contradiction|]. destruct l2 as [|y l2]; [contradiction|].
  pose proof (union_size_positive (x :: l1) (y :: l2) H1) as Hu.
  destruct (Nat.eqb (union_size (x :: l1) (y :: l2)) 0) eqn:E; [|reflexivity].
  apply Nat.eqb_eq in E. lia.
Qed.

Lemma inject_nat_pos (n : nat) : (0 < n)%nat -> 0 < inject_Z (Z.of_nat n).
Proof.
  intros H. change 0 with (inject_Z 0). rewrite <- Zlt_Qlt. lia.
Qed.

Lemma inject_nat_le (n m : nat) :
  (n <= m)%nat -> inject_Z (Z.of_nat n) <= inject_Z (Z.of_nat m).
Proof. intros H. rewrite <- Zle_Qle. lia. Qed.

(** The tag similarity is a Jaccard index: it lies between 0 and 1 and
    does not depend on the order of its two arguments. *)
Theorem tag_similarity_is_symmetric_and_bounded (tags1 tags2 : list pyval) :
  _calculate_tag_similarity tags1 tags2 = _calculate_tag_similarity tags2 tags1 /\
  0 <= _calculate_tag_similarity tags1 tags2 /\
  _calculate_tag_similarity tags1 tags2 <= 1.
Proof.
  destruct (decide (tags1 = [])) as [-> | H1].
  { destruct tags2; simpl; repeat split; discriminate. }
  destruct (decide (tags2 = [])) as [-> | H2].
  { destruct tags1; simpl; repeat split; discriminate. }
  rewrite (tag_similarity_ratio tags1 tags2 H1 H2),
          (tag_similarity_ratio tags2 tags1 H2 H1).
  rewrite (intersection_size_comm tags2 tags1), (union_size_comm tags2 tags1).
  split; [reflexivity|].
  pose proof (inject_nat_pos _ (union_size_positive tags1 tags2 H1)) as Hu.
  pose proof (inject_nat_le _ _ (intersection_le_union tags1 tags2)) as Hi.
  split.
  - apply Qle_shift_div_l; [exact Hu|]. rewrite Qmult_0_l.
    change 0 with (inject_Z 0). rewrite <- Zle_Qle. lia.
  - apply Qle_shift_div_r; [exact Hu|]. rewrite Qmult_1_l. exact Hi.
Qed.

Lemma common_nil_iff (l1 l2 : list pyval) :
  common l1 l2 = [] <-> forall x, x ∈ l1 -> py_in x l2 = false.
Proof.
  split.
  - intros E x Hx. destruct (py_in x l2) eqn:Hin; [|reflexivity]. exfalso.
    assert (H : canon x ∈ map canon (common l1 l2)).
    { apply common_elem. split; [apply list_elem_of_fmap_2; exact Hx|].
      apply py_in_canon. exact Hin. }
    rewrite E in H. inversion H.
  - intros H. unfold common. destruct (filter _ _) as [|y k] eqn:E; [reflexivity|].
    exfalso. assert (Hy : y ∈ filter (fun x => Is_true (py_in x l2)) (py_set l1))
      by (rewrite E; apply list_elem_of_here).
    apply list_elem_of_filter in Hy as [Hin Hy].
    apply py_set_subset in Hy. rewrite (H y Hy) in Hin. exact Hin.
Qed.

(** The tag similarity is 0 exactly when no tag of the first list occurs
    in the second, an empty list included; it is 1 exactly when the first
    list is not empty and the two lists hold the same tags. *)
Theorem tag_similarity_extremes (tags1 tags2 : list pyval) :
  (_calculate_tag_similarity tags1 tags2 == 0 <->
   forall x, x ∈ tags1 -> py_in x tags2 = false) /\
  (_calculate_tag_similarity tags1 tags2 == 1 <->
   tags1 <> [] /\ forall x, py_in x tags1 = py_in x tags2).
Proof.
  destruct (decide (tags1 = [])) as [-> | H1].
  { split.
    - split; [intros _ x Hx; inversion Hx | intros _; destruct tags2; reflexivity].
    - split; [|intros [H _]; contradiction].
      destruct tags2; simpl; intros E; discriminate E. }
  destruct (decide (tags2 = [])) as [-> | H2].
  { split.
    - split; [intros _ x _; reflexivity | intros _; destruct tags1; reflexivity].
    - split.
      + destruct tags1; simpl; intros E; discriminate E.
      + intros [_ H]. destruct tags1 as [|x l]; [contradiction|].
        specialize (H x). simpl in H. unfold py_in in H. simpl in H.
        rewrite py_eq_refl in H. discriminate H. }
  rewrite (tag_similarity_ratio tags1 tags2 H1 H2).
  pose proof (inject_nat_pos _ (union_size_positive tags1 tags2 H1)) as Hu.
  assert (Hu' : ~ inject_Z (Z.of_nat (union_size tags1 tags2)) == 0).
  { intros E. rewrite E in Hu. apply (Qlt_irrefl 0). exact Hu. }
  split.
  - rewrite <- common_nil_iff. split.
    + intros E.
      assert (Ei : inject_Z (Z.of_nat (intersection_size tags1 tags2)) == 0).
      { rewrite <- (Qmult_div_r _ _ Hu'), E. ring. }
      change 0 with (inject_Z 0) in Ei. apply (proj1 (inject_Z_injective _ _)) in Ei.
      rewrite intersection_size_common, length_map in Ei.
      destruct (common tags1 tags2); [reflexivity | simpl in Ei; discriminate Ei].
    + intros E. rewrite intersection_size_common, E. simpl.
      unfold Qdiv. ring.
  - split.
    + intros E.
      assert (Ei : inject_Z (Z.of_nat (intersection_size tags1 tags2))
                   == inject_Z (Z.of_nat (union_size tags1 tags2))).
      { rewrite <- (Qmult_div_r _ _ Hu'), E. ring. }
      apply (proj1 (inject_Z_injective _ _)) in Ei. apply Nat2Z.inj in Ei.
      split; [exact H1|].
      assert (Hperm : Permutation (map canon (common tags1 tags2))
                        (map canon (py_set (tags1 ++ tags2)))).
      { apply submseteq_length_Permutation.
        - apply NoDup_submseteq; [apply common_NoDup|].
          intros c Hc. apply common_elem in Hc as [Hc _]. apply py_set_elem.
          change (c ∈ canon <$> (tags1 ++ tags2)).
          rewrite fmap_app, elem_of_app. left. exact Hc.
        - rewrite <- intersection_size_common, <- union_size_canon. lia. }
      assert (Hall : forall c, c ∈ map canon tags1 \/ c ∈ map canon tags2 ->
                               c ∈ map canon tags1 /\ c ∈ map canon tags2).
      { intros c Hc. apply common_elem. rewrite Hperm. apply py_set_elem.
        change (c ∈ canon <$> (tags1 ++ tags2)).
        rewrite fmap_app, elem_of_app. exact Hc. }
      intros x. destruct (py_in x tags1) eqn:E1, (py_in x tags2) eqn:E2;
        try reflexivity; exfalso.
      * apply py_in_canon in E1. destruct (Hall _ (or_introl E1)) as [_ H].
        apply py_in_canon in H. congruence.
      * apply py_in_canon in E2. destruct (Hall _ (or_intror E2)) as [H _].
        apply py_in_canon in H. congruence.
    + intros [_ Hsame].
      assert (Ei : intersection_size tags1 tags2 = union_size tags1 tags2).
      { rewrite intersection_size_common, union_size_canon.
        apply same_elements_same_length; [apply common_NoDup | apply py_set_NoDup|].
        intros c. rewrite common_elem, py_set_elem.
        change (c ∈ map canon tags1 /\ c ∈ map canon tags2
                <-> c ∈ canon <$> (tags1 ++ tags2)).
        rewrite fmap_app, elem_of_app.
        assert (Hc : c ∈ map canon tags1 <-> c ∈ map canon tags2).
        { split; intros H; apply list_elem_of_fmap in H as (x & -> & Hx).
          - apply py_in_canon. rewrite <- Hsame. apply py_in_canon.
            apply list_elem_of_fmap_2. exact Hx.
          - apply py_in_canon. rewrite Hsame. apply py_in_canon.
            apply list_elem_of_fmap_2. exact Hx. }
        change (canon <$> tags1) with (map canon tags1).
        change (canon <$> tags2) with (map canon tags2).
        tauto. }
      rewrite Ei. field. exact Hu'.
Qed.

(** ** The names the tag analyzer returns *)

Lemma distinct_keys_NoDup (ks : list pyval) :
  distinct_keys ks -> NoDup (map canon ks).
Proof.
  induction ks as [|k ks IH]; simpl; [constructor|].
  intros [Hf Hd]. constructor; [|apply IH; exact Hd].
  intros Hin. apply list_elem_of_fmap in Hin as (k' & E & Hk').
  rewrite Forall_forall in Hf. specialize (Hf k' Hk').
  symmetry in E. apply py_eq_canon in E. rewrite py_eq_sym in E. congruence.
Qed.

Lemma NoDup_canon_lookup (l : list pyval) (i j : nat) (a b : pyval) :
  NoDup (map canon l) ->
  l !! i = Some a -> l !! j = Some b -> py_eq a b = true -> i = j.
Proof.
  intros Hn Hi Hj E. apply py_eq_canon in E.
  apply (NoDup_lookup (map canon l) i j (canon a) Hn).
  - change (map canon l) with (canon <$> l). rewrite list_lookup_fmap, Hi. reflexivity.
  - change (map canon l) with (canon <$> l). rewrite list_lookup_fmap, Hj, E. reflexivity.
Qed.

Lemma weigh_scenes_good (scenes : list scene) (min_o_counter : Q) :
  forall acc c, weigh_scenes scenes min_o_counter acc = Ok c ->
                good_keys acc -> good_keys c.
Proof.
  induction scenes as [|s scenes IH]; intros acc c; simpl.
  - intros H. inversion H. auto.
  - destruct (py_ge _ _) as [[]|]; simpl; try discriminate.
    + destruct (as_num _) as [w|]; simpl; [|discriminate].
      intros H Hacc. apply (IH _ _ H).
      apply (count_tags_spec (tags s) w acc Hacc).
    + apply IH.
Qed.

(** The popular tags, whenever the analyzer returns them: at most
    [top_n] names, none of them empty, no name twice. *)
Theorem popular_tags_are_distinct_names
    (scenes : list scene) (min_o_counter : Q) (top_n : nat) (names : list pyval) :
  _get_popular_tags scenes min_o_counter top_n = Ok names ->
  (length names <= top_n)%nat /\
  Forall (fun name => truthy name = true) names /\
  (forall i j a b,
     names !! i = Some a -> names !! j = Some b -> py_eq a b = true -> i = j).
Proof.
  unfold _get_popular_tags, most_common.
  destruct (weigh_scenes scenes min_o_counter []) as [c|] eqn:E; simpl; [|discriminate].
  intros H. inversion H; subst names; clear H.
  destruct (weigh_scenes_good _ _ _ _ E) as [Hd Ht]; [split; constructor|].
  pose proof (sorted_desc_perm Qltb snd c) as Hp.
  change (map fst (take top_n (sorted_desc Qltb snd c)))
    with (fst <$> take top_n (sorted_desc Qltb snd c)).
  rewrite fmap_take.
  assert (Hperm : Permutation (fst <$> sorted_desc Qltb snd c) (map fst c))
    by (apply Permutation_map; exact Hp).
  split; [rewrite length_take; lia|]. split.
  - apply Forall_take. rewrite Hperm. exact Ht.
  - intros i j a b. apply NoDup_canon_lookup.
    eapply sublist_NoDup; [|apply (fmap_sublist canon), sublist_take].
    assert (Hperm' : Permutation (canon <$> (fst <$> sorted_desc Qltb snd c))
                       (map canon (map fst c)))
      by (apply Permutation_map; exact Hperm).
    rewrite Hperm'. apply distinct_keys_NoDup. exact Hd.
Qed.

Lemma py_in_app (x : pyval) (l k : list pyval) :
  py_in x (l ++ k) = (py_in x l || py_in x k)%bool.
Proof. unfold py_in. apply existsb_app. Qed.

Lemma py_in_py_set (x : pyval) (l : list pyval) : py_in x (py_set l) = py_in x l.
Proof.
  destruct (py_in x l) eqn:E.
  - apply py_in_canon. apply py_set_elem. apply py_in_canon. exact E.
  - destruct (py_in x (py_set l)) eqn:E'; [|reflexivity].
    apply (proj1 (py_in_canon _ _)) in E'. apply (proj1 (py_set_elem _ _)) in E'.
    apply (proj2 (py_in_canon _ _)) in E'. congruence.
Qed.

(** The tags of a performer: a tag is among them exactly when some scene
    of the snapshot lists the performer and carries the tag, and no tag
    is returned twice. *)
Theorem performer_tags_come_from_their_scenes
    (scenes : list scene) (performer_name : pyval) :
  (forall t,
     py_in t (_get_performer_tags scenes performer_name) = true <->
     exists s, s ∈ scenes /\
               py_in performer_name (scene_performer_names s) = true /\
               py_in t (scene_tag_names s) = true) /\
  (forall i j a b,
     _get_performer_tags scenes performer_name !! i = Some a ->
     _get_performer_tags scenes performer_name !! j = Some b ->
     py_eq a b = true -> i = j).
Proof.
  unfold _get_performer_tags. split.
  - intros t. rewrite py_in_py_set.
    induction scenes as [|s scenes IH]; simpl.
    + split; [discriminate | intros (s & Hs & _); inversion Hs].
    + rewrite py_in_app, orb_true_iff, IH. split.
      * intros [H | (s' & Hs' & H)].
        -- exists s. split; [apply list_elem_of_here|].
           destruct (py_in performer_name (scene_performer_names s));
             [split; [reflexivity | exact H] | discriminate H].
        -- exists s'. split; [apply list_elem_of_further; exact Hs' | exact H].
      * intros (s' & Hs' & Hp & Ht). apply elem_of_cons in Hs' as [-> | Hs'].
        -- left. rewrite Hp. exact Ht.
        -- right. exists s'. repeat split; assumption.
  - intros i j a b. apply NoDup_canon_lookup, py_set_NoDup.
Qed.

(** ** The scorer does not depend on the order of its arguments *)

Lemma ratio_similarity_sym (a b : Q) :
  same_similarity (ratio_similarity a b) (ratio_similarity b a).
Proof.
  unfold ratio_similarity, py_div.
  rewrite (Qeqb_comp _ _ (Q.max_comm b a) 0 0 (Qeq_refl 0)).
  destruct (Qeq_bool (Qmax a b) 0); unfold rbind, same_similarity; [reflexivity|].
  rewrite (Qabs_Qminus b a), (Q.max_comm b a). reflexivity.
Qed.

Lemma scaled_similarity_sym (a b scale : Q) :
  same_similarity (scaled_similarity a b scale) (scaled_similarity b a scale).
Proof.
  unfold scaled_similarity, py_div.
  destruct (Qeq_bool scale 0); unfold rbind, same_similarity; [reflexivity|].
  rewrite (Qabs_Qminus b a). reflexivity.
Qed.

Lemma same_amount_weighted (r1 r2 : result Q) (w : Q) :
  same_similarity r1 r2 ->
  match r1, r2 with
  | Ok _, Ok _ =>
      same_amount (s <- r1 ;; Ok (Some (s * w))) (s <- r2 ;; Ok (Some (s * w)))
  | _, _ => True
  end.
Proof.
  destruct r1, r2; simpl; try exact (fun _ => I).
  intros E. rewrite E. reflexivity.
Qed.

Lemma positive_term_sym (k : string) (sim : Q -> Q -> result Q) (w : Q)
    (base target : pydict) :
  number_or_absent base k -> number_or_absent target k ->
  (forall a b, 0 < a -> 0 < b ->
     exists x y, sim a b = Ok x /\ sim b a = Ok y /\ x == y) ->
  same_amount (positive_term k sim w base target) (positive_term k sim w target base).
Proof.
  intros Hb Ht Hsim. unfold positive_term, both_positive, py_gt.
  destruct (as_num_number _ (getd_number _ _ Hb)) as [a Ea].
  destruct (as_num_number _ (getd_number _ _ Ht)) as [b Eb].
  rewrite Ea, Eb. simpl.
  destruct (Qltb 0 a) eqn:La, (Qltb 0 b) eqn:Lb; simpl;
    rewrite ?Ea, ?Eb; simpl; try exact I.
  apply Qltb_lt in La, Lb.
  destruct (Hsim a b La Lb) as (x & y & -> & -> & E). simpl.
  rewrite E. reflexivity.
Qed.

Lemma ratio_positive_sym (a b : Q) :
  0 < a -> 0 < b ->
  exists x y, ratio_similarity a b = Ok x /\ ratio_similarity b a = Ok y /\ x == y.
Proof.
  intros Ha Hb.
  destruct (ratio_similarity_positive a b Ha Hb) as (x & Ex & _).
  destruct (ratio_similarity_positive b a Hb Ha) as (y & Ey & _).
  exists x, y. split; [exact Ex|]. split; [exact Ey|].
  pose proof (ratio_similarity_sym a b) as H. rewrite Ex, Ey in H. exact H.
Qed.

Lemma scaled_30_sym (a b : Q) :
  exists x y, scaled_similarity a b 30 = Ok x /\ scaled_similarity b a 30 = Ok y /\ x == y.
Proof.
  pose proof (scaled_similarity_sym a b 30) as H.
  unfold scaled_similarity, py_div in *.
  change (Qeq_bool 30 0) with false in *. unfold rbind, same_similarity in H.
  do 2 eexists. split; [reflexivity|]. split; [reflexivity | exact H].
Qed.

Lemma cup_to_bmi_term_sym (base target : pydict) :
  is_string (get base "cup_to_bmi") = false ->
  is_string (get target "cup_to_bmi") = false ->
  same_amount (cup_to_bmi_term base target) (cup_to_bmi_term target base).
Proof.
  intros Hb Ht. unfold cup_to_bmi_term.
  rewrite (andb_comm (truthy (get target "bmi"))).
  destruct (truthy (get base "bmi") && truthy (get target "bmi"))%bool; [|exact I].
  unfold get, getd in *.
  destruct (base !! "cup_to_bmi") as [x|], (target !! "cup_to_bmi") as [y|];
    simpl in *; rewrite ?andb_false_r; try exact I.
  rewrite (andb_comm (truthy y)).
  destruct (truthy x) eqn:Tx, (truthy y) eqn:Ty; simpl; try exact I.
  assert (exists a, as_num x = Ok a) as [a Ea]
    by (destruct x; simpl in *; try discriminate; eexists; reflexivity).
  assert (exists b, as_num y = Ok b) as [b Eb]
    by (destruct y; simpl in *; try discriminate; eexists; reflexivity).
  rewrite Ea, Eb. simpl.
  assert (Ha : ~ a == 0) by (eapply truthy_number; eassumption).
  assert (Hb' : ~ b == 0) by (eapply truthy_number; eassumption).
  rewrite (ratio_similarity_nonzero a b Ha Hb'), (ratio_similarity_nonzero b a Hb' Ha).
  unfold rbind, same_amount.
  rewrite (Qabs_Qminus b a), (Q.max_comm b a). reflexivity.
Qed.

Lemma band_size_term_sym (base target : pydict) :
  same_amount (band_size_term base target) (band_size_term target base).
Proof.
  unfold band_size_term.
  rewrite (andb_comm (truthy (get target "band_size"))).
  destruct (truthy (get base "band_size")) eqn:Tb; simpl; [|exact I].
  destruct (truthy (get target "band_size")) eqn:Tt; simpl; [|exact I].
  destruct (py_int_truthy _ Tb) as [[a ->] | ->], (py_int_truthy _ Tt) as [[b ->] | ->];
    simpl; try exact I.
  pose proof (ratio_similarity_sym (inject_Z a) (inject_Z b)) as H.
  destruct (ratio_similarity_zero (inject_Z a) (inject_Z b)) as [Ea | [r Ea]];
    destruct (ratio_similarity_zero (inject_Z b) (inject_Z a)) as [Eb | [r' Eb]];
    rewrite Ea, Eb in *; simpl in *; try exact I; try discriminate H; try contradiction.
  rewrite H. reflexivity.
Qed.

Lemma cup_letter_term_sym (base target : pydict) :
  is_number (get base "cup_letter") = false ->
  is_number (get target "cup_letter") = false ->
  same_amount (cup_letter_term base target) (cup_letter_term target base).
Proof.
  intros Hb Ht. unfold cup_letter_term.
  rewrite (andb_comm (truthy (get target "cup_letter"))).
  destruct (truthy (get base "cup_letter")) eqn:Tb; simpl; [|exact I].
  destruct (truthy (get target "cup_letter")) eqn:Tt; simpl; [|exact I].
  destruct (str_index_string cup_letters _ Hb Tb) as [[i ->] | ->],
           (str_index_string cup_letters _ Ht Tt) as [[j ->] | ->];
    unfold rbind, try_value_zero, same_amount; try exact I.
  pose proof (scaled_similarity_sym (inject_Z (Z.of_nat i)) (inject_Z (Z.of_nat j))
                (inject_Z (Z.of_nat (String.length cup_letters)))) as H.
  unfold scaled_similarity, py_div in *.
  change (Qeq_bool (inject_Z (Z.of_nat (String.length cup_letters))) 0)
    with false in *.
  unfold rbind, same_similarity in H. rewrite H. reflexivity.
Qed.

Lemma run_terms_sym (ts : list (pydict -> pydict -> result (option Q)))
    (base target : pydict) :
  Forall (fun t => same_amount (t base target) (t target base)) ts ->
  forall s s', s == s' ->
  exists q q', run_terms ts base target s = Ok q /\
               run_terms ts target base s' = Ok q' /\ q == q'.
Proof.
  induction 1 as [|t ts Ht _ IH]; intros s s' Hs; simpl.
  - exists s, s'. repeat split. exact Hs.
  - unfold same_amount in Ht.
    destruct (t base target) as [[c|]|], (t target base) as [[c'|]|];
      try contradiction; simpl; apply IH; simpl; [|exact Hs].
    rewrite Hs, Ht. reflexivity.
Qed.

(** On records typed as the data model has them, scoring [base] against
    [target] and [target] against [base] both return, and return the
    same number. *)
Theorem score_is_symmetric (base target : pydict) :
  typed_performer base -> typed_performer target ->
  exists q q',
    _calculate_similarity base target = Ok q /\
    _calculate_similarity target base = Ok q' /\
    q == q'.
Proof.
  intros [] []. unfold _calculate_similarity.
  apply run_terms_sym; [|reflexivity].
  unfold similarity_terms.
  repeat (apply Forall_cons_2); try apply Forall_nil_2.
  - apply cup_to_bmi_term_sym; assumption.
  - apply positive_term_sym; try assumption. apply ratio_positive_sym.
  - apply positive_term_sym; try assumption. apply ratio_positive_sym.
  - apply band_size_term_sym.
  - apply cup_letter_term_sym; assumption.
  - apply positive_term_sym; try assumption. apply ratio_positive_sym.
  - apply positive_term_sym; try assumption. intros. apply scaled_30_sym.
  - apply positive_term_sym; try assumption. intros. apply scaled_30_sym.
Qed.

(** ** The counter that the two caches share *)

Section SharedCounter.

Variable py_str : pyval -> string.
Variable py_format_2f : Q -> string.
Variable rng : Type.
Variable shuffle : forall A : Type, list A -> rng -> list A * rng.

Local Abbreviation performers_call :=
  (recommend_performers py_str py_format_2f rng shuffle).

(** C3, as the code has it: there is one rotation counter, and every
    call of either method moves it by one and leaves the cache of the
    other method alone. On a populated performer cache the call of
    [recommend_performers] that follows a call of [recommend_scenes]
    therefore serves the pool rotated to the left by two more than the
    counter, where without the call in between it is rotated by one more.
    The same the other way round: on a populated scene cache, whatever
    the performer cache holds, every list is served rotated by one more
    than the counter, and by two more when a call of
    [recommend_performers] came in between. *)
Theorem one_counter_rotates_both_caches
    (outcome outcome' : result stats) (self : module_state) (g : rng) :
  let c := _recommendation_counter self in
  let after_scenes := snd (recommend_scenes outcome' self) in
  let after_performers := fst (snd (performers_call outcome (self, g))) in
  _recommendation_counter after_scenes = S c /\
  _recommendation_counter after_performers = S c /\
  _performer_recommendation_cache after_scenes = _performer_recommendation_cache self /\
  _scene_recommendation_cache after_performers = _scene_recommendation_cache self /\
  (_performer_recommendation_cache self <> [] ->
   let pool := map snd (_performer_recommendation_cache self) in
   fst (performers_call outcome (self, g)) = take 10 (rotated_left (c + 1) pool) /\
   fst (performers_call outcome (after_scenes, g)) = take 10 (rotated_left (c + 2) pool)) /\
  (_scene_recommendation_cache self <> ∅ ->
   forall category,
     fst (recommend_scenes outcome' self) !! category =
       rotated_left (c + 1) <$> _scene_recommendation_cache self !! category /\
     fst (recommend_scenes outcome' after_performers) !! category =
       rotated_left (c + 2) <$> _scene_recommendation_cache self !! category).
Proof.
  intros c after_scenes after_performers.
  destruct (recommend_scenes_frame outcome' self) as (Hc & Hp & _).
  fold after_scenes in Hc, Hp.
  destruct (recommend_performers_frame py_str py_format_2f rng shuffle outcome (self, g))
    as (Hc' & _ & _ & Hs').
  cbn [fst] in Hc', Hs'. fold after_performers in Hc', Hs'.
  split; [exact Hc|]. split; [exact Hc'|]. split; [exact Hp|]. split; [exact Hs'|].
  split.
  - intros Hne pool. split.
    + rewrite recommend_performers_hot by exact Hne. cbn [fst].
      unfold rotated_left, rotate. subst pool c. rewrite length_map.
      replace (_recommendation_counter self + 1)%nat
        with (S (_recommendation_counter self)) by lia.
      reflexivity.
    + rewrite recommend_performers_hot by (rewrite Hp; exact Hne). cbn [fst].
      rewrite Hc, Hp. unfold rotated_left, rotate. subst pool c. rewrite length_map.
      replace (_recommendation_counter self + 2)%nat
        with (S (S (_recommendation_counter self))) by lia.
      reflexivity.
  - intros Hne category. split.
    + rewrite recommend_scenes_hot by exact Hne. cbn [fst].
      rewrite lookup_rotated. subst c.
      replace (_recommendation_counter self + 1)%nat
        with (S (_recommendation_counter self)) by lia.
      reflexivity.
    + rewrite recommend_scenes_hot by (rewrite Hs'; exact Hne). cbn [fst].
      rewrite Hs', Hc', lookup_rotated. subst c.
      replace (_recommendation_counter self + 2)%nat
        with (S (S (_recommendation_counter self))) by lia.
      reflexivity.
Qed.

End SharedCounter.

(** The shared counter seen from the scene cache: with both caches
    filled and the counter at 2, the list of five scenes is served from
    its fourth record, and from its fifth when a call of
    [recommend_performers] came in between. *)
Lemma performers_call_moves_scene_rotation :
  let self := MoreExamples.both_warm in
  let outcome := Ok Examples.small_stats in
  let direct := recommend_scenes outcome self in
  let after_performers := fst (snd (run_performers outcome (self, tt))) in
  let interleaved := recommend_scenes outcome after_performers in
  _recommendation_counter self = 2%nat /\
  map scene_id <$> _scene_recommendation_cache self !! non_favorite_performer_scenes
    = Some [VStr "1"; VStr "2"; VStr "3"; VStr "4"; VStr "5"] /\
  map scene_id <$> fst direct !! non_favorite_performer_scenes
    = Some [VStr "4"; VStr "5"; VStr "1"; VStr "2"; VStr "3"] /\
  map scene_id <$> fst interleaved !! non_favorite_performer_scenes
    = Some [VStr "5"; VStr "1"; VStr "2"; VStr "3"; VStr "4"] /\
  map rec_id (fst (run_performers outcome (self, tt)))
    = ["o_counter_1"; "o_counter_2"; "o_counter_3"] /\
  map rec_id (fst (run_performers outcome (snd direct, tt)))
    = ["o_counter_2"; "o_counter_3"; "o_counter_1"].
Proof. repeat split; vm_compute; reflexivity. Qed.

(** The shared counter on an instance with both caches filled *)
Lemma one_counter_rotates_both_caches_witness :
  let self := MoreExamples.both_warm in
  let outcome := Ok Examples.small_stats in
  _performer_recommendation_cache self <> [] /\
  _scene_recommendation_cache self <> ∅ /\
  let c := _recommendation_counter self in
  let after_scenes := snd (recommend_scenes outcome self) in
  let after_performers := fst (snd (run_performers outcome (self, tt))) in
  let pool := map snd (_performer_recommendation_cache self) in
  _recommendation_counter after_scenes = S c /\
  _recommendation_counter after_performers = S c /\
  _performer_recommendation_cache after_scenes = _performer_recommendation_cache self /\
  _scene_recommendation_cache after_performers = _scene_recommendation_cache self /\
  (fst (run_performers outcome (self, tt)) = take 10 (rotated_left (c + 1) pool) /\
   fst (run_performers outcome (after_scenes, tt)) = take 10 (rotated_left (c + 2) pool)) /\
  (forall category,
     fst (recommend_scenes outcome self) !! category =
       rotated_left (c + 1) <$> _scene_recommendation_cache self !! category /\
     fst (recommend_scenes outcome after_performers) !! category =
       rotated_left (c + 2) <$> _scene_recommendation_cache self !! category).
Proof.
  intros self outcome.
  assert (Hp : _performer_recommendation_cache self <> [])
    by (vm_compute; discriminate).
  assert (Hs : _scene_recommendation_cache self <> ∅).
  { intros E. apply (f_equal (fun m => m !! non_favorite_performer_scenes)) in E.
    vm_compute in E. discriminate E. }
  split; [exact Hp|]. split; [exact Hs|].
  destruct (one_counter_rotates_both_caches render render_2f unit shuffle_id
              outcome outcome self tt) as (H1 & H2 & H3 & H4 & H5 & H6).
  split; [exact H1|]. split; [exact H2|]. split; [exact H3|]. split; [exact H4|].
  split; [exact (H5 Hp) | exact (H6 Hs)].
Defined.

(** ** The categories by priority, the sort and the cut *)

Lemma existsb_elem {A} (f : A -> bool) (l : list A) :
  existsb f l = true <-> exists x, x ∈ l /\ f x = true.
Proof.
  rewrite existsb_exists. split; intros (x & Hx & Hf); exists x; split;
    try exact Hf; apply list_elem_of_In; exact Hx.
Qed.

Lemma has_favorite_performer_existsb (s : scene) :
  has_favorite_performer s <->
  existsb (fun p => truthy (getd p "favorite" (VBool false))) (performers s) = true.
Proof. unfold has_favorite_performer. rewrite existsb_elem. reflexivity. Qed.

Lemma has_top_performer_existsb (top : list pyval) (s : scene) :
  has_top_performer top s <->
  existsb (fun name => py_in name top) (scene_performer_names s) = true.
Proof.
  unfold has_top_performer, scene_performer_names. rewrite existsb_elem. split.
  - intros (p & Hp & Hin). exists (getd p "name" (VStr "")). split; [|exact Hin].
    apply list_elem_of_fmap. exists p. split; [reflexivity | exact Hp].
  - intros (name & Hname & Hin). apply list_elem_of_fmap in Hname as (p & -> & Hp).
    exists p. split; assumption.
Qed.

(** The category the code computes is the one the priority rule names. *)
Lemma category_of_falls_under (popular top mct : list pyval) (s : scene)
    (category : string) :
  falls_under top s (scene_record popular mct s) category <->
  category_of top mct s = category.
Proof.
  pose proof (has_favorite_performer_existsb s) as Hf.
  pose proof (has_top_performer_existsb top s) as Ht.
  unfold category_of. cbn [tag_similarity scene_record].
  destruct (existsb (fun p => truthy (getd p "favorite" (VBool false))) (performers s));
    destruct (existsb (fun name => py_in name top) (scene_performer_names s));
    destruct (Qltb (3 # 10) (_calculate_tag_similarity (scene_tag_names s) mct)) eqn:Eq;
    (split;
     [ intros H; inversion H as [Hfav | Hfav Htop | Hfav Htop Hsim | Hfav Htop Hsim];
       try reflexivity;
       try (exfalso; apply Hfav, Hf; reflexivity);
       try (exfalso; apply Htop, Ht; reflexivity);
       try (apply Hf in Hfav; discriminate Hfav);
       try (apply Ht in Htop; discriminate Htop);
       try (apply Qltb_lt in Hsim; cbn [tag_similarity scene_record] in Hsim;
            congruence);
       try (apply Qltb_ge in Hsim; cbn [tag_similarity scene_record] in Hsim;
            congruence)
     | intros <- ]).
  - apply under_favorite, Hf. reflexivity.
  - apply under_favorite, Hf. reflexivity.
  - apply under_favorite, Hf. reflexivity.
  - apply under_favorite, Hf. reflexivity.
  - apply under_recommended; [intros H; apply Hf in H; discriminate H | apply Ht; reflexivity].
  - apply under_recommended; [intros H; apply Hf in H; discriminate H | apply Ht; reflexivity].
  - apply under_similar_tags;
      [intros H; apply Hf in H; discriminate H
      |intros H; apply Ht in H; discriminate H
      |apply Qltb_lt; exact Eq].
  - apply under_fallback;
      [intros H; apply Hf in H; discriminate H
      |intros H; apply Ht in H; discriminate H
      |apply Qltb_ge; exact Eq].
Qed.

Lemma kept_filter {A} (P : A -> Prop) (f : A -> bool) (l : list A) :
  (forall x, f x = true <-> P x) -> kept P l (List.filter f l).
Proof.
  intros Hf. induction l as [|x l IH]; simpl; [constructor|].
  destruct (f x) eqn:E.
  - apply kept_keep; [apply Hf; exact E | exact IH].
  - apply kept_skip; [|exact IH]. intros HP. apply Hf in HP. congruence.
Qed.

(** *** The sort is stable *)

Section Stable.

Context {A K : Type}.
Variable lt : K -> K -> bool.
Variable same : K -> K -> bool.
Variable key : A -> K.
Hypothesis lt_apart : forall k a b, lt a b = true -> same k a = true -> same k b = false.

Lemma insert_desc_stable (k : K) (x : A) (l : list A) :
  List.filter (fun y => same k (key y)) (insert_desc lt key x l)
  = List.filter (fun y => same k (key y)) (x :: l).
Proof.
  induction l as [|y l IH]; [reflexivity|].
  cbn [insert_desc]. destruct (lt (key x) (key y)) eqn:E; [|reflexivity].
  cbn [List.filter] in *. rewrite IH.
  destruct (same k (key x)) eqn:Ex; [|reflexivity].
  rewrite (lt_apart k _ _ E Ex). reflexivity.
Qed.

Lemma sorted_desc_stable (k : K) (l : list A) :
  List.filter (fun y => same k (key y)) (sorted_desc lt key l)
  = List.filter (fun y => same k (key y)) l.
Proof.
  induction l as [|x l IH]; [reflexivity|].
  unfold sorted_desc in *. cbn [foldr]. rewrite insert_desc_stable.
  cbn [List.filter]. rewrite IH. reflexivity.
Qed.

End Stable.

(** What [sort_and_limit] returns: the first records of the sorted list *)
Lemma sort_and_limit_sorted_from (category : string) (l : list scene_recommendation) :
  exists full,
    sorted_from category l full /\
    sort_and_limit category l = take (category_limit category) full.
Proof.
  unfold sort_and_limit, sorted_from, category_limit, ranked, same_rank.
  destruct (String.eqb category similar_tag_scenes).
  - exists (sorted_desc Qltb tag_similarity l).
    split; [|reflexivity]. split; [apply sorted_desc_perm|].
    split; [apply sorted_desc_descending|].
    intros r.
    apply (sorted_desc_stable Qltb (fun k a => Qeq_bool k a) tag_similarity).
    intros k a b Hlt Hsame. apply Qltb_lt in Hlt. apply Qeq_bool_iff in Hsame.
    destruct (Qeq_bool k b) eqn:E; [|reflexivity].
    apply Qeq_bool_iff in E. exfalso. rewrite <- Hsame, E in Hlt.
    exact (Qlt_irrefl _ Hlt).
  - exists (sorted_desc Nat.ltb similarity l).
    split; [|reflexivity]. split; [apply sorted_desc_perm|].
    split; [apply sorted_desc_by_popularity|].
    intros r.
    apply (sorted_desc_stable Nat.ltb (fun k a => Nat.eqb k a) similarity).
    intros k a b Hlt Hsame. apply Nat.ltb_lt in Hlt. apply Nat.eqb_eq in Hsame.
    apply Nat.eqb_neq. lia.
Qed.

(** What a successful scan returns, with the two vocabularies it uses *)
Lemma scene_scan_result (st : stats) (scenes : list scene)
    (recs : gmap string (list scene_recommendation)) :
  scene_scan (Ok st) scenes = Ok recs ->
  exists popular high : list pyval,
    _get_popular_tags scenes 3 20 = Ok popular /\
    high_o_counter_tags scenes = Ok high /\
    let top := map (fun p => getd p "name" (VStr "")) (top_o_counter_performers st) in
    let mct := map fst (most_common 20 (counter_of high)) in
    (forall category, category ∈ categories ->
       recs !! category =
         Some (sort_and_limit category (uncut popular top mct scenes category))) /\
    (forall category, category ∉ categories -> recs !! category = None).
Proof.
  unfold scene_scan. intros H. simpl in H.
  destruct (_get_popular_tags scenes 3 20) as [popular|] eqn:Ep; simpl in H; [|discriminate].
  destruct (high_o_counter_tags scenes) as [high|] eqn:Eh; simpl in H; [|discriminate].
  inversion H; subst; clear H.
  exists popular, high.
  split; [reflexivity|]. split; [reflexivity|]. simpl. split.
  - intros category Hc. rewrite map_lookup_imap, categorise_lookup.
    rewrite (proj1 (no_recommendations_lookup category) Hc). reflexivity.
  - intros category Hc. rewrite map_lookup_imap, categorise_lookup.
    rewrite (proj2 (no_recommendations_lookup category) Hc). reflexivity.
Qed.

(** C5, as the code has it: on a cold cache, with a snapshot whose
    o_counters are numbers, the returned mapping has the four categories
    as its keys. The list of a category is obtained from the unseen
    scenes that fall under the category by the priority rule (a favorite
    performer, else a top performer, else a tag similarity above 0.3,
    else the fallback), in the order of the snapshot: their records are
    sorted from the greatest key to the least, records with the same key
    staying in order, and the first 15 (similar tags) or 10 (the other
    categories) of the sorted list are returned. Every scene falls under
    one category and no other, so that an unseen scene is in at most one
    list, and in none when it comes after the cut. *)
Theorem scenes_partitioned_then_cut (st : stats) (self : module_state) :
  _scene_recommendation_cache self = ∅ ->
  scenes_data self <> [] ->
  Forall scene_typed (scenes_data self) ->
  let out := fst (recommend_scenes (Ok st) self) in
  let top := map (fun p => getd p "name" (VStr "")) (top_o_counter_performers st) in
  exists popular high : list pyval,
    _get_popular_tags (scenes_data self) 3 20 = Ok popular /\
    high_o_counter_tags (scenes_data self) = Ok high /\
    let record := scene_record popular (map fst (most_common 20 (counter_of high))) in
    (forall category, category ∈ categories ->
       exists chosen full,
         kept (fun s => unseen_scene s /\ falls_under top s (record s) category)
              (scenes_data self) chosen /\
         sorted_from category (map record chosen) full /\
         out !! category = Some (take (category_limit category) full)) /\
    (forall category, category ∉ categories -> out !! category = None) /\
    (forall s, exists category,
       category ∈ categories /\
       falls_under top s (record s) category /\
       forall category', falls_under top s (record s) category' -> category' = category) /\
    (forall category l r,
       out !! category = Some l -> r ∈ l ->
       (length l <= category_limit category)%nat /\
       exists s, s ∈ scenes_data self /\ unseen_scene s /\ r = record s /\
                 falls_under top s r category).
Proof.
  intros Hc Hne Hty out top. subst out.
  rewrite recommend_scenes_cold by exact Hc.
  destruct (scenes_data self) as [|s0 ss] eqn:Es; [contradiction|].
  destruct (scene_scan_typed st (s0 :: ss) Hty) as [recs E]. rewrite E.
  apply scene_scan_result in E as (popular & high & Ep & Eh & Hin & Hout).
  fold top in Hin. cbv zeta in Hin.
  set (mct := map fst (most_common 20 (counter_of high))) in *.
  exists popular, high. split; [exact Ep|]. split; [exact Eh|].
  cbv zeta. fold mct.
  assert (Hsel : forall category s,
            assigned_to top mct category s = true <->
            unseen_scene s /\ falls_under top s (scene_record popular mct s) category).
  { intros category s. rewrite assigned_to_iff, category_of_falls_under.
    unfold unseen_scene. split; intros [H1 H2]; split; congruence. }
  split; [|split; [exact Hout|split]].
  - intros category Hcat.
    destruct (sort_and_limit_sorted_from category
                (uncut popular top mct (s0 :: ss) category)) as (full & Hsorted & Hcut).
    exists (List.filter (assigned_to top mct category) (s0 :: ss)), full.
    split; [apply kept_filter; intros s; apply Hsel|].
    split; [exact Hsorted|].
    rewrite (Hin category Hcat), Hcut. reflexivity.
  - intros s. exists (category_of top mct s).
    split; [apply category_of_in_categories|].
    split; [apply category_of_falls_under; reflexivity|].
    intros category' H. apply category_of_falls_under in H. congruence.
  - intros category l r Hl Hr.
    destruct (decide (category ∈ categories)) as [Hcat|Hcat];
      [|rewrite (Hout category Hcat) in Hl; discriminate].
    rewrite (Hin category Hcat) in Hl. inversion Hl; subst l; clear Hl.
    split.
    + pose proof (sort_and_limit_length category
                    (uncut popular top mct (s0 :: ss) category)) as Hlen.
      unfold category_limit. exact Hlen.
    + apply sort_and_limit_subset in Hr. unfold uncut in Hr.
      apply list_elem_of_fmap in Hr as (s & -> & Hs).
      apply list_elem_of_In, filter_In in Hs as [Hs Ha].
      apply Hsel in Ha as [Hu Hf].
      exists s. split; [apply list_elem_of_In; exact Hs|].
      split; [exact Hu|]. split; [reflexivity | exact Hf].
Qed.

(** The four categories on scenes of every kind: the scene with a
    favorite performer who is also a top performer is a favorite scene;
    the scene with a top performer and a tag similarity of 1 is a
    recommended one; of the eleven fallback scenes the last of the
    snapshot, the only one with a popular tag, comes first, and the
    tenth of the snapshot is cut; the scene seen three times is in no
    list. *)
Lemma priority_and_cut_on_mixed_scenes :
  let out := fst (recommend_scenes (Ok MoreExamples.mixed_stats)
                    (cold [] MoreExamples.mixed_scenes)) in
  map scene_id <$> out !! favorite_performer_scenes = Some [VStr "fav"] /\
  map scene_id <$> out !! recommended_performer_scenes = Some [VStr "top"] /\
  map scene_id <$> out !! similar_tag_scenes = Some [VStr "tags"] /\
  map scene_id <$> out !! non_favorite_performer_scenes =
    Some [VStr "late"; VStr "1"; VStr "2"; VStr "3"; VStr "4"; VStr "5";
          VStr "6"; VStr "7"; VStr "8"; VStr "9"] /\
  map (fun s => get (scalars s) "id") (drop 13 MoreExamples.mixed_scenes)
    = [VStr "10"; VStr "late"] /\
  _get_popular_tags MoreExamples.mixed_scenes 3 20
    = Ok [VStr "a"; VStr "b"; VStr "c"; VStr "d"].
Proof. repeat split; vm_compute; reflexivity. Qed.

(** The categories of the scenes of every kind *)
Lemma scenes_partitioned_then_cut_witness :
  let st := MoreExamples.mixed_stats in
  let self := cold [] MoreExamples.mixed_scenes in
  _scene_recommendation_cache self = ∅ /\
  scenes_data self <> [] /\
  Forall scene_typed (scenes_data self) /\
  let out := fst (recommend_scenes (Ok st) self) in
  let top := map (fun p => getd p "name" (VStr "")) (top_o_counter_performers st) in
  exists popular high : list pyval,
    _get_popular_tags (scenes_data self) 3 20 = Ok popular /\
    high_o_counter_tags (scenes_data self) = Ok high /\
    let record := scene_record popular (map fst (most_common 20 (counter_of high))) in
    (forall category, category ∈ categories ->
       exists chosen full,
         kept (fun s => unseen_scene s /\ falls_under top s (record s) category)
              (scenes_data self) chosen /\
         sorted_from category (map record chosen) full /\
         out !! category = Some (take (category_limit category) full)) /\
    (forall category, category ∉ categories -> out !! category = None) /\
    (forall s, exists category,
       category ∈ categories /\
       falls_under top s (record s) category /\
       forall category', falls_under top s (record s) category' -> category' = category) /\
    (forall category l r,
       out !! category = Some l -> r ∈ l ->
       (length l <= category_limit category)%nat /\
       exists s, s ∈ scenes_data self /\ unseen_scene s /\ r = record s /\
                 falls_under top s r category).
Proof.
  intros st self.
  assert (H1 : _scene_recommendation_cache self = ∅) by reflexivity.
  assert (H2 : scenes_data self <> []) by (vm_compute; discriminate).
  assert (H3 : Forall scene_typed (scenes_data self)).
  { apply Forall_forall. intros s Hs. apply list_elem_of_In in Hs.
    vm_compute in Hs.
    repeat (destruct Hs as [<- | Hs]; [vm_compute; reflexivity|]).
    destruct Hs. }
  do 3 (split; [assumption|]).
  exact (scenes_partitioned_then_cut st self H1 H2 H3).
Defined.

(** ** The further properties on the example data *)

(** The first seed and the unseen performer score each other alike. *)
Lemma score_is_symmetric_witness :
  typed_performer (Examples.seed "1") /\ typed_performer Examples.unseen /\
  exists q q',
    _calculate_similarity (Examples.seed "1") Examples.unseen = Ok q /\
    _calculate_similarity Examples.unseen (Examples.seed "1") = Ok q' /\
    q == q'.
Proof.
  assert (Hb : typed_performer (Examples.seed "1"))
    by (constructor; vm_compute; reflexivity).
  assert (Ht : typed_performer Examples.unseen)
    by (constructor; vm_compute; reflexivity).
  split; [exact Hb|]. split; [exact Ht|].
  exact (score_is_symmetric (Examples.seed "1") Examples.unseen Hb Ht).
Defined.



(** Two lists without a common tag *)
Lemma tag_similarity_extremes_witness :
  (forall x, x ∈ [VStr "x"] -> py_in x [VStr "y"; VStr "z"] = false) /\
  _calculate_tag_similarity [VStr "x"] [VStr "y"; VStr "z"] == 0.
Proof.
  assert (H : forall x, x ∈ [VStr "x"] -> py_in x [VStr "y"; VStr "z"] = false).
  { intros x Hx. apply list_elem_of_singleton in Hx. subst x. vm_compute. reflexivity. }
  split; [exact H|].
  exact (proj2 (proj1 (tag_similarity_extremes [VStr "x"] [VStr "y"; VStr "z"])) H).
Defined.

(** The popular tags of the scenario *)
Lemma popular_tags_are_distinct_names_witness :
  let names := [VStr "x"; VStr "y"] in
  _get_popular_tags Examples.scenario_scenes 3 5 = Ok names /\
  (length names <= 5)%nat /\
  Forall (fun name => truthy name = true) names /\
  (forall i j a b,
     names !! i = Some a -> names !! j = Some b -> py_eq a b = true -> i = j).
Proof.
  intros names.
  assert (H : _get_popular_tags Examples.scenario_scenes 3 5 = Ok names)
    by (vm_compute; reflexivity).
  split; [exact H|].
  exact (popular_tags_are_distinct_names Examples.scenario_scenes 3 5 names H).
Defined.

(** The tag [x] of the one scene that lists the performer [P] *)
Lemma performer_tags_come_from_their_scenes_witness :
  let scenes := [Examples.plain_scene "1" 0 ["z"]; MoreExamples.scene_of_p] in
  (exists s, s ∈ scenes /\
             py_in (VStr "P") (scene_performer_names s) = true /\
             py_in (VStr "x") (scene_tag_names s) = true) /\
  py_in (VStr "x") (_get_performer_tags scenes (VStr "P")) = true.
Proof.
  intros scenes.
  assert (H : exists s, s ∈ scenes /\
                py_in (VStr "P") (scene_performer_names s) = true /\
                py_in (VStr "x") (scene_tag_names s) = true).
  { exists MoreExamples.scene_of_p. split.
    - apply list_elem_of_further, list_elem_of_here.
    - split; vm_compute; reflexivity. }
  split; [exact H|].
  exact (proj2 (proj1 (performer_tags_come_from_their_scenes scenes (VStr "P"))
                      (VStr "x")) H).
Defined.

(** A call on the populated pool of three records *)
Lemma cached_records_have_distinct_ids_witness :
  let h := snd (run_performers (Ok Examples.small_stats) (Examples.small_snapshot, tt)) in
  reachable render render_2f unit shuffle_id h /\
  _performer_recommendation_cache (fst h) <> [] /\
  NoDup (map rec_id (fst (run_performers (Raise CollaboratorError) h))).
Proof.
  intros h.
  assert (Hr : reachable render render_2f unit shuffle_id h).
  { exact (reach_performers render render_2f unit shuffle_id (Ok Examples.small_stats) _
             (reach_init render render_2f unit shuffle_id
                (Ok (Examples.three_seeds ++ [Examples.unseen], [])) tt)). }
  assert (Hc : _performer_recommendation_cache (fst h) <> [])
    by (vm_compute; discriminate).
  split; [exact Hr|]. split; [exact Hc|].
  exact (cached_records_have_distinct_ids render render_2f unit shuffle_id
           (Raise CollaboratorError) h Hr Hc).
Defined.

(** The pool of three records: every third call returns the same list. *)
Lemma rotation_cycles_through_the_pool_witness :
  let self := Examples.warm_small in
  let outcome := Ok Examples.small_stats in
  let calls := successive_calls render render_2f unit shuffle_id in
  _performer_recommendation_cache self <> [] /\
  let pool := map snd (_performer_recommendation_cache self) in
  let n := length pool in
  (forall k, fst (calls (k + n)%nat outcome (self, tt)) = fst (calls k outcome (self, tt))) /\
  (forall r, r ∈ pool ->
     exists k, (k < n)%nat /\ head (fst (calls k outcome (self, tt))) = Some r).
Proof.
  intros self outcome calls.
  assert (Hc : _performer_recommendation_cache self <> [])
    by (vm_compute; discriminate).
  split; [exact Hc|].
  exact (rotation_cycles_through_the_pool render render_2f unit shuffle_id
           outcome self tt Hc).
Defined.

(** The records of a first call on the three seeds *)
Lemma served_records_are_strategy_records_witness :
  (forall A l g, Permutation (fst (shuffle_id A l g)) l) /\
  reachable render render_2f unit shuffle_id (Examples.small_snapshot, tt) /\
  Forall strategy_record
    (fst (run_performers (Ok Examples.small_stats) (Examples.small_snapshot, tt))).
Proof.
  assert (Hp : forall A l g, Permutation (fst (shuffle_id A l g)) l)
    by (intros A l g; reflexivity).
  assert (Hr : reachable render render_2f unit shuffle_id (Examples.small_snapshot, tt)).
  { exact (reach_init render render_2f unit shuffle_id
             (Ok (Examples.three_seeds ++ [Examples.unseen], [])) tt). }
  split; [exact Hp|]. split; [exact Hr|].
  exact (served_records_are_strategy_records render render_2f unit shuffle_id Hp
           (Ok Examples.small_stats) (Examples.small_snapshot, tt) Hr).
Defined.

(** The first seed against the snapshot of three seeds and one unseen
    performer *)
Lemma o_counter_record_lists_unseen_matches_witness :
  let base := Examples.seed "1" in
  let self := Examples.small_snapshot in
  let out := o_counter_seed render unit base [] (self, tt) in
  let recs' := MoreExamples.returned out in
  let h' := snd out in
  out = (Ok recs', h') /\
  ((recs' = [] /\ h' = (self, tt)) \/
   exists r,
     recs' = [] ++ [r] /\
     rec_id r = "o_counter_" +:+ render (getd base "id" (VStr "")) /\
     recommendation_type r = "o_counter_similarity" /\
     dict_get (rec_id r) (_performer_recommendation_cache (fst h')) = Some r /\
     similar_performers r <> [] /\
     (length (similar_performers r) <= 5)%nat /\
     Forall (o_counter_candidate render base (performers_data self)) (similar_performers r) /\
     StronglySorted (descending entry_similarity) (similar_performers r)).
Proof.
  intros base self out recs' h'.
  assert (H : out = (Ok recs', h')) by (vm_compute; reflexivity).
  split; [exact H|].
  exact (o_counter_record_lists_unseen_matches render unit base [] recs' self tt h' H).
Defined.

(** The volume seed against the snapshot of one unseen performer *)
Lemma volume_record_lists_close_volumes_witness :
  let vp := Examples.seed "9" in
  let self := Examples.volume_snapshot in
  let out := volume_seed render unit vp [] (self, tt) in
  let recs' := MoreExamples.returned out in
  let h' := snd out in
  out = (Ok recs', h') /\
  ((recs' = [] /\ h' = (self, tt)) \/
   exists r tv,
     py_gt (getd vp "o_counter" (VNum 0)) 0 = Ok true /\
     as_num (getd vp "volume_cc" (VNum 0)) = Ok tv /\ 0 < tv /\
     recs' = [] ++ [r] /\
     rec_id r = volume_key render vp /\
     recommendation_type r = "volume_similarity" /\
     dict_get (rec_id r) (_performer_recommendation_cache (fst h')) = Some r /\
     similar_performers r <> [] /\
     (length (similar_performers r) <= 5)%nat /\
     Forall (volume_match render vp tv (performers_data self)) (similar_performers r) /\
     StronglySorted (descending entry_similarity) (similar_performers r)).
Proof.
  intros vp self out recs' h'.
  assert (H : out = (Ok recs', h')) by (vm_compute; reflexivity).
  split; [exact H|].
  exact (volume_record_lists_close_volumes render unit vp [] recs' self tt h' H).
Defined.


(** A table of four cup letters *)
Lemma cup_strategy_appends_at_most_three_witness :
  let h := (MoreExamples.four_letters_snapshot, tt) in
  let out := cup_strategy render render_2f unit shuffle_id MoreExamples.cup_table [] h in
  let recs' := MoreExamples.returned out in
  out = (Ok recs', snd out) /\
  exists ext,
    recs' = [] ++ ext /\ (length ext <= 3)%nat /\
    Forall (fun r => recommendation_type r = "cup_size_popularity"
                     /\ similar_performers r <> []) ext.
Proof.
  intros h out recs'.
  assert (H : out = (Ok recs', snd out)) by (vm_compute; reflexivity).
  split; [exact H|].
  exact (cup_strategy_appends_at_most_three render render_2f unit shuffle_id
           MoreExamples.cup_table [] recs' h (snd out) H).
Defined.

(** A first call on the two scenes tagged [x] *)
Lemma scene_cache_filled_whole_or_not_witness :
  let self := cold [] Examples.seen_once in
  let outcome := Ok Examples.no_stats in
  _scene_recommendation_cache self = ∅ /\
  let out := fst (recommend_scenes outcome self) in
  let cache' := _scene_recommendation_cache (snd (recommend_scenes outcome self)) in
  ((out = ∅ /\ cache' = ∅) \/
   (cache' = out /\ forall category, is_Some (out !! category) <-> category ∈ categories)).
Proof.
  intros self outcome.
  assert (H : _scene_recommendation_cache self = ∅) by reflexivity.
  split; [exact H|].
  exact (scene_cache_filled_whole_or_not outcome self H).
Defined.

(** A second call, on the cache a first call on five scenes has filled:
    the counter is then 2, and the list of five is served from its third
    record. *)
Lemma scene_cache_served_rotated_witness :
  let self := MoreExamples.five_warm in
  let outcome : result stats := Raise CollaboratorError in
  _scene_recommendation_cache self <> ∅ /\
  let out := fst (recommend_scenes outcome self) in
  let self' := snd (recommend_scenes outcome self) in
  (forall category,
     out !! category =
       rotated_left (S (_recommendation_counter self))
         <$> _scene_recommendation_cache self !! category) /\
  _scene_recommendation_cache self' = _scene_recommendation_cache self /\
  _recommendation_counter self' = S (_recommendation_counter self) /\
  (forall category,
     match _scene_recommendation_cache self !! category, out !! category with
     | Some l, Some l' => Permutation l' l
     | None, None => True
     | _, _ => False
     end).
Proof.
  intros self outcome.
  assert (H : _scene_recommendation_cache self <> ∅).
  { intros E. apply (f_equal (fun m => m !! non_favorite_performer_scenes)) in E.
    vm_compute in E. discriminate E. }
  split; [exact H|].
  exact (scene_cache_served_rotated outcome self H).
Defined.

(** The ids of that call: the cached list [1, 2, 3, 4, 5] is served as
    [3, 4, 5, 1, 2], and as [4, 5, 1, 2, 3] by the call after it. *)
Lemma five_scenes_served_rotated :
  let self := MoreExamples.five_warm in
  let second := recommend_scenes (Raise CollaboratorError) self in
  let third := recommend_scenes (Raise CollaboratorError) (snd second) in
  _recommendation_counter self = 1%nat /\
  map scene_id <$> _scene_recommendation_cache self !! non_favorite_performer_scenes
    = Some [VStr "1"; VStr "2"; VStr "3"; VStr "4"; VStr "5"] /\
  map scene_id <$> fst second !! non_favorite_performer_scenes
    = Some [VStr "3"; VStr "4"; VStr "5"; VStr "1"; VStr "2"] /\
  map scene_id <$> fst third !! non_favorite_performer_scenes
    = Some [VStr "4"; VStr "5"; VStr "1"; VStr "2"; VStr "3"] /\
  fst second !! favorite_performer_scenes = Some [].
Proof. repeat split; vm_compute; reflexivity. Qed.

(** A first call on five scenes, and a second one while the collaborator
    fails *)
Lemma scene_result_is_served_again_witness :
  let self := cold [] MoreExamples.five_scenes in
  let outcome := Ok Examples.no_stats in
  let outcome' : result stats := Raise CollaboratorError in
  _scene_recommendation_cache self = ∅ /\
  fst (recommend_scenes outcome self) <> ∅ /\
  forall category,
    fst (recommend_scenes outcome' (snd (recommend_scenes outcome self))) !! category =
      rotated_left (_recommendation_counter self + 2)
        <$> fst (recommend_scenes outcome self) !! category.
Proof.
  intros self outcome outcome'.
  assert (H : _scene_recommendation_cache self = ∅) by reflexivity.
  assert (Hn : fst (recommend_scenes outcome self) <> ∅).
  { intros E. apply (f_equal (fun m => m !! non_favorite_performer_scenes)) in E.
    vm_compute in E. discriminate E. }
  split; [exact H|]. split; [exact Hn|].
  exact (scene_result_is_served_again outcome outcome' self H Hn).
Defined.

(** The ids of the two calls: the first returns [1, 2, 3, 4, 5], the
    second [3, 4, 5, 1, 2]. *)
Lemma first_result_served_from_third :
  let first := recommend_scenes (Ok Examples.no_stats) (cold [] MoreExamples.five_scenes) in
  let second := recommend_scenes (Raise CollaboratorError) (snd first) in
  map scene_id <$> fst first !! non_favorite_performer_scenes
    = Some [VStr "1"; VStr "2"; VStr "3"; VStr "4"; VStr "5"] /\
  map scene_id <$> fst second !! non_favorite_performer_scenes
    = Some [VStr "3"; VStr "4"; VStr "5"; VStr "1"; VStr "2"].
Proof. split; vm_compute; reflexivity. Qed.

(** The fallback list of eleven unseen scenes *)
Lemma fresh_scene_lists_are_ranked_witness :
  let self := cold [] Examples.eleven_scenes in
  let outcome := Ok Examples.no_stats in
  let category := non_favorite_performer_scenes in
  let l := default [] (fst (recommend_scenes outcome self) !! category) in
  _scene_recommendation_cache self = ∅ /\
  fst (recommend_scenes outcome self) !! category = Some l /\
  (category = similar_tag_scenes ->
   StronglySorted (descending tag_similarity) l /\
   Forall (fun r => 3 # 10 < tag_similarity r) l) /\
  (category <> similar_tag_scenes -> StronglySorted by_popularity l) /\
  (category = non_favorite_performer_scenes ->
   Forall (fun r => tag_similarity r <= 3 # 10) l).
Proof.
  intros self outcome category l.
  assert (H : _scene_recommendation_cache self = ∅) by reflexivity.
  assert (Hl : fst (recommend_scenes outcome self) !! category = Some l)
    by (vm_compute; reflexivity).
  split; [exact H|]. split; [exact Hl|].
  exact (fresh_scene_lists_are_ranked outcome self category l H Hl).
Defined.

(** An unseen scene beside a scene whose o_counter is [None] *)
Lemma uncomparable_o_counter_disables_scenes_witness :
  let self := MoreExamples.uncomparable_snapshot in
  let outcome := Ok Examples.no_stats in
  _scene_recommendation_cache self = ∅ /\
  Exists (fun s => is_number (getd (scalars s) "o_counter" (VNum 0)) = false)
         (scenes_data self) /\
  (forall min_o_counter top_n,
     _get_popular_tags (scenes_data self) min_o_counter top_n = Raise TypeError) /\
  fst (recommend_scenes outcome self) = ∅ /\
  _scene_recommendation_cache (snd (recommend_scenes outcome self)) = ∅.
Proof.
  intros self outcome.
  assert (H : _scene_recommendation_cache self = ∅) by reflexivity.
  assert (He : Exists (fun s => is_number (getd (scalars s) "o_counter" (VNum 0)) = false)
                      (scenes_data self)).
  { apply Exists_cons_tl, Exists_cons_hd. vm_compute. reflexivity. }
  split; [exact H|]. split; [exact He|].
  exact (uncomparable_o_counter_disables_scenes outcome self H He).
Defined.

(** An instance whose load has failed, asked for performers *)
Lemma failed_load_gives_empty_recommendations_witness :
  let self := init (Raise CollaboratorError) in
  drained self /\
  let out := run_performers (Ok Examples.small_stats) (self, tt) in
  fst out = [] /\ drained (fst (snd out)) /\ snd (snd out) = tt.
Proof.
  intros self.
  assert (H : drained self).
  { exact (proj1 (failed_load_gives_empty_recommendations render render_2f unit shuffle_id)
             CollaboratorError). }
  split; [exact H|].
  exact (proj1 (proj2 (failed_load_gives_empty_recommendations render render_2f unit shuffle_id))
           (Ok Examples.small_stats) self tt H).
Defined.
